(** * xscen.utils: a shallow embedding and its properties

    The Python module [xscen/utils.py] is glue code over xarray, pandas and
    xclim.  Pure string and dictionary manipulation is embedded as executable
    functions; exceptions are values of [PyExc] carried by the [result]
    type; Python dictionaries are insertion-ordered association lists with
    unique keys.  Operations of xarray and pandas are modelled, from their
    documented behaviour, on a gridded view of a dataset (module comments
    below say where the view is narrower than the library). *)

From Stdlib Require Import List String Ascii Bool Arith ZArith Lia.
From Stdlib Require Import DecimalString Sorted Permutation.
From Stdlib Require DecimalFacts DecimalNat OrderedTypeEx.
Import ListNotations.
Local Open Scope string_scope.
Local Open Scope list_scope.

(* ================================================================== *)
(** * Part I: definitions *)
(* ================================================================== *)

(** ** Python exceptions and fallible computations *)

Inductive PyExc : Type :=
| KeyError (key : string)
| IndexError (msg : string)
| ValueError (msg : string)
| TypeError (msg : string)
| AttributeError (msg : string)
| NotImplementedError (msg : string)
| OverflowError (msg : string)
| FileNotFoundError (path : string).

Inductive result (A : Type) : Type :=
| Ok (a : A)
| Raise (e : PyExc).
Arguments Ok {A} a.
Arguments Raise {A} e.

Definition bind {A B : Type} (c : result A) (k : A -> result B) : result B :=
  match c with
  | Ok a => k a
  | Raise e => Raise e
  end.

Declare Scope py_scope.
Delimit Scope py_scope with py.
Notation "x <- c ;; k" := (bind c (fun x => k))
  (at level 61, c at next level, right associativity) : py_scope.
Notation "' p <- c ;; k" := (bind c (fun x => match x with p => k end))
  (at level 61, p pattern, c at next level, right associativity) : py_scope.
Local Open Scope py_scope.

(** [for x in l: st = body x st], stopping at the first exception. *)
Fixpoint for_each {A S : Type} (l : list A) (body : A -> S -> result S) (st : S)
  : result S :=
  match l with
  | [] => Ok st
  | x :: rest => st' <- body x st ;; for_each rest body st'
  end.

(** ** Python strings *)

Module PyStr.

(** [x in seq] for a sequence of strings. *)
Definition mem (x : string) (l : list string) : bool :=
  existsb (String.eqb x) l.

(** [sep.join(l)]. *)
Definition join (sep : string) (l : list string) : string :=
  String.concat sep l.

(** [str(n)] for a non-negative integer. *)
Definition of_nat (n : nat) : string :=
  NilEmpty.string_of_uint (Nat.to_uint n).

(** [str(z)] for an integer. *)
Definition of_Z (z : Z) : string :=
  match z with
  | Zneg p => "-" ++ of_nat (Pos.to_nat p)
  | _ => of_nat (Z.to_nat z)
  end.

(** [s.startswith(p)]. *)
Definition startswith (p s : string) : bool := String.prefix p s.

(** [sub in s]. *)
Fixpoint contains (sub s : string) : bool :=
  String.prefix sub s ||
  match s with
  | EmptyString => false
  | String _ rest => contains sub rest
  end.

(** [s.replace(old, new)] for a non-empty [old]: every non-overlapping
    occurrence, scanning from the left.  [skip] counts the characters of
    an occurrence already replaced that remain to be passed over. *)
Fixpoint replace_from (skip : nat) (old new s : string) : string :=
  match s with
  | EmptyString => EmptyString
  | String c rest =>
      match skip with
      | S k => replace_from k old new rest
      | O =>
          if String.prefix old s
          then new ++ replace_from (String.length old - 1) old new rest
          else String c (replace_from 0 old new rest)
      end
  end.

Definition replace (old new s : string) : string := replace_from 0 old new s.

(** Truthiness of a string: [if s:]. *)
Definition truthy (s : string) : bool :=
  match s with EmptyString => false | _ => true end.

(** [s[:-1]]. *)
Fixpoint drop_last (s : string) : string :=
  match s with
  | EmptyString => EmptyString
  | String c EmptyString => EmptyString
  | String c rest => String c (drop_last rest)
  end.

(** [s[-1]], when [s] is not empty. *)
Fixpoint last (s : string) : option ascii :=
  match s with
  | EmptyString => None
  | String c EmptyString => Some c
  | String _ rest => last rest
  end.

End PyStr.

(** ** Python dictionaries with string keys

    Insertion-ordered; a key occurs at most once.  [set] overwrites in place
    or appends, [del] and [pop] raise [KeyError] on a missing key. *)

Module PyDict.

Definition t (V : Type) : Type := list (string * V).

Definition keys {V} (d : t V) : list string := map fst d.

Fixpoint get {V} (k : string) (d : t V) : option V :=
  match d with
  | [] => None
  | (k', v) :: rest => if String.eqb k k' then Some v else get k rest
  end.

Definition mem {V} (k : string) (d : t V) : bool :=
  match get k d with Some _ => true | None => false end.

(** [d[k]]. *)
Definition item {V} (k : string) (d : t V) : result V :=
  match get k d with Some v => Ok v | None => Raise (KeyError k) end.

(** [d.get(k, dflt)]. *)
Definition get_default {V} (k : string) (dflt : V) (d : t V) : V :=
  match get k d with Some v => v | None => dflt end.

(** [d[k] = v]. *)
Fixpoint set {V} (k : string) (v : V) (d : t V) : t V :=
  match d with
  | [] => [(k, v)]
  | (k', v') :: rest =>
      if String.eqb k k' then (k', v) :: rest else (k', v') :: set k v rest
  end.

Fixpoint remove {V} (k : string) (d : t V) : t V :=
  match d with
  | [] => []
  | (k', v') :: rest =>
      if String.eqb k k' then rest else (k', v') :: remove k rest
  end.

(** [del d[k]]. *)
Definition del {V} (k : string) (d : t V) : result (t V) :=
  if mem k d then Ok (remove k d) else Raise (KeyError k).

(** [d.pop(k)]: the value and the remaining dictionary. *)
Definition pop {V} (k : string) (d : t V) : result (V * t V) :=
  match get k d with
  | Some v => Ok (v, remove k d)
  | None => Raise (KeyError k)
  end.

(** [d.update(other)]. *)
Definition update {V} (d other : t V) : t V :=
  fold_left (fun acc kv => set (fst kv) (snd kv) acc) other d.

End PyDict.

(** ** minimum_calendar *)

(** [minimum_calendar]: the variadic arguments are the list [calendars]. *)
Definition minimum_calendar (calendars : list string) : string :=
  if PyStr.mem "360_day" calendars then "360_day"
  else if PyStr.mem "noleap" calendars || PyStr.mem "365_day" calendars
       then "noleap"
  else if forallb (fun cal => PyStr.mem cal ["all_leap"; "366_day"]) calendars
       then "all_leap"
  else "standard".

(** The hierarchy of the docstring, [360_day < noleap < standard < all_leap],
    as a rank; [365_day] and [366_day] are the CF synonyms the function
    accepts for [noleap] and [all_leap], every other name counts as
    [standard]. *)
Definition calendar_rank (cal : string) : nat :=
  if String.eqb cal "360_day" then 0
  else if String.eqb cal "noleap" || String.eqb cal "365_day" then 1
  else if String.eqb cal "all_leap" || String.eqb cal "366_day" then 3
  else 2.

Definition min_rank (calendars : list string) : nat :=
  fold_right Nat.min 3 (map calendar_rank calendars).

(** ** Controlled vocabularies: [__read_CVs] and its closure [cvfunc] *)

(** Values of a parsed JSON file, also the values a caller may pass as
    [default]. *)
#[warnings="-register-all"]
Inductive PyVal : Type :=
| PNone
| PBool (b : bool)
| PInt (z : Z)
| PStr (s : string)
| PList (l : list PyVal).

(** Truthiness of a value: [if x:]. *)
Definition py_truthy (x : PyVal) : bool :=
  match x with
  | PNone => false
  | PBool b => b
  | PInt z => negb (Z.eqb z 0)
  | PStr s => PyStr.truthy s
  | PList l => match l with [] => false | _ => true end
  end.

Section Vocabulary.

(** [re.fullmatch(pattern, key) is not None]; the library raises on a
    pattern it cannot compile. *)
Variable fullmatch : string -> string -> result bool.

(** The loop [for cin, cout in cv.items()] of the regex branch: the value
    of the first pattern that matches, a [TypeError] being swallowed by
    [except TypeError: pass], any other exception propagating. *)
Fixpoint first_match (cv : PyDict.t PyVal) (key : string)
  : result (option PyVal) :=
  match cv with
  | [] => Ok None
  | (cin, cout) :: rest =>
      match fullmatch cin key with
      | Ok true => Ok (Some cout)
      | Ok false => first_match rest key
      | Raise (TypeError _) => first_match rest key
      | Raise e => Raise e
      end
  end.

(** The policy applied when no entry was found. *)
Definition cv_default (key : string) (default : PyVal) : result PyVal :=
  match default with
  | PStr d =>
      if String.eqb d "pass" then Ok (PStr key)
      else if String.eqb d "error" then Raise (KeyError key)
      else Ok default
  | _ => Ok default
  end.

(** [cvfunc(key, default="error")], closed over [is_regex] and [cv]. *)
Definition cvfunc (is_regex : bool) (cv : PyDict.t PyVal)
           (key : string) (default : PyVal) : result PyVal :=
  if is_regex then
    found <- first_match cv key ;;
    match found with
    | Some cout => Ok cout
    | None => cv_default key default
    end
  else
    match PyDict.get key cv with
    | Some v => Ok v
    | None => cv_default key default
    end.

(** [__read_CVs]: [is_regex = cv.pop("is_regex", False)], then the
    closure over what remains. *)
Definition read_CVs (cv_json : PyDict.t PyVal)
  : string -> PyVal -> result PyVal :=
  let is_regex := PyDict.get_default "is_regex" (PBool false) cv_json in
  let cv := PyDict.remove "is_regex" cv_json in
  cvfunc (py_truthy is_regex) cv.

End Vocabulary.

(** What the lookup contract calls a key without entry, and a key mapped to
    [v].  In regex mode the patterns are tried in the order of the file: a
    pattern does not match when [re.fullmatch] finds nothing or raises
    [TypeError]; a key is mapped to the value of the first pattern that
    matches it. *)
Definition no_match (fullmatch : string -> string -> result bool)
           (key : string) (entry : string * PyVal) : Prop :=
  fullmatch (fst entry) key = Ok false
  \/ exists msg, fullmatch (fst entry) key = Raise (TypeError msg).

Definition unmapped (fullmatch : string -> string -> result bool)
           (is_regex : bool) (cv : PyDict.t PyVal) (key : string) : Prop :=
  if is_regex then Forall (no_match fullmatch key) cv
  else ~ In key (PyDict.keys cv).

Definition mapped_to (fullmatch : string -> string -> result bool)
           (is_regex : bool) (cv : PyDict.t PyVal) (key : string) (v : PyVal)
  : Prop :=
  if is_regex then
    exists pre cin post,
      cv = pre ++ (cin, v) :: post
      /\ Forall (no_match fullmatch key) pre
      /\ fullmatch cin key = Ok true
  else NoDup (PyDict.keys cv) /\ In (key, v) cv.

(** ** Datasets

    The view of an [xarray.Dataset] used throughout.  A dataset is seen
    along its grid dimensions [ds_dims]; a data variable holds one cell of
    type [V] per grid point, in row-major order, a cell standing for all the
    values of the variable along the remaining dimensions (time, ...).
    Coordinate variables hold integer labels, [None] standing for NaN.
    Attributes are string-keyed dictionaries. *)

Inductive AttrVal : Type :=
| AStr (s : string)
| AInt (z : Z).

Definition attr_eqb (a b : AttrVal) : bool :=
  match a, b with
  | AStr s, AStr t => String.eqb s t
  | AInt x, AInt y => Z.eqb x y
  | _, _ => false
  end.

(** [str(a)], as an f-string or [str.format] renders an attribute. *)
Definition attr_str (a : AttrVal) : string :=
  match a with
  | AStr s => s
  | AInt z => PyStr.of_Z z
  end.

Definition Attrs : Type := PyDict.t AttrVal.

Record Coord : Type := mkCoord {
  c_dims : list string;
  c_values : list (option Z);
  c_attrs : Attrs
}.

Record DataVar (V : Type) : Type := mkDataVar {
  d_values : list V;
  d_attrs : Attrs
}.
Arguments mkDataVar {V} _ _.
Arguments d_values {V} _.
Arguments d_attrs {V} _.

Record Dataset (V : Type) : Type := mkDataset {
  ds_dims : list string;
  coords : PyDict.t Coord;
  data_vars : PyDict.t (DataVar V);
  ds_attrs : Attrs
}.
Arguments mkDataset {V} _ _ _ _.
Arguments ds_dims {V} _.
Arguments coords {V} _.
Arguments data_vars {V} _.
Arguments ds_attrs {V} _.

Definition set_attrs {V} (a : Attrs) (ds : Dataset V) : Dataset V :=
  mkDataset (ds_dims ds) (coords ds) (data_vars ds) a.

Definition set_data_var {V} (name : string) (v : DataVar V) (ds : Dataset V)
  : Dataset V :=
  mkDataset (ds_dims ds) (coords ds) (PyDict.set name v (data_vars ds))
            (ds_attrs ds).

Definition set_coord {V} (name : string) (c : Coord) (ds : Dataset V)
  : Dataset V :=
  mkDataset (ds_dims ds) (PyDict.set name c (coords ds)) (data_vars ds)
            (ds_attrs ds).

Definition list_string_eqb (a b : list string) : bool :=
  if list_eq_dec string_dec a b then true else false.

(** ** change_units *)

(** What xclim and pint contribute to [change_units]: units parsed by
    [units2pint], compared with [!=], and their [dimensionality], a mapping
    from dimension names to the exponents that are not zero; the three
    conversions of [xclim.core.units]. *)
Record UnitsLib (V : Type) : Type := mkUnitsLib {
  PintUnit : Type;
  units2pint : string -> result PintUnit;
  unit_eqb : PintUnit -> PintUnit -> bool;
  dimensionality : PintUnit -> PyDict.t Z;
  convert_units_to : DataVar V -> string -> result (DataVar V);
  amount2rate : DataVar V -> string -> result (DataVar V);
  rate2amount : DataVar V -> string -> result (DataVar V)
}.
Arguments PintUnit {V} _.
Arguments units2pint {V} _ _.
Arguments unit_eqb {V} _ _ _.
Arguments dimensionality {V} _ _.
Arguments convert_units_to {V} _ _ _.
Arguments amount2rate {V} _ _ _.
Arguments rate2amount {V} _ _ _.

Definition option_Z_eqb (a b : option Z) : bool :=
  match a, b with
  | Some x, Some y => Z.eqb x y
  | None, None => true
  | _, _ => false
  end.

(** The message of the [NotImplementedError]. *)
Definition mismatch_message (src_units target : string) : string :=
  "No known transformation between " ++ src_units ++ " and " ++ target
  ++ " (temporal dimensionality mismatch).".

Section ChangeUnits.

Context {V : Type} (lib : UnitsLib V).

(** [units.units2pint(x).dimensionality.get("[time]")]: the exponent of
    time in the dimensionality of a unit; a pint [UnitsContainer] answers
    0 for a dimension that it does not hold. *)
Definition time_exponent (u : PintUnit lib) : Z :=
  PyDict.get_default "[time]" 0%Z (dimensionality lib u).

(** The transformation chosen for one variable whose units differ from the
    target. *)
Definition convert_var (var : DataVar V) (src_units target : string)
           (u_ds u_out : PintUnit lib) : result (DataVar V) :=
  let time_in_ds := time_exponent u_ds in
  let time_in_out := time_exponent u_out in
  if Z.eqb time_in_ds time_in_out then
    convert_units_to lib var target
  else if Z.eqb (time_in_ds - time_in_out) 1 then
    amount2rate lib var target
  else if Z.eqb (time_in_ds - time_in_out) (-1) then
    rate2amount lib var target
  else Raise (NotImplementedError (mismatch_message src_units target)).

(** One iteration of [for v in variables_and_units].  Variables are looked
    up among the data variables of the view. *)
Definition change_units_var (v target : string) (ds : Dataset V)
  : result (Dataset V) :=
  match PyDict.get v (data_vars ds) with
  | None => Ok ds
  | Some var =>
      src <- PyDict.item "units" (d_attrs var) ;;
      let src_units := attr_str src in
      u_ds <- units2pint lib src_units ;;
      u_out <- units2pint lib target ;;
      if negb (unit_eqb lib u_ds u_out) then
        var' <- convert_var var src_units target u_ds u_out ;;
        Ok (set_data_var v var' ds)
      else Ok ds
  end.

Definition change_units (ds : Dataset V)
           (variables_and_units : PyDict.t string) : result (Dataset V) :=
  for_each variables_and_units
           (fun kv ds => change_units_var (fst kv) (snd kv) ds) ds.

End ChangeUnits.

(** ** xarray and pandas on the gridded view *)

Definition Label : Type := option Z.
Definition Point : Type := list Label.

Definition label_eqb (a b : Label) : bool := option_Z_eqb a b.

Fixpoint point_eqb (p q : Point) : bool :=
  match p, q with
  | [], [] => true
  | a :: p', b :: q' => label_eqb a b && point_eqb p' q'
  | _, _ => false
  end.

(** The order pandas sorts the levels of an index by.  A NaN label is kept
    as a label of its own, before the integers. *)
Definition label_compare (a b : Label) : comparison :=
  match a, b with
  | None, None => Eq
  | None, Some _ => Lt
  | Some _, None => Gt
  | Some x, Some y => Z.compare x y
  end.

Fixpoint insert_unique (x : Label) (l : list Label) : list Label :=
  match l with
  | [] => [x]
  | y :: rest =>
      match label_compare x y with
      | Lt => x :: l
      | Eq => l
      | Gt => y :: insert_unique x rest
      end
  end.

(** The level of a [pandas.MultiIndex] built from an array: its distinct
    values, sorted. *)
Definition sort_unique (l : list Label) : list Label :=
  fold_right insert_unique [] l.

(** All points of a grid, in row-major order (first axis slowest). *)
Fixpoint cartesian {A : Type} (axes : list (list A)) : list (list A) :=
  match axes with
  | [] => [[]]
  | axis :: rest =>
      flat_map (fun c => map (cons c) (cartesian rest)) axis
  end.

(** Positional selection by a boolean array: [a[m]]. *)
Fixpoint keep {A : Type} (m : list bool) (l : list A) : list A :=
  match m, l with
  | b :: m', x :: l' => if b then x :: keep m' l' else keep m' l'
  | _, _ => []
  end.

(** The [i]-th component of every point. *)
Definition column (i : nat) (pts : list Point) : list Label :=
  map (fun p => nth i p None) pts.

(** [zip] of the unpacked columns: the points whose components they are. *)
Fixpoint zip_rows (cols : list (list Label)) : list Point :=
  match cols with
  | [] => []
  | [c] => map (fun x => [x]) c
  | c :: rest => map (fun xp => fst xp :: snd xp) (combine c (zip_rows rest))
  end.

(** Label-based lookup in a table of points. *)
Fixpoint assoc {A : Type} (p : Point) (table : list (Point * A)) : option A :=
  match table with
  | [] => None
  | (q, v) :: rest => if point_eqb p q then Some v else assoc p rest
  end.

Fixpoint index_of (x : string) (l : list string) : option nat :=
  match l with
  | [] => None
  | y :: rest =>
      if String.eqb x y then Some 0 else option_map S (index_of x rest)
  end.

Fixpoint replace_nth {A : Type} (i : nat) (x : A) (l : list A) : list A :=
  match l, i with
  | [], _ => []
  | _ :: rest, O => x :: rest
  | y :: rest, S j => y :: replace_nth j x rest
  end.

(** The default integer index of a dimension without coordinate. *)
Definition arange (n : nat) : list Label :=
  map (fun i => Some (Z.of_nat i)) (seq 0 n).

(** A boolean [DataArray]: the mask of [stack_drop_nans]. *)
Record Mask : Type := mkMask {
  m_dims : list string;
  m_shape : list nat;
  m_values : list bool;
  m_coords : PyDict.t Coord
}.

(** Files written by [to_netcdf] and read by [xr.open_dataset]: a store
    from path to the coordinates of the dataset saved there.  Directories
    are not represented. *)
Definition FileStore : Type := PyDict.t (PyDict.t Coord).

Section Xarray.

Context {V : Type}.

(** The labels of dimension [d], of size [n], in [ds]. *)
Definition axis_of (ds : Dataset V) (dn : string * nat) : list Label :=
  match PyDict.get (fst dn) (coords ds) with
  | Some c => c_values c
  | None => arange (snd dn)
  end.

Definition coord_attrs (ds : Dataset V) (name : string) : Attrs :=
  match PyDict.get name (coords ds) with
  | Some c => c_attrs c
  | None => []
  end.

(** A coordinate of [ds] other than the indexes of [dims], after
    [stack]: one on the whole grid is flattened, one along a single
    stacked dimension is repeated for every point, any other is kept. *)
Definition stack_coord (new_dim : string) (dims : list string)
           (axes : list (list Label)) (c : Coord) : Coord :=
  if list_string_eqb (c_dims c) dims then
    mkCoord [new_dim] (c_values c) (c_attrs c)
  else
    match c_dims c with
    | [d] =>
        match index_of d dims with
        | Some i =>
            mkCoord [new_dim]
                    (column i (cartesian (replace_nth i (c_values c) axes)))
                    (c_attrs c)
        | None => c
        end
    | _ => c
    end.

(** [ds.stack({new_dim: dims})], the shape of [dims] being [shape].  The
    view is that of a dataset gridded on [dims], in this order, which is
    where the function returns; xarray also stacks, in the order of
    [dims], a dataset whose dimensions come in another order, which the
    view does not represent. *)
Definition xr_stack (new_dim : string) (dims : list string)
           (shape : list nat) (ds : Dataset V) : result (Dataset V) :=
  if list_string_eqb (ds_dims ds) dims then
    let axes := map (axis_of ds) (combine dims shape) in
    let points := cartesian axes in
    let others :=
      map (fun kc => (fst kc, stack_coord new_dim dims axes (snd kc)))
          (filter (fun kc => negb (PyStr.mem (fst kc) dims)) (coords ds)) in
    let levels :=
      map (fun id => (snd id,
                      mkCoord [new_dim] (column (fst id) points)
                              (coord_attrs ds (snd id))))
          (combine (seq 0 (List.length dims)) dims) in
    Ok (mkDataset [new_dim] (others ++ levels) (data_vars ds) (ds_attrs ds))
  else Raise (ValueError "invalid existing dimensions").

(** [ds.where(mask_1d, drop=True)] for a mask along the single dimension
    [dim] of [ds]: the points where the mask is false are dropped. *)
Definition xr_where_drop (dim : string) (mask_1d : list bool)
           (ds : Dataset V) : Dataset V :=
  mkDataset
    (ds_dims ds)
    (map (fun kc =>
            if list_string_eqb (c_dims (snd kc)) [dim]
            then (fst kc, mkCoord (c_dims (snd kc))
                                  (keep mask_1d (c_values (snd kc)))
                                  (c_attrs (snd kc)))
            else kc) (coords ds))
    (map (fun kv => (fst kv, mkDataVar (keep mask_1d (d_values (snd kv)))
                                       (d_attrs (snd kv))))
         (data_vars ds))
    (ds_attrs ds).

(** [ds.reset_index(dim, drop=True)]: the index of [dim] is removed, the
    per-point coordinates stay as plain coordinates. *)
Definition xr_reset_index_drop (dim : string) (ds : Dataset V) : Dataset V :=
  mkDataset (ds_dims ds) (PyDict.remove dim (coords ds)) (data_vars ds)
            (ds_attrs ds).

(** [out[name].attrs] modified in place by [f]. *)
Definition modify_coord_attrs (name : string) (f : Attrs -> Attrs)
           (ds : Dataset V) : result (Dataset V) :=
  c <- PyDict.item name (coords ds) ;;
  Ok (set_coord name (mkCoord (c_dims c) (c_values c) (f (c_attrs c))) ds).

End Xarray.

(** ** Path templates: [tmpl.format(domain=..., shape=...)] *)

Inductive FormatState : Type :=
| InText
| AfterOpen                     (* a brace was opened, nothing read yet *)
| InField (name : string)       (* the part of a field name read so far *)
| AfterClose.                   (* a closing brace was read in the text *)

(** The value of an ASCII digit. *)
Definition digit_value (c : ascii) : option Z :=
  let n := nat_of_ascii c in
  if Nat.leb 48 n && Nat.leb n 57 then Some (Z.of_nat (n - 48)) else None.

Definition is_digit (c : ascii) : bool :=
  match digit_value c with Some _ => true | None => false end.

(** The position that a field name made of digits stands for, the empty
    name standing for the first one; the digits are read into a machine
    integer of 64 bits. *)
Fixpoint field_index (acc : Z) (name : string) : option (result Z) :=
  match name with
  | EmptyString =>
      Some (Ok (if (acc <=? 9223372036854775807)%Z then acc
                else (acc - 2 ^ 64)%Z))
  | String c rest =>
      match digit_value c with
      | None => None
      | Some d =>
          if (922337203685477580 <? acc)%Z then
            Some (Raise (ValueError "Too many decimal digits in format string"))
          else field_index (acc * 10 + d) rest
      end
  end.

(** The object of a replacement field.  The two keywords are the only
    arguments of the call: a position finds no argument, another name no
    keyword. *)
Definition format_field (domain shape name : string) : result string :=
  if String.eqb name "domain" then Ok domain
  else if String.eqb name "shape" then Ok shape
  else
    match field_index 0 name with
    | Some (Ok i) =>
        Raise (IndexError ("Replacement index "
                           ++ NilZero.string_of_int (Z.to_int i)
                           ++ " out of range for positional args tuple"))
    | Some (Raise e) => Raise e
    | None => Raise (KeyError name)
    end.

(** Doubled braces are literal braces; a replacement field holds a field
    name, and unbalanced braces are a [ValueError].  The view is that of
    the fields that hold a plain name.  Python also reads an attribute or
    an index after the name, a conversion after an exclamation mark and a
    format specification after a colon; the view does not represent them
    and takes them for a part of the name. *)
Fixpoint format_scan (st : FormatState) (domain shape : string) (s : string)
  : result string :=
  let lit c rest k := r <- format_scan k domain shape rest ;; Ok (String c r) in
  match s with
  | EmptyString =>
      match st with
      | InText => Ok EmptyString
      | AfterClose => Raise (ValueError "Single '}' encountered in format string")
      | _ => Raise (ValueError "expected '}' before end of string")
      end
  | String c rest =>
      match st with
      | InText =>
          if Ascii.eqb c "{" then format_scan AfterOpen domain shape rest
          else if Ascii.eqb c "}" then format_scan AfterClose domain shape rest
          else lit c rest InText
      | AfterOpen =>
          if Ascii.eqb c "{" then lit c rest InText
          else if Ascii.eqb c "}" then
            v <- format_field domain shape "" ;;
            r <- format_scan InText domain shape rest ;; Ok (v ++ r)%string
          else format_scan (InField (String c EmptyString)) domain shape rest
      | InField name =>
          if Ascii.eqb c "}" then
            v <- format_field domain shape name ;;
            r <- format_scan InText domain shape rest ;; Ok (v ++ r)%string
          else if Ascii.eqb c "{" then
            Raise (ValueError "unexpected '{' in field name")
          else format_scan (InField (name ++ String c EmptyString)%string)
                           domain shape rest
      | AfterClose =>
          if Ascii.eqb c "}" then lit c rest InText
          else Raise (ValueError "Single '}' encountered in format string")
      end
  end.

Definition py_format (tmpl domain shape : string) : result string :=
  format_scan InText domain shape tmpl.

(** ** stack_drop_nans *)

Section Stack.

Context {V : Type}.

(** ["x".join(map(str, mask.shape))]. *)
Definition original_shape_of (shape : list nat) : string :=
  PyStr.join "x" (map PyStr.of_nat shape).

(** The block [if to_file is not None:]: the coordinates of the mask are
    written under the formatted path. *)
Definition write_coords (ds : Dataset V) (mask : Mask)
           (to_file : option string) (original_shape : string)
           (fs : FileStore) : result FileStore :=
  match to_file with
  | Some tmpl =>
      let domain := PyDict.get_default "cat:domain" (AStr "unknown")
                                       (ds_attrs ds) in
      path <- py_format tmpl (attr_str domain) original_shape ;;
      Ok (PyDict.set path (m_coords mask) fs)
  | None => Ok fs
  end.

(** [stack_drop_nans(ds, mask, new_dim=..., to_file=...)]; the second
    component is the file store after the optional write. *)
Definition stack_drop_nans (ds : Dataset V) (mask : Mask)
           (new_dim : string) (to_file : option string) (fs : FileStore)
  : result (Dataset V * FileStore) :=
  let original_shape := original_shape_of (m_shape mask) in
  let mask_1d := m_values mask in
  stacked <- xr_stack new_dim (m_dims mask) (m_shape mask) ds ;;
  let out := xr_reset_index_drop new_dim
               (xr_where_drop new_dim mask_1d stacked) in
  out <- for_each (m_dims mask)
           (fun dim out =>
              modify_coord_attrs dim
                (fun a => PyDict.update a (coord_attrs ds dim)) out) out ;;
  fs' <- write_coords ds mask to_file original_shape fs ;;
  out <- for_each (m_dims mask)
           (fun dim out =>
              modify_coord_attrs dim
                (PyDict.set "original_shape" (AStr original_shape)) out)
           out ;;
  Ok (out, fs').

End Stack.

(** ** unstack_fill_nan *)

(** The argument [coords]: [None], a list or tuple of names, a plain
    [dict] from names to arrays, a path template, or an object that has a
    [coords] attribute of its own (a dataset holding the coordinates). *)
Inductive CoordsArg : Type :=
| CoordsNone
| CoordsNames (names : list string)
| CoordsDict (d : PyDict.t (list Label))
| CoordsPath (template : string)
| CoordsDataset (c : PyDict.t Coord).

Fixpoint same_lengths {A : Type} (n : nat) (ls : list (list A)) : bool :=
  match ls with
  | [] => true
  | l :: rest => Nat.eqb (List.length l) n && same_lengths n rest
  end.

Section Unstack.

Context {V : Type}.

(** The fill value of [unstack] and [reindex] for a data variable (NaN
    for floating point). *)
Variable fill : V.

(** Values on [grid], read by label from the values at [points]. *)
Definition regrid {A : Type} (dflt : A) (points : list Point)
           (vals : list A) (grid : list Point) : list A :=
  map (fun p => match assoc p (combine points vals) with
                | Some v => v
                | None => dflt
                end) grid.

(** Values on [grid], written point by point from the values at
    [points]: of several points with the same labels the last one is
    kept. *)
Definition regrid_last {A : Type} (dflt : A) (points : list Point)
           (vals : list A) (grid : list Point) : list A :=
  map (fun p => match assoc p (rev (combine points vals)) with
                | Some v => v
                | None => dflt
                end) grid.

(** [ds.drop_vars(names).assign_coords({dim: MultiIndex.from_arrays(crds,
    names=names)}).unstack(dim)], as in xarray 2022.6.0, the release that
    the source names, for variables held in memory: an index with
    duplicate entries is unstacked as any other, the values being written
    in their order. *)
Definition xr_unstack (dim : string) (names : list string)
           (crds : list (list Label)) (ds : Dataset V)
  : result (Dataset V) :=
  if negb (list_string_eqb (ds_dims ds) [dim]) then
    Raise (ValueError "dimension to unstack is not the stacked dimension")
  else if negb (same_lengths (List.length (hd [] crds)) crds) then
    Raise (ValueError "all arrays must be same length")
  else
    let points := zip_rows crds in
    let levels := map sort_unique crds in
    let grid := cartesian levels in
    let kept :=
      map (fun kc =>
             if list_string_eqb (c_dims (snd kc)) [dim]
             then (fst kc,
                   mkCoord names
                           (regrid_last None points (c_values (snd kc)) grid)
                           (c_attrs (snd kc)))
             else kc)
          (filter (fun kc => negb (PyStr.mem (fst kc) names))
                  (coords ds)) in
    let indexes :=
      map (fun nl => (fst nl, mkCoord [fst nl] (snd nl) []))
          (combine names levels) in
    Ok (mkDataset names (kept ++ indexes)
          (map (fun kv =>
                  (fst kv,
                   mkDataVar
                     (regrid_last fill points (d_values (snd kv)) grid)
                     (d_attrs (snd kv))))
               (data_vars ds))
          (ds_attrs ds)).

(** The labels of the grid dimensions of a dataset. *)
Definition grid_axes (ds : Dataset V) : list (list Label) :=
  map (fun d => match PyDict.get d (coords ds) with
                | Some c => c_values c
                | None => []
                end) (ds_dims ds).

(** [out.reindex] with the mapping [target] unpacked into keyword
    arguments: every key must be a dimension; the grid
    takes the labels given, values are read by label and filled where the
    label is new. *)
Definition xr_reindex (target : PyDict.t Coord) (out : Dataset V)
  : result (Dataset V) :=
  if negb (forallb (fun k => PyStr.mem k (ds_dims out)) (PyDict.keys target))
  then Raise (ValueError "invalid reindex dimensions")
  else
    let old_grid := cartesian (grid_axes out) in
    let new_axis d :=
      match PyDict.get d target with
      | Some c => c_values c
      | None => match PyDict.get d (coords out) with
                | Some c => c_values c
                | None => []
                end
      end in
    let new_grid := cartesian (map new_axis (ds_dims out)) in
    Ok (mkDataset (ds_dims out)
          (map (fun kc =>
                  if PyStr.mem (fst kc) (ds_dims out)
                  then (fst kc, mkCoord (c_dims (snd kc)) (new_axis (fst kc))
                                        (c_attrs (snd kc)))
                  else if list_string_eqb (c_dims (snd kc)) (ds_dims out)
                  then (fst kc,
                        mkCoord (c_dims (snd kc))
                                (regrid None old_grid (c_values (snd kc))
                                        new_grid)
                                (c_attrs (snd kc)))
                  else kc) (coords out))
          (map (fun kv =>
                  (fst kv,
                   mkDataVar (regrid fill old_grid (d_values (snd kv))
                                     new_grid)
                             (d_attrs (snd kv))))
               (data_vars out))
          (ds_attrs out)).

(** The loop that looks for [original_shape] in the attributes of the
    coordinates: the last coordinate that has it wins. *)
Definition find_original_shape (ds : Dataset V) : AttrVal :=
  fold_left (fun acc kc =>
               match PyDict.get "original_shape" (c_attrs (snd kc)) with
               | Some a => a
               | None => acc
               end) (coords ds) (AStr "unknown").

(** The names and arrays [dims, crds] taken from the dataset. *)
Definition select_levels (ds : Dataset V) (dim : string) (coords_arg : CoordsArg)
  : result (list (string * list Label)) :=
  match coords_arg with
  | CoordsNames names =>
      for_each names
        (fun name acc =>
           c <- PyDict.item name (coords ds) ;;
           Ok (acc ++ [(name, c_values c)])) []
  | _ =>
      Ok (map (fun kc => (fst kc, c_values (snd kc)))
              (filter (fun kc => list_string_eqb (c_dims (snd kc)) [dim])
                      (coords ds)))
  end.

(** [unstack_fill_nan(ds, dim=..., coords=...)]. *)
Definition unstack_fill_nan (ds : Dataset V) (dim : string)
           (coords_arg : CoordsArg) (fs : FileStore) : result (Dataset V) :=
  pairs <- select_levels ds dim coords_arg ;;
  match pairs with
  | [] => Raise (ValueError "not enough values to unpack (expected 2, got 0)")
  | _ =>
      let dims := map fst pairs in
      let crds := map snd pairs in
      out <- xr_unstack dim dims crds ds ;;
      out <- match coords_arg with
             | CoordsNone => Ok out
             | CoordsNames _ => Ok out
             | CoordsPath tmpl =>
                 let original_shape := find_original_shape ds in
                 let domain := PyDict.get_default "cat:domain"
                                 (AStr "unknown") (ds_attrs ds) in
                 path <- py_format tmpl (attr_str domain)
                                   (attr_str original_shape) ;;
                 match PyDict.get path fs with
                 | Some file => xr_reindex file out
                 | None => Raise (FileNotFoundError path)
                 end
             | CoordsDict _ =>
                 Raise (AttributeError
                          "'dict' object has no attribute 'coords'")
             | CoordsDataset c => xr_reindex c out
             end ;;
      for_each dims
        (fun d out =>
           modify_coord_attrs d
             (fun a => PyDict.update a (coord_attrs ds d)) out) out
  end.


(** [maybe_unstack(ds, coords, rechunk, stack_drop_nans)]; rechunking
    changes the storage layout only, which the view does not hold. *)
Definition maybe_unstack (ds : Dataset V) (coords_arg : CoordsArg)
           (stack_drop_nans_flag : bool) (fs : FileStore)
  : result (Dataset V) :=
  if stack_drop_nans_flag then unstack_fill_nan ds "loc" coords_arg fs
  else Ok ds.

End Unstack.

(** ** clean_up *)

(** A dataset given to [common_attrs_only]: a path to open or a dataset in
    memory, of which only the global attributes are read. *)
Inductive AttrSource : Type :=
| FromPath (path : string)
| Live (attrs : Attrs).

(** The keyword arguments of [maybe_unstack] held by [maybe_unstack_dict];
    [rechunk] is a storage-layout hint without effect on the view. *)
Record MaybeUnstackArgs : Type := mkMaybeUnstackArgs {
  mu_coords : CoordsArg;
  mu_stack_drop_nans : bool
}.

(** The optional arguments of [clean_up]; [None] is Python's [None]. *)
Record CleanUpArgs : Type := mkCleanUpArgs {
  variables_and_units : option (PyDict.t string);
  convert_calendar_kwargs : option (PyDict.t PyVal);
  missing_by_var : option (PyDict.t PyVal);
  maybe_unstack_dict : option MaybeUnstackArgs;
  round_var : option (PyDict.t Z);
  common_attrs_only : option (list AttrSource);
  common_attrs_open_kwargs : option (PyDict.t PyVal);
  attrs_to_remove : option (PyDict.t (list string));
  remove_all_attrs_except : option (PyDict.t (list string));
  add_attrs : option (PyDict.t Attrs);
  change_attr_prefix : option string;
  to_level : option string
}.

(** What xarray, xclim and the catalog module contribute to [clean_up]
    beyond the operations modelled above. *)
Record CleanUpLib (V : Type) : Type := mkCleanUpLib {
  OceanMask : Type;
  isnull_all_time : Dataset V -> OceanMask;
  get_calendar : Dataset V -> string;
  convert_calendar : Dataset V -> PyDict.t PyVal -> result (Dataset V);
  where_not : Dataset V -> OceanMask -> Dataset V;
  interpolate_sentinel : DataVar V -> DataVar V;
  replace_sentinel : DataVar V -> PyVal -> list V;
  round : DataVar V -> Z -> DataVar V;
  open_dataset_attrs : string -> PyDict.t PyVal -> result Attrs;
  generate_id : Dataset V -> result string
}.
Arguments OceanMask {V} _.
Arguments isnull_all_time {V} _ _.
Arguments get_calendar {V} _ _.
Arguments convert_calendar {V} _ _ _.
Arguments where_not {V} _ _ _.
Arguments interpolate_sentinel {V} _ _.
Arguments replace_sentinel {V} _ _ _.
Arguments round {V} _ _ _.
Arguments open_dataset_attrs {V} _ _ _.
Arguments generate_id {V} _ _.

(** The nested function [_search(a, b)]. *)
Definition _search (a b : string) : result bool :=
  match PyStr.last a with
  | None => Raise (IndexError "string index out of range")
  | Some c =>
      if Ascii.eqb c "*" then Ok (PyStr.contains (PyStr.drop_last a) b)
      else
        match a with
        | String c0 rest =>
            if Ascii.eqb c0 "^" then Ok (PyStr.startswith rest b)
            else Ok (String.eqb a b)
        | EmptyString => Raise (IndexError "string index out of range")
        end
  end.

(** Truthiness of an optional dictionary, list or string: [if x:]. *)
Definition truthy_list {A : Type} (x : option (list A)) : option (list A) :=
  match x with
  | Some (a :: l) => Some (a :: l)
  | _ => None
  end.

Definition truthy_str (x : option string) : option string :=
  match x with
  | Some s => if PyStr.truthy s then Some s else None
  | None => None
  end.

(** The attribute-key prefix rewrite, on the global attributes. *)
Definition rewrite_key (prefix ds_attr : string) (attrs : Attrs)
  : result Attrs :=
  let new_name := PyStr.replace "cat:" prefix ds_attr in
  if PyStr.truthy new_name then
    '(v, rest) <- PyDict.pop ds_attr attrs ;;
    Ok (PyDict.set new_name v rest)
  else Ok attrs.

Definition change_prefix (prefix : string) (attrs : Attrs) : result Attrs :=
  for_each (PyDict.keys attrs) (rewrite_key prefix) attrs.

(** [for list_attr in list_of_attrs: if _search(list_attr, ds_attr): del
    obj.attrs[ds_attr]]. *)
Definition remove_matching (list_of_attrs : list string) (ds_attr : string)
           (attrs : Attrs) : result Attrs :=
  for_each list_of_attrs
    (fun list_attr attrs =>
       m <- _search list_attr ds_attr ;;
       if m then PyDict.del ds_attr attrs else Ok attrs) attrs.

(** The flag [delete] after the inner loop of the inverse removal. *)
Definition delete_flag (list_of_attrs : list string) (ds_attr : string)
  : result bool :=
  for_each list_of_attrs
    (fun list_attr delete =>
       m <- _search list_attr ds_attr ;;
       Ok (if m then false else delete)) true.

Definition remove_unless_matching (list_of_attrs : list string)
           (ds_attr : string) (attrs : Attrs) : result Attrs :=
  delete <- delete_flag list_of_attrs ds_attr ;;
  if delete then PyDict.del ds_attr attrs else Ok attrs.

(** One dataset of [common_attrs_only]: the attributes that it does not
    share, and the two date attributes, are deleted. *)
Definition keep_common (other : Attrs) (attrs : Attrs) : Attrs :=
  fold_left
    (fun acc kv =>
       if negb (PyDict.mem (fst kv) other)
          || PyStr.mem (fst kv) ["cat:date_start"; "cat:date_end"]
          || negb (match PyDict.get (fst kv) other with
                   | Some w => attr_eqb (snd kv) w
                   | None => false
                   end)
       then PyDict.remove (fst kv) acc
       else acc) attrs attrs.

Section CleanUp.

Context {V : Type} (units : UnitsLib V) (lib : CleanUpLib V).
Variable fill : V.

(** [obj = ds if var == "global" else ds[var]], seen through the
    attributes of [obj], which are modified in place by [f]. *)
Definition on_attrs (var : string) (f : Attrs -> result Attrs)
           (ds : Dataset V) : result (Dataset V) :=
  if String.eqb var "global" then
    a <- f (ds_attrs ds) ;; Ok (set_attrs a ds)
  else
    match PyDict.get var (data_vars ds) with
    | Some v =>
        a <- f (d_attrs v) ;;
        Ok (set_data_var var (mkDataVar (d_values v) a) ds)
    | None =>
        c <- PyDict.item var (coords ds) ;;
        a <- f (c_attrs c) ;;
        Ok (set_coord var (mkCoord (c_dims c) (c_values c) a) ds)
    end.

(** The per-variable treatment of the sentinel after the calendar
    conversion. *)
Definition fill_missing (var : string) (missing : PyVal) (ds : Dataset V)
  : result (Dataset V) :=
  v <- PyDict.item var (data_vars ds) ;;
  let converted_var :=
    match missing with
    | PStr "interpolate" => interpolate_sentinel lib v
    | _ => mkDataVar (replace_sentinel lib v missing) (d_attrs v)
    end in
  Ok (set_data_var var converted_var ds).

(** The stage [if convert_calendar_kwargs:]. *)
Definition calendar_stage (kwargs : PyDict.t PyVal)
           (missing_by_var : option (PyDict.t PyVal)) (ds : Dataset V)
  : result (Dataset V) :=
  let ocean := isnull_all_time lib ds in
  kwargs <- match truthy_list missing_by_var with
            | Some mbv =>
                if forallb (fun k => PyDict.mem k mbv)
                           (PyDict.keys (data_vars ds))
                then Ok (PyDict.set "missing" (PInt (-9999)) kwargs)
                else Raise (ValueError
                  "All variables must be in 'missing_by_var' if using this option.")
            | None => Ok kwargs
            end ;;
  let kwargs :=
    if String.eqb (get_calendar lib ds) "360_day"
       && negb (PyDict.mem "align_on" kwargs)
    then PyDict.set "align_on" (PStr "random") kwargs
    else kwargs in
  converted <- convert_calendar lib ds kwargs ;;
  let ds := where_not lib converted ocean in
  match truthy_list missing_by_var with
  | Some mbv =>
      _ <- PyDict.del "missing" kwargs ;;
      for_each mbv (fun kv ds => fill_missing (fst kv) (snd kv) ds) ds
  | None => Ok ds
  end.

(** The stage [if common_attrs_only:]. *)
Definition common_attrs_stage (sources : list AttrSource)
           (open_kwargs : option (PyDict.t PyVal)) (ds : Dataset V)
  : result (Dataset V) :=
  let open_kwargs := match truthy_list open_kwargs with
                     | Some k => k
                     | None => []
                     end in
  ds <- for_each sources
          (fun src ds =>
             other <- match src with
                      | FromPath p => open_dataset_attrs lib p open_kwargs
                      | Live a => Ok a
                      end ;;
             Ok (set_attrs (keep_common other (ds_attrs ds)) ds)) ds ;;
  id <- generate_id lib ds ;;
  Ok (set_attrs (PyDict.set "cat:id" (AStr id) (ds_attrs ds)) ds).

Definition when {A : Type} (x : option A)
           (stage : A -> Dataset V -> result (Dataset V)) (ds : Dataset V)
  : result (Dataset V) :=
  match x with
  | Some a => stage a ds
  | None => Ok ds
  end.

(** [clean_up(ds, **args)], the stages in the order of the source. *)
Definition clean_up (fs : FileStore) (ds : Dataset V) (args : CleanUpArgs)
  : result (Dataset V) :=
  ds <- when (truthy_list (variables_and_units args))
          (fun vu ds => change_units units ds vu) ds ;;
  ds <- when (truthy_list (convert_calendar_kwargs args))
          (fun kw ds => calendar_stage kw (missing_by_var args) ds) ds ;;
  ds <- when (maybe_unstack_dict args)
          (fun mu ds => maybe_unstack fill ds (mu_coords mu)
                                      (mu_stack_drop_nans mu) fs) ds ;;
  ds <- when (truthy_list (round_var args))
          (fun rv ds =>
             for_each rv
               (fun kv ds =>
                  v <- PyDict.item (fst kv) (data_vars ds) ;;
                  Ok (set_data_var (fst kv) (round lib v (snd kv)) ds)) ds)
          ds ;;
  ds <- when (truthy_list (common_attrs_only args))
          (fun srcs ds =>
             common_attrs_stage srcs (common_attrs_open_kwargs args) ds) ds ;;
  ds <- when (truthy_str (to_level args))
          (fun lvl ds =>
             Ok (set_attrs (PyDict.set "cat:processing_level" (AStr lvl)
                                       (ds_attrs ds)) ds)) ds ;;
  ds <- when (truthy_list (attrs_to_remove args))
          (fun rm ds =>
             for_each rm
               (fun kv ds =>
                  on_attrs (fst kv)
                    (fun attrs =>
                       for_each (PyDict.keys attrs)
                                (remove_matching (snd kv)) attrs) ds) ds)
          ds ;;
  ds <- when (truthy_list (remove_all_attrs_except args))
          (fun rm ds =>
             for_each rm
               (fun kv ds =>
                  on_attrs (fst kv)
                    (fun attrs =>
                       for_each (PyDict.keys attrs)
                                (remove_unless_matching (snd kv)) attrs) ds)
               ds) ds ;;
  ds <- when (truthy_list (add_attrs args))
          (fun add ds =>
             for_each add
               (fun kv ds =>
                  on_attrs (fst kv)
                    (fun attrs => Ok (PyDict.update attrs (snd kv))) ds) ds)
          ds ;;
  when (truthy_str (change_attr_prefix args))
       (fun prefix ds =>
          a <- change_prefix prefix (ds_attrs ds) ;; Ok (set_attrs a ds)) ds.

End CleanUp.

(** ** unstack_dates *)

Record Date : Type := mkDate {
  year : Z;
  month : nat;
  day : nat
}.

(** [f"{n:02d}"]. *)
Definition two_digits (n : nat) : string :=
  if Nat.ltb n 10 then "0" ++ PyStr.of_nat n else PyStr.of_nat n.

(** [strftime("%m-%d")]. *)
Definition month_day (d : Date) : string :=
  two_digits (month d) ++ "-" ++ two_digits (day d).

(** [f"{m:02d}-01"]. *)
Definition month_start (m : nat) : string := two_digits m ++ "-01".

(** [xr.coding.cftime_offsets._MONTH_ABBREVIATIONS]. *)
Definition _MONTH_ABBREVIATIONS : list (nat * string) :=
  [(1, "JAN"); (2, "FEB"); (3, "MAR"); (4, "APR"); (5, "MAY"); (6, "JUN");
   (7, "JUL"); (8, "AUG"); (9, "SEP"); (10, "OCT"); (11, "NOV"); (12, "DEC")]%nat.

(** [list("JFMAMJJASOND")]. *)
Definition month_initials : list ascii := list_ascii_of_string "JFMAMJJASOND".

(** ["".join(months[np.array(range(m - 1, m + n - 1)) % 12])]. *)
Definition season_label (m n : nat) : string :=
  string_of_list_ascii
    (map (fun i => nth (i mod 12) month_initials " "%char)
         (seq (m - 1) n)).

Fixpoint insert_nat (x : nat) (l : list nat) : list nat :=
  match l with
  | [] => [x]
  | y :: rest =>
      match Nat.compare x y with
      | Lt => x :: l
      | Eq => l
      | Gt => y :: insert_nat x rest
      end
  end.

(** [np.unique] on months. *)
Definition unique_nat (l : list nat) : list nat := fold_right insert_nat [] l.

Fixpoint insert_str (x : string) (l : list string) : list string :=
  match l with
  | [] => [x]
  | y :: rest =>
      match String.compare x y with
      | Lt => x :: l
      | Eq => l
      | Gt => y :: insert_str x rest
      end
  end.

(** The sorted level of an index built from labels. *)
Definition unique_str (l : list string) : list string :=
  fold_right insert_str [] l.

Fixpoint insert_Z (x : Z) (l : list Z) : list Z :=
  match l with
  | [] => [x]
  | y :: rest =>
      match Z.compare x y with
      | Lt => x :: l
      | Eq => l
      | Gt => y :: insert_Z x rest
      end
  end.

Definition unique_Z (l : list Z) : list Z := fold_right insert_Z [] l.

(** A stable sort of [l] by the string [key]: what [sortby] does to an
    axis. *)
Fixpoint insert_by_key {A : Type} (key : A -> string) (x : A) (l : list A)
  : list A :=
  match l with
  | [] => [x]
  | y :: rest =>
      if String.ltb (key y) (key x) then y :: insert_by_key key x rest
      else x :: l
  end.

Definition sort_by_key {A : Type} (key : A -> string) (l : list A) : list A :=
  fold_right (insert_by_key key) [] l.

(** The order of the result of [sort_by_key]: no element is followed by one
    with a smaller key. *)
Definition key_le {A : Type} (key : A -> string) (x y : A) : Prop :=
  String.ltb (key y) (key x) = false.

(** [dict(zip(seasons.values(), seasons.keys()))]: a later key replaces an
    earlier one with the same label. *)
Definition invert (seasons : PyDict.t string) : PyDict.t string :=
  fold_left (fun acc kv => PyDict.set (snd kv) (fst kv) acc) seasons [].

(** The key that stands for a label in the sort: the last key of the season
    map, in its order, that carries the label. *)
Definition last_key_of (label : string) (seasons : PyDict.t string)
  : option string :=
  fold_left (fun acc kv => if String.eqb label (snd kv) then Some (fst kv)
                           else acc) seasons None.

(** The season map guessed from the frequency [mult], [base] of the time
    coordinate, whose months are [months]. *)
Definition infer_seasons (mult : nat) (base : string) (months : list nat)
  : PyDict.t string :=
  if String.eqb base "Q" || (String.eqb base "M" && Nat.ltb 1 mult) then
    let n := mult * (if String.eqb base "M" then 1 else 3) in
    fold_left (fun acc m => PyDict.set (month_start m) (season_label m n) acc)
              (unique_nat months) []
  else if PyStr.mem base ["A"; "Y"] then
    PyDict.set "01-01" "annual"
      (fold_left (fun acc ma =>
                    PyDict.set (month_start (fst ma))
                               ("annual-" ++ snd ma)%string acc)
                 _MONTH_ABBREVIATIONS [])
  else
    fold_left (fun acc ma => PyDict.set (month_start (fst ma)) (snd ma) acc)
              _MONTH_ABBREVIATIONS [].

(** A dataset along its time axis, and the result of [unstack_dates]: a
    yearly axis crossed with the season axis, values in row-major order. *)
Record TimeSeries (V : Type) : Type := mkTimeSeries {
  ts_time : list Date;
  ts_vars : PyDict.t (list V)
}.
Arguments mkTimeSeries {V} _ _.
Arguments ts_time {V} _.
Arguments ts_vars {V} _.

Record Seasonal (V : Type) : Type := mkSeasonal {
  out_time : list Z;
  out_season : list string;
  out_vars : PyDict.t (list V)
}.
Arguments mkSeasonal {V} _ _ _.
Arguments out_time {V} _.
Arguments out_season {V} _.
Arguments out_vars {V} _.

Definition ys_eqb (a b : Z * string) : bool :=
  Z.eqb (fst a) (fst b) && String.eqb (snd a) (snd b).

Fixpoint assoc_ys {A : Type} (p : Z * string) (table : list ((Z * string) * A))
  : option A :=
  match table with
  | [] => None
  | (q, v) :: rest => if ys_eqb p q then Some v else assoc_ys p rest
  end.

Section UnstackDates.

Context {V : Type}.
Variable fill : V.

(** [xr.infer_freq] followed by [parse_offset], which gives the
    multiplier and the base of the frequency. *)
Variable infer_freq : list Date -> option string.
Variable parse_offset : string -> nat * string.

Definition freq_message (freq : option string) : string :=
  "Can't infer season labels for time coordinate with frequency "
  ++ match freq with Some f => f | None => "None" end
  ++ ". Consider passing the  `seasons` dict explicitly.".

Definition resolve_seasons (ds : TimeSeries V)
           (seasons : option (PyDict.t string)) : result (PyDict.t string) :=
  match seasons with
  | Some s => Ok s
  | None =>
      match infer_freq (ts_time ds) with
      | None => Raise (ValueError (freq_message None))
      | Some freq =>
          let '(mult, base) := parse_offset freq in
          if negb (PyStr.mem base ["A"; "Q"; "M"; "Y"])
          then Raise (ValueError (freq_message (Some freq)))
          else Ok (infer_seasons mult base (map month (ts_time ds)))
      end
  end.

Definition grid_ys (years : list Z) (seasons : list string)
  : list (Z * string) :=
  flat_map (fun y => map (fun s => (y, s)) seasons) years.

Definition regrid_ys (points : list (Z * string)) (vals : list V)
           (grid : list (Z * string)) : list V :=
  map (fun p => match assoc_ys p (combine points vals) with
                | Some v => v
                | None => fill
                end) grid.

(** What [unstack] does to the values of variables held in memory: they
    are written into the grid in their order, so that of several
    timestamps with the same year and season the last one is kept (xarray
    2022.6.0, the release that the source names). *)
Definition regrid_ys_last (points : list (Z * string)) (vals : list V)
           (grid : list (Z * string)) : list V :=
  map (fun p => match assoc_ys p (rev (combine points vals)) with
                | Some v => v
                | None => fill
                end) grid.

(** [unstack_dates(ds, seasons, new_dim)]. *)
Definition unstack_dates (ds : TimeSeries V)
           (seasons : option (PyDict.t string)) : result (Seasonal V) :=
  seasons <- resolve_seasons ds seasons ;;
  let years := map year (ts_time ds) in
  seas <- for_each (ts_time ds)
            (fun d acc =>
               s <- PyDict.item (month_day d) seasons ;; Ok (acc ++ [s]))
            [] ;;
  let index := combine years seas in
  let year_axis := unique_Z years in
  let season_axis := unique_str seas in
  let unstacked := grid_ys year_axis season_axis in
  let inverted := invert seasons in
  sorted_axis <-
    (keys <- for_each season_axis
               (fun s acc =>
                  k <- PyDict.item s inverted ;; Ok (acc ++ [(s, k)])) [] ;;
     Ok (map fst (sort_by_key snd keys))) ;;
  let sorted := grid_ys year_axis sorted_axis in
  Ok (mkSeasonal year_axis sorted_axis
        (map (fun kv =>
                (fst kv,
                 regrid_ys unstacked
                           (regrid_ys_last index (snd kv) unstacked) sorted))
             (ts_vars ds))).

End UnstackDates.

(** ** Small instances used in the examples *)

(** A matcher for patterns without metacharacters: the pattern matches
    itself only. *)
Definition literal_match (pattern key : string) : result bool :=
  Ok (String.eqb pattern key).

Definition example_cv : PyDict.t PyVal :=
  [("tas", PStr "air_temperature"); ("pr", PStr "precipitation_flux")].

(** A stand-in for pint and xclim on a handful of unit expressions: a unit
    is its expression, its dimensionality is read from a table, and each
    conversion records its name in the attribute [history]. *)
Definition example_dimensionality (u : string) : PyDict.t Z :=
  if String.eqb u "mm" then [("[length]", 1%Z)]
  else if String.eqb u "mm d-1" then [("[length]", 1%Z); ("[time]", (-1)%Z)]
  else if String.eqb u "m s-1" then [("[length]", 1%Z); ("[time]", (-1)%Z)]
  else if String.eqb u "m s-3" then [("[length]", 1%Z); ("[time]", (-3)%Z)]
  else if String.eqb u "J"
       then [("[length]", 2%Z); ("[mass]", 1%Z); ("[time]", (-2)%Z)]
  else if String.eqb u "W"
       then [("[length]", 2%Z); ("[mass]", 1%Z); ("[time]", (-3)%Z)]
  else if String.eqb u "kJ"
       then [("[length]", 2%Z); ("[mass]", 1%Z); ("[time]", (-2)%Z)]
  else [].

Definition example_conversion (name : string) (v : DataVar Z) (target : string)
  : result (DataVar Z) :=
  Ok (mkDataVar (d_values v)
        (PyDict.set "history" (AStr name)
                    (PyDict.set "units" (AStr target) (d_attrs v)))).

Definition example_units : UnitsLib Z :=
  mkUnitsLib Z string (fun u => Ok u) String.eqb example_dimensionality
             (example_conversion "convert_units_to")
             (example_conversion "amount2rate")
             (example_conversion "rate2amount").

(** A dataset with one variable [name] in the units [u], on one point. *)
Definition one_variable (name u : string) : Dataset Z :=
  mkDataset ["time"] [] [(name, mkDataVar [10%Z] [("units", AStr u)])] [].

(** The call [clean_up(ds)]: every optional argument left at [None]. *)
Definition no_args : CleanUpArgs :=
  mkCleanUpArgs None None None None None None None None None None None None.

(** The call [clean_up(ds, change_attr_prefix=prefix)]. *)
Definition only_prefix (prefix : string) : CleanUpArgs :=
  mkCleanUpArgs None None None None None None None None None None
                (Some prefix) None.

(** A stand-in for the library operations of [clean_up] that do nothing. *)
Definition example_lib : CleanUpLib Z :=
  mkCleanUpLib Z unit (fun _ => tt) (fun _ => "standard")
               (fun ds _ => Ok ds) (fun ds _ => ds) (fun v => v)
               (fun v _ => d_values v) (fun v _ => v)
               (fun p _ => Raise (FileNotFoundError p))
               (fun _ => Ok "id").

(** A dataset that has an attribute under the empty key. *)
Definition empty_key_dataset : Dataset Z :=
  mkDataset ["time"] [] []
            [("", AStr "note"); ("cat:domain", AStr "QC")].

(** A quarterly series anchored in December, with what [xr.infer_freq] and
    [parse_offset] give for it, and a season map in which two keys carry
    the same label. *)
Definition quarterly_december : TimeSeries Z :=
  mkTimeSeries
    [mkDate 2000 12 1; mkDate 2001 3 1; mkDate 2001 6 1; mkDate 2001 9 1;
     mkDate 2001 12 1]
    [("tas", [1; 2; 3; 4; 5]%Z)].

Definition quarterly_infer_freq (_ : list Date) : option string :=
  Some "QS-DEC".

Definition quarterly_parse_offset (_ : string) : nat * string := (1, "Q").

Definition two_winter_keys : PyDict.t string :=
  [("12-01", "winter"); ("01-01", "winter"); ("06-01", "summer")].

Definition winter_summer : TimeSeries Z :=
  mkTimeSeries [mkDate 2000 12 1; mkDate 2001 1 1; mkDate 2001 6 1]
               [("tas", [1; 2; 3]%Z)].

(** ** Views used in the proofs *)

(** A dictionary of coordinates without the attributes. *)
Definition coord_view (cs : PyDict.t Coord)
  : list (string * (list string * list Label)) :=
  map (fun kc => (fst kc, (c_dims (snd kc), c_values (snd kc)))) cs.



(** The datasets and masks of the round trip: the dimensions of the grid are
    those of the mask, in the same order, distinct, at least one and not the
    new one; the mask has one size for each; the only coordinates of the
    dataset are the indexes of these dimensions, in their order, each with
    distinct labels. *)
Record well_formed_grid {V : Type} (ds : Dataset V) (mask : Mask)
       (new_dim : string) : Prop := mk_well_formed_grid {
  wf_dims : ds_dims ds = m_dims mask;
  wf_keys : PyDict.keys (coords ds) = m_dims mask;
  wf_nodup : NoDup (m_dims mask);
  wf_nonempty : m_dims mask <> [];
  wf_new_dim : ~ In new_dim (m_dims mask);
  wf_shape : List.length (m_shape mask) = List.length (m_dims mask);
  wf_labels : Forall (fun kc => NoDup (c_values (snd kc))) (coords ds)
}.

(** The points of the grid of [ds] kept by the mask, and their columns,
    one per dimension of the mask. *)
Definition kept_points {V : Type} (ds : Dataset V) (mask : Mask) : list Point :=
  keep (m_values mask) (cartesian (grid_axes ds)).

Definition stacked_columns {V : Type} (ds : Dataset V) (mask : Mask)
  : list (string * list Label) :=
  map (fun id => (snd id, column (fst id) (kept_points ds mask)))
      (combine (seq 0 (List.length (m_dims mask))) (m_dims mask)).

(** A 2 x 2 grid with one variable, and two masks on it: a checkerboard,
    and one that drops the whole second row. *)
Definition small_grid : Dataset Z :=
  mkDataset ["lat"; "lon"]
            [("lat", mkCoord ["lat"] [Some 10; Some 20]%Z []);
             ("lon", mkCoord ["lon"] [Some 1; Some 2]%Z [])]
            [("tas", mkDataVar [11; 12; 21; 22]%Z [("units", AStr "K")])]
            [("cat:domain", AStr "QC")].

Definition small_coords : PyDict.t Coord :=
  [("lat", mkCoord ["lat"] [Some 10; Some 20]%Z []);
   ("lon", mkCoord ["lon"] [Some 1; Some 2]%Z [])].

Definition checkerboard : Mask :=
  mkMask ["lat"; "lon"] [2; 2] [true; false; false; true] small_coords.


(** A 3 x 4 grid and a mask on it. *)
Definition grid_3x4 : Dataset Z :=
  mkDataset ["lat"; "lon"]
            [("lat", mkCoord ["lat"] [Some 1; Some 2; Some 3]%Z
                             [("units", AStr "degrees_north")]);
             ("lon", mkCoord ["lon"] [Some 1; Some 2; Some 3; Some 4]%Z [])]
            [("tas", mkDataVar [1; 2; 3; 4; 5; 6; 7; 8; 9; 10; 11; 12]%Z [])]
            [].

Definition mask_3x4 : Mask :=
  mkMask ["lat"; "lon"] [3; 4]
         [true; true; false; true; false; true; true; true; true; false;
          true; true]
         [("lat", mkCoord ["lat"] [Some 1; Some 2; Some 3]%Z []);
          ("lon", mkCoord ["lon"] [Some 1; Some 2; Some 3; Some 4]%Z [])].

(** The 2 x 2 grid stacked under the checkerboard mask. *)
Definition stacked_small_grid : Dataset Z :=
  mkDataset ["loc"]
            [("lat", mkCoord ["loc"] [Some 10; Some 20]%Z
                             [("original_shape", AStr "2x2")]);
             ("lon", mkCoord ["loc"] [Some 1; Some 2]%Z
                             [("original_shape", AStr "2x2")])]
            [("tas", mkDataVar [11; 22]%Z [("units", AStr "K")])]
            [("cat:domain", AStr "QC")].

(** The explicit mapping a caller may pass as [coords]. *)
Definition small_coords_dict : PyDict.t (list Label) :=
  [("lat", [Some 10; Some 20]%Z); ("lon", [Some 1; Some 2]%Z)].

(** ** Predicates used in the statements *)

(** The arguments with which no stage of [clean_up] does anything: every
    one is [None] or empty, or, for [maybe_unstack_dict], does not ask for
    the unstacking. *)
Definition skips_every_stage (args : CleanUpArgs) : Prop :=
  truthy_list (variables_and_units args) = None
  /\ truthy_list (convert_calendar_kwargs args) = None
  /\ (forall mu, maybe_unstack_dict args = Some mu ->
                 mu_stack_drop_nans mu = false)
  /\ truthy_list (round_var args) = None
  /\ truthy_list (common_attrs_only args) = None
  /\ truthy_str (to_level args) = None
  /\ truthy_list (attrs_to_remove args) = None
  /\ truthy_list (remove_all_attrs_except args) = None
  /\ truthy_list (add_attrs args) = None
  /\ truthy_str (change_attr_prefix args) = None.

(** Whether a calendar has the rank [n] of the hierarchy. *)
Definition is_rank (n : nat) (cal : string) : bool :=
  Nat.eqb (calendar_rank cal) n.

(** ** get_cat_attrs *)

(** [s[n:]]. *)
Fixpoint str_drop (n : nat) (s : string) : string :=
  match n, s with
  | O, _ => s
  | S k, String _ rest => str_drop k rest
  | S _, EmptyString => EmptyString
  end.

(** [get_cat_attrs(ds, prefix)], on the attributes of [ds]: the dictionary
    comprehension inserts the stripped keys in the order of the
    attributes. *)
Definition get_cat_attrs (attrs : Attrs) (prefix : string) : Attrs :=
  fold_left
    (fun acc kv =>
       if PyStr.startswith prefix (fst kv)
       then PyDict.set (str_drop (String.length prefix) (fst kv)) (snd kv) acc
       else acc)
    attrs [].

(** ** translate_time_chunk *)

(** A chunk specification: a size, a string such as ["2year"], [None], or
    a nested specification. *)
#[warnings="-register-all"]
Inductive Chunk : Type :=
| ChInt (z : Z)
| ChStr (s : string)
| ChNone
| ChDict (d : list (string * Chunk)).

(** [s.endswith(suffix)]. *)
Definition str_endswith (suffix s : string) : bool :=
  Nat.leb (String.length suffix) (String.length s)
  && String.eqb (str_drop (String.length s - String.length suffix) s) suffix.

(** [s.split(sep)[0]] for a separator that is not empty: what precedes the
    first occurrence of [sep], the whole string when there is none. *)
Fixpoint before_first (sep s : string) : string :=
  if String.prefix sep s then EmptyString
  else match s with
       | EmptyString => EmptyString
       | String c rest => String c (before_first sep rest)
       end.

(** The white space that [int] skips around a literal of ASCII
    characters: the space and the characters 9 to 13. *)
Definition is_space (c : ascii) : bool :=
  let n := nat_of_ascii c in
  Nat.eqb n 32 || (Nat.leb 9 n && Nat.leb n 13).

Fixpoint lstrip (s : string) : string :=
  match s with
  | String c rest => if is_space c then lstrip rest else s
  | EmptyString => EmptyString
  end.

(** The digits of an integer literal, after its sign: groups of digits
    separated by single underscores, then white space only.  [seen] tells
    whether the previous character was a digit. *)
Fixpoint parse_digits (seen : bool) (acc : Z) (s : string) : option Z :=
  match s with
  | EmptyString => if seen then Some acc else None
  | String c rest =>
      match digit_value c with
      | Some d => parse_digits true (acc * 10 + d) rest
      | None =>
          if Ascii.eqb c "_" then
            if seen then
              match rest with
              | String c' _ =>
                  match digit_value c' with
                  | Some _ => parse_digits false acc rest
                  | None => None
                  end
              | EmptyString => None
              end
            else None
          else if is_space c then
            if seen then
              match lstrip rest with
              | EmptyString => Some acc
              | _ => None
              end
            else None
          else None
      end
  end.

(** [int(s)] for a string of ASCII characters, shorter than the limit that
    Python sets on the number of digits. *)
Definition py_int (s : string) : result Z :=
  let bad := Raise (ValueError ("invalid literal for int() with base 10: '"
                                ++ s ++ "'")) in
  match lstrip s with
  | String "-" rest =>
      match parse_digits false 0 rest with
      | Some n => Ok (- n)%Z
      | None => bad
      end
  | String "+" rest =>
      match parse_digits false 0 rest with
      | Some n => Ok n
      | None => bad
      end
  | body =>
      match parse_digits false 0 body with
      | Some n => Ok n
      | None => bad
      end
  end.

Section TranslateTimeChunk.

(** [int(n * 365.25)], the product being a float: the integer part of the
    rounded product, an [OverflowError] where the float overflows. *)
Variable days_julian : Z -> result Z.

(** [int(n * {...}.get(calendar, 365.25))]; the products by 365, 360 and
    366 are products of integers. *)
Definition year_chunk (calendar : string) (n : Z) : result Z :=
  if String.eqb calendar "noleap" then Ok (n * 365)%Z
  else if String.eqb calendar "360_day" then Ok (n * 360)%Z
  else if String.eqb calendar "all_leap" then Ok (n * 366)%Z
  else days_julian n.

(** The new value of the entry [k], whose value is [v]; [translate_all] is
    the loop over the items of a nested specification. *)
Fixpoint translate_entry (calendar : string) (timesize : Z)
         (k : string) (v : Chunk) : result Chunk :=
  match v with
  | ChDict d =>
      d' <- (fix translate_all (l : list (string * Chunk))
               : result (list (string * Chunk)) :=
               match l with
               | [] => Ok []
               | (k', v') :: rest =>
                   x <- translate_entry calendar timesize k' v' ;;
                   rest' <- translate_all rest ;;
                   Ok ((k', x) :: rest')
               end) d ;;
      Ok (ChDict d')
  | ChNone => Ok ChNone
  | ChStr s =>
      if String.eqb k "time" && str_endswith "year" s then
        n <- py_int (before_first "year" s) ;;
        nt <- year_chunk calendar n ;;
        Ok (ChInt nt)
      else Ok v
  | ChInt z =>
      if String.eqb k "time" && Z.eqb z (-1) then Ok (ChInt timesize)
      else Ok v
  end.

(** [translate_time_chunk(chunks, calendar, timesize)]. *)
Fixpoint translate_time_chunk (chunks : list (string * Chunk))
         (calendar : string) (timesize : Z)
  : result (list (string * Chunk)) :=
  match chunks with
  | [] => Ok []
  | (k, v) :: rest =>
      x <- translate_entry calendar timesize k v ;;
      rest' <- translate_time_chunk rest calendar timesize ;;
      Ok ((k, x) :: rest')
  end.

End TranslateTimeChunk.

(** ** natural_sort *)

(** [text.isdigit()] for a string of ASCII characters. *)
Definition str_isdigit (s : string) : bool :=
  match s with
  | EmptyString => false
  | _ => forallb is_digit (list_ascii_of_string s)
  end.

Definition ascii_lower (c : ascii) : ascii :=
  let n := nat_of_ascii c in
  if Nat.leb 65 n && Nat.leb n 90 then ascii_of_nat (n + 32) else c.

(** [text.lower()] for a string of ASCII characters. *)
Fixpoint str_lower (s : string) : string :=
  match s with
  | EmptyString => EmptyString
  | String c rest => String (ascii_lower c) (str_lower rest)
  end.

(** [re.split("([0-9]+)", key)]: the runs of digits and what lies between
    them, beginning and ending with a piece that holds no digit.  [cur] is
    the piece being read, [in_digits] tells whether it is a run of
    digits. *)
Fixpoint split_runs (in_digits : bool) (cur : string) (s : string)
  : list string :=
  match s with
  | EmptyString => if in_digits then [cur; EmptyString] else [cur]
  | String c rest =>
      if is_digit c then
        if in_digits
        then split_runs true (cur ++ String c EmptyString) rest
        else cur :: split_runs true (String c EmptyString) rest
      else
        if in_digits
        then cur :: split_runs false (String c EmptyString) rest
        else split_runs false (cur ++ String c EmptyString) rest
  end.

Definition re_split_digits (key : string) : list string :=
  split_runs false EmptyString key.

(** An element of a sort key: a number or a text. *)
Inductive Tok : Type :=
| TInt (n : Z)
| TStr (s : string).

(** [convert(text)]. *)
Definition convert (text : string) : result Tok :=
  if str_isdigit text then n <- py_int text ;; Ok (TInt n)
  else Ok (TStr (str_lower text)).

Fixpoint map_result {A B : Type} (f : A -> result B) (l : list A)
  : result (list B) :=
  match l with
  | [] => Ok []
  | x :: rest => y <- f x ;; ys <- map_result f rest ;; Ok (y :: ys)
  end.

(** [alphanum_key(key)]. *)
Definition alphanum_key (key : string) : result (list Tok) :=
  map_result convert (re_split_digits key).

Definition tok_eqb (a b : Tok) : bool :=
  match a, b with
  | TInt x, TInt y => Z.eqb x y
  | TStr s, TStr t => String.eqb s t
  | _, _ => false
  end.

(** [a < b] on elements: a number and a text cannot be ordered. *)
Definition tok_lt (a b : Tok) : result bool :=
  match a, b with
  | TInt x, TInt y => Ok (Z.ltb x y)
  | TStr s, TStr t => Ok (String.ltb s t)
  | _, _ => Raise (TypeError "'<' not supported between instances of 'int' and 'str'")
  end.

(** [a < b] on lists: the first elements that differ decide, a proper
    prefix is smaller. *)
Fixpoint tok_list_lt (a b : list Tok) : result bool :=
  match a, b with
  | _, [] => Ok false
  | [], _ :: _ => Ok true
  | x :: a', y :: b' =>
      if tok_eqb x y then tok_list_lt a' b' else tok_lt x y
  end.

(** [sorted] on elements paired with their keys: a stable sort that uses
    [<] on the keys only.  The list obtained does not depend on the sorting
    algorithm when the keys can be compared pairwise; an insertion sort
    stands for it. *)
Fixpoint insert_keyed {A : Type} (x : A * list Tok) (l : list (A * list Tok))
  : result (list (A * list Tok)) :=
  match l with
  | [] => Ok [x]
  | y :: rest =>
      b <- tok_list_lt (snd y) (snd x) ;;
      if b then rest' <- insert_keyed x rest ;; Ok (y :: rest')
      else Ok (x :: l)
  end.

Fixpoint sort_keyed {A : Type} (l : list (A * list Tok))
  : result (list (A * list Tok)) :=
  match l with
  | [] => Ok []
  | x :: rest => sorted <- sort_keyed rest ;; insert_keyed x sorted
  end.

(** [natural_sort(_list)]: every key is computed before the sort. *)
Definition natural_sort (_list : list string) : result (list string) :=
  keyed <- map_result (fun s => k <- alphanum_key s ;; Ok (s, k)) _list ;;
  sorted <- sort_keyed keyed ;;
  Ok (map fst sorted).

(** The entry reached in a nested chunk specification by following a path
    of keys. *)
Fixpoint chunk_at (path : list string) (d : list (string * Chunk))
  : option Chunk :=
  match path with
  | [] => None
  | k :: rest =>
      match rest with
      | [] => PyDict.get k d
      | _ :: _ =>
          match PyDict.get k d with
          | Some (ChDict d') => chunk_at rest d'
          | _ => None
          end
      end
  end.

Definition is_dict (v : Chunk) : bool :=
  match v with ChDict _ => true | _ => false end.

(** The entries that [translate_time_chunk] leaves as they are: those that
    are not nested specifications and are neither the size -1 nor a number
    of years under the key ["time"]. *)
Definition left_alone (k : string) (v : Chunk) : bool :=
  match v with
  | ChDict _ => false
  | ChNone => true
  | ChInt z => negb (String.eqb k "time" && Z.eqb z (-1))
  | ChStr s => negb (String.eqb k "time" && str_endswith "year" s)
  end.

(** [int(n * 365.25)] in the arithmetic of IEEE doubles.  [n] is
    converted to the nearest double, ties going to the even significand,
    which fails at 2^1024; the product by 365.25, which is 1461 / 4, is
    rounded in the same way, to infinity from 2^1024; [int] takes the
    integer part and refuses infinity. *)
Definition round_half_even (x s : Z) : Z :=
  if (s <=? 0)%Z then x
  else
    let q := Z.shiftr x s in
    let r := (x - Z.shiftl q s)%Z in
    let half := Z.shiftl 1 (s - 1) in
    if (half <? r)%Z || ((r =? half)%Z && Z.odd q) then (q + 1)%Z else q.

(** A natural number rounded to 53 significant bits. *)
Definition round53 (x : Z) : Z :=
  let b := (Z.log2 x + 1)%Z in
  if (b <=? 53)%Z then x
  else Z.shiftl (round_half_even x (b - 53)) (b - 53).

Definition example_days_julian (n : Z) : result Z :=
  let f := round53 (Z.abs n) in
  if (2 ^ 1024 <=? f)%Z then
    Raise (OverflowError "int too large to convert to float")
  else
    let p := round53 (f * 1461) in
    if (2 ^ 1026 <=? p)%Z then
      Raise (OverflowError "cannot convert float infinity to integer")
    else Ok (Z.sgn n * (p / 4))%Z.

(** A nested chunk specification. *)
Definition example_chunks : list (string * Chunk) :=
  [("lat", ChInt 50);
   ("time", ChStr "4year");
   ("daily", ChDict [("time", ChInt (-1)); ("lon", ChInt (-1))]);
   ("bad", ChDict [("time", ChStr "1.5year")])].

(** Strings of ASCII characters: the strings on which the models of
    [int], [isdigit] and [lower] above say what Python does. *)
Definition is_ascii (s : string) : bool :=
  forallb (fun c => Nat.ltb (nat_of_ascii c) 128) (list_ascii_of_string s).

(** The default of [sys.int_max_str_digits]: [int] refuses a longer
    literal. *)
Definition int_max_str_digits : nat := 4300.

Definition plain (s : string) : bool :=
  is_ascii s && Nat.leb (String.length s) int_max_str_digits.

(** Keys whose elements alternate between texts and numbers. *)
Fixpoint alternates (text_first : bool) (k : list Tok) : bool :=
  match k with
  | [] => true
  | TStr _ :: k' => text_first && alternates false k'
  | TInt _ :: k' => negb text_first && alternates true k'
  end.

(** Pieces that alternate between runs of digits and digit-free texts. *)
Fixpoint runs_alternate (digits_first : bool) (l : list string) : bool :=
  match l with
  | [] => true
  | p :: l' =>
      Bool.eqb (str_isdigit p) digits_first
      && runs_alternate (negb digits_first) l'
  end.

(** A comparison of keys that is defined on every pair; numbers are put
    before texts. *)
Definition tok_compare (a b : Tok) : comparison :=
  match a, b with
  | TInt x, TInt y => Z.compare x y
  | TStr s, TStr t => String.compare s t
  | TInt _, TStr _ => Lt
  | TStr _, TInt _ => Gt
  end.

Fixpoint key_compare (a b : list Tok) : comparison :=
  match a, b with
  | [], [] => Eq
  | [], _ :: _ => Lt
  | _ :: _, [] => Gt
  | x :: a', y :: b' =>
      match tok_compare x y with
      | Eq => key_compare a' b'
      | c => c
      end
  end.

(** [alphanum_key(a) < alphanum_key(b)]. *)
Definition key_lt (a b : string) : result bool :=
  ka <- alphanum_key a ;; kb <- alphanum_key b ;; tok_list_lt ka kb.

(** [cur + pieces[0]] put back as the first piece. *)
Definition prepend (cur : string) (pieces : list string) : list string :=
  match pieces with
  | [] => []
  | h :: t => (cur ++ h)%string :: t
  end.

(** Neither key is smaller than the other: the elements that a stable sort
    keeps in their order. *)
Definition key_eqb (a b : string) : bool :=
  match key_lt a b, key_lt b a with
  | Ok false, Ok false => true
  | _, _ => false
  end.

(** The order of the elements paired with their keys. *)
Definition keyed_le {A : Type} (p q : A * list Tok) : Prop :=
  key_compare (snd q) (snd p) <> Lt.

Definition has_key {A : Type} (k : list Tok) (p : A * list Tok) : bool :=
  match key_compare (snd p) k with Eq => true | _ => false end.

(** An element paired with the key that [alphanum_key] gives it. *)
Definition keyed_by (p : string * list Tok) : Prop :=
  alphanum_key (fst p) = Ok (snd p) /\ alternates true (snd p) = true.

(** Texts that hold no digit, and texts that do not begin with one. *)
Definition no_digit (s : string) : bool :=
  forallb (fun c => negb (is_digit c)) (list_ascii_of_string s).

Definition starts_without_digit (s : string) : bool :=
  match s with
  | EmptyString => true
  | String c _ => negb (is_digit c)
  end.

(** Whether [_search(a, b)] is true. *)
Definition matches (a b : string) : bool :=
  match _search a b with Ok true => true | _ => false end.

(** The patterns of a list that match an attribute name. *)
Definition matching (list_of_attrs : list string) (ds_attr : string)
  : list string :=
  filter (fun a => matches a ds_attr) list_of_attrs.

(** The calls [clean_up(ds, attrs_to_remove=rm)],
    [clean_up(ds, remove_all_attrs_except=rm)] and
    [clean_up(ds, common_attrs_only=sources)]. *)
Definition only_remove (rm : PyDict.t (list string)) : CleanUpArgs :=
  mkCleanUpArgs None None None None None None None (Some rm) None None
                None None.

Definition only_keep (rm : PyDict.t (list string)) : CleanUpArgs :=
  mkCleanUpArgs None None None None None None None None (Some rm) None
                None None.

Definition only_common (sources : list AttrSource) : CleanUpArgs :=
  mkCleanUpArgs None None None None None (Some sources) None None None None
                None None.

(** A dataset with some catalog attributes, and a second one that shares
    part of them. *)
Definition attrs_dataset : Dataset Z :=
  mkDataset ["time"] [] []
            [("cat:domain", AStr "QC"); ("cat:date_start", AStr "1950");
             ("history", AStr "created"); ("cat:source", AStr "CRCM5");
             ("comment", AStr "none")].

Definition other_attrs : Attrs :=
  [("cat:domain", AStr "QC"); ("cat:date_start", AStr "1950");
   ("cat:source", AStr "CanESM2"); ("comment", AStr "none")].

(** Whether no pattern of the list matches the attribute name. *)
Definition unmatched (list_of_attrs : list string) (ds_attr : string)
  : bool :=
  match matching list_of_attrs ds_attr with [] => true | _ :: _ => false end.

(** An attribute that another dataset holds with the same value, the two
    date attributes apart. *)
Definition shared (other : Attrs) (kv : string * AttrVal) : bool :=
  negb (PyStr.mem (fst kv) ["cat:date_start"; "cat:date_end"])
  && match PyDict.get (fst kv) other with
     | Some w => attr_eqb (snd kv) w
     | None => false
     end.

(** The call [clean_up(ds, convert_calendar_kwargs=kwargs,
    missing_by_var=mbv)]. *)
Definition only_calendar (kwargs mbv : PyDict.t PyVal) : CleanUpArgs :=
  mkCleanUpArgs None (Some kwargs) (Some mbv) None None None None None None
                None None None.

(** A dataset with two variables on one point. *)
Definition two_variables : Dataset Z :=
  mkDataset ["time"] []
            [("rsds", mkDataVar [10%Z] [("units", AStr "W")]);
             ("tas", mkDataVar [280%Z] [("units", AStr "K")])]
            [("cat:domain", AStr "QC")].

(** The number of points that a mask keeps. *)
Definition count_true (m : list bool) : nat :=
  List.length (filter (fun b => b) m).

(** Whether [coords] was given as a list or tuple of names. *)
Definition is_names (coords_arg : CoordsArg) : bool :=
  match coords_arg with CoordsNames _ => true | _ => false end.

(** The cell of variable [name] at year [y] and season [s] in the result
    of [unstack_dates]. *)
Definition season_cell {V : Type} (out : Seasonal V) (name : string)
           (p : Z * string) : option V :=
  match PyDict.get name (out_vars out) with
  | Some vals =>
      assoc_ys p (combine (grid_ys (out_time out) (out_season out)) vals)
  | None => None
  end.

(** A monthly series stamped at the end of each month, with what
    [xr.infer_freq] and [parse_offset] give for it. *)
Definition month_ends : TimeSeries Z :=
  mkTimeSeries [mkDate 2000 1 31; mkDate 2000 2 29; mkDate 2000 3 31]
               [("tas", [1; 2; 3]%Z)].

Definition month_end_infer_freq (_ : list Date) : option string := Some "M".

Definition month_end_parse_offset (_ : string) : nat * string := (1, "M").

(** The calls [clean_up(ds, to_level=lvl, remove_all_attrs_except=rm)] and
    [clean_up(ds, attrs_to_remove=rm, add_attrs=add)]. *)
Definition level_and_keep (lvl : string) (rm : PyDict.t (list string))
  : CleanUpArgs :=
  mkCleanUpArgs None None None None None None None None (Some rm) None
                None (Some lvl).

Definition remove_and_add (rm : PyDict.t (list string))
           (add : PyDict.t Attrs) : CleanUpArgs :=
  mkCleanUpArgs None None None None None None None (Some rm) None (Some add)
                None None.


(** A series with two timestamps in the same year and the same season. *)
Definition same_year_winters : TimeSeries Z :=
  mkTimeSeries [mkDate 2001 1 1; mkDate 2001 12 1; mkDate 2001 6 1]
               [("tas", [1; 2; 3]%Z)].

(* ================================================================== *)
(** * Part II: properties *)
(* ================================================================== *)

(** ** minimum_calendar *)

Lemma existsb_pointwise {A : Type} (f g : A -> bool) (l : list A) :
  (forall x, f x = g x) -> existsb f l = existsb g l.
Proof.
  intros E. induction l as [|x l IH]; simpl; [reflexivity|].
  now rewrite E, IH.
Qed.

Lemma forallb_pointwise {A : Type} (f g : A -> bool) (l : list A) :
  (forall x, f x = g x) -> forallb f l = forallb g l.
Proof.
  intros E. induction l as [|x l IH]; simpl; [reflexivity|].
  now rewrite E, IH.
Qed.

Lemma existsb_orb {A : Type} (f g : A -> bool) (l : list A) :
  existsb (fun x => f x || g x) l = existsb f l || existsb g l.
Proof.
  induction l as [|x l IH]; simpl; [reflexivity|]. rewrite IH.
  destruct (f x), (g x), (existsb f l); reflexivity.
Qed.

Section MinimumCalendar.

Lemma mem_360_rank cal : String.eqb "360_day" cal = is_rank 0 cal.
Proof.
  unfold is_rank, calendar_rank. rewrite (String.eqb_sym cal).
  destruct (String.eqb "360_day" cal); [reflexivity|].
  destruct (_ || _); [reflexivity|]. destruct (_ || _); reflexivity.
Qed.

Lemma mem_noleap_rank cal :
  String.eqb "noleap" cal || String.eqb "365_day" cal = is_rank 1 cal.
Proof.
  unfold is_rank, calendar_rank.
  rewrite !(String.eqb_sym cal).
  destruct (String.eqb_spec "360_day" cal) as [<-|_]; [reflexivity|].
  destruct (_ || _); [reflexivity|]. destruct (_ || _); reflexivity.
Qed.

Lemma mem_leap_rank cal :
  PyStr.mem cal ["all_leap"; "366_day"] = is_rank 3 cal.
Proof.
  unfold is_rank, calendar_rank, PyStr.mem. simpl. rewrite orb_false_r.
  destruct (String.eqb_spec cal "360_day") as [->|_]; [reflexivity|].
  destruct (String.eqb_spec cal "noleap") as [->|_]; [reflexivity|].
  destruct (String.eqb_spec cal "365_day") as [->|_]; [reflexivity|].
  simpl. destruct (_ || _); reflexivity.
Qed.

Lemma calendar_rank_le3 cal : calendar_rank cal <= 3.
Proof.
  unfold calendar_rank.
  destruct (String.eqb _ _); [lia|].
  destruct (_ || _); [lia|]. destruct (_ || _); lia.
Qed.

Lemma min_rank_le3 cals : min_rank cals <= 3.
Proof.
  unfold min_rank. induction cals as [|c cals IH]; simpl; lia.
Qed.

(** The minimum rank, by the tests the function makes. *)
Lemma min_rank_cases cals :
  min_rank cals =
    if existsb (is_rank 0) cals then 0
    else if existsb (is_rank 1) cals then 1
    else if forallb (is_rank 3) cals then 3
    else 2.
Proof.
  induction cals as [|c cals IH]; [reflexivity|].
  change (min_rank (c :: cals))
    with (Nat.min (calendar_rank c) (min_rank cals)).
  pose proof (min_rank_le3 cals) as Hle.
  pose proof (calendar_rank_le3 c) as Hc.
  simpl existsb. simpl forallb. unfold is_rank at 1 3 5.
  rewrite IH in *. clear IH.
  destruct (calendar_rank c) as [|[|[|[|n]]]]; simpl Nat.eqb; simpl orb;
    simpl andb; try lia;
    destruct (existsb (is_rank 0) cals); try reflexivity;
    destruct (existsb (is_rank 1) cals); try reflexivity;
    destruct (forallb (is_rank 3) cals); reflexivity.
Qed.

Lemma minimum_calendar_cases cals :
  minimum_calendar cals =
    if existsb (is_rank 0) cals then "360_day"
    else if existsb (is_rank 1) cals then "noleap"
    else if forallb (is_rank 3) cals then "all_leap"
    else "standard".
Proof.
  unfold minimum_calendar, PyStr.mem.
  rewrite (existsb_pointwise _ _ cals mem_360_rank).
  rewrite <- (existsb_pointwise _ _ cals mem_noleap_rank).
  rewrite <- (forallb_pointwise _ _ cals mem_leap_rank).
  rewrite existsb_orb. unfold PyStr.mem. reflexivity.
Qed.

End MinimumCalendar.

(** C2, as amended: [minimum_calendar] returns one of the four names of the
    hierarchy 360_day < noleap < standard < all_leap, and its rank is the
    minimum of the ranks of its arguments (365_day and 366_day counting as
    noleap and all_leap, any other name as standard).  In particular
    ("standard", "360_day") gives "360_day", ("noleap", "all_leap") gives
    "noleap", and ("all_leap", "366_day") gives "all_leap". *)
Theorem minimum_calendar_hierarchy (calendars : list string) :
  calendar_rank (minimum_calendar calendars) = min_rank calendars
  /\ In (minimum_calendar calendars)
        ["360_day"; "noleap"; "standard"; "all_leap"]
  /\ minimum_calendar ["standard"; "360_day"] = "360_day"
  /\ minimum_calendar ["noleap"; "all_leap"] = "noleap"
  /\ minimum_calendar ["all_leap"; "366_day"] = "all_leap".
Proof.
  rewrite min_rank_cases, minimum_calendar_cases.
  repeat split; try reflexivity.
  - destruct (existsb _ calendars); [reflexivity|].
    destruct (existsb _ calendars); [reflexivity|].
    destruct (forallb _ calendars); reflexivity.
  - destruct (existsb _ calendars); [simpl; tauto|].
    destruct (existsb _ calendars); [simpl; tauto|].
    destruct (forallb _ calendars); simpl; tauto.
Qed.

(** C2, as stated, fails on its second example: the minimum of "noleap"
    and "all_leap" is "noleap", not "standard". *)
Lemma minimum_calendar_noleap_all_leap_not_standard :
  minimum_calendar ["noleap"; "all_leap"] = "noleap"
  /\ minimum_calendar ["noleap"; "all_leap"] <> "standard".
Proof. split; [reflexivity | discriminate]. Qed.

(** ** Python dictionaries *)

Lemma get_not_in {V : Type} (k : string) (d : PyDict.t V) :
  ~ In k (PyDict.keys d) -> PyDict.get k d = None.
Proof.
  induction d as [|[k' v] d IH]; simpl; intros H; [reflexivity|].
  destruct (String.eqb_spec k k') as [->|_]; [tauto|].
  apply IH. tauto.
Qed.

Lemma get_some_in {V : Type} (k : string) (v : V) (d : PyDict.t V) :
  PyDict.get k d = Some v -> In (k, v) d.
Proof.
  induction d as [|[k' v'] d IH]; simpl; [discriminate|].
  destruct (String.eqb_spec k k') as [->|_].
  - intros [= ->]. now left.
  - intros H. right. now apply IH.
Qed.

Lemma get_in_nodup {V : Type} (k : string) (v : V) (d : PyDict.t V) :
  NoDup (PyDict.keys d) -> In (k, v) d -> PyDict.get k d = Some v.
Proof.
  induction d as [|[k' v'] d IH]; simpl; intros ND H; [tauto|].
  inversion ND as [|? ? Hk ND']; subst.
  destruct H as [[= -> ->]|H].
  - now rewrite String.eqb_refl.
  - destruct (String.eqb_spec k k') as [->|_]; [|now apply IH].
    exfalso. apply Hk. change k' with (fst (k', v)). now apply in_map.
Qed.

(** ** Controlled vocabularies *)

Section VocabularyFacts.

Variable fullmatch : string -> string -> result bool.

Lemma first_match_unmapped cv key :
  Forall (no_match fullmatch key) cv -> first_match fullmatch cv key = Ok None.
Proof.
  induction 1 as [|[cin cout] cv [H|[msg H]] _ IH]; simpl in *;
    [reflexivity| |]; now rewrite H.
Qed.

Lemma first_match_mapped pre cin cout post key :
  Forall (no_match fullmatch key) pre ->
  fullmatch cin key = Ok true ->
  first_match fullmatch (pre ++ (cin, cout) :: post) key = Ok (Some cout).
Proof.
  intros Hpre Hm.
  induction Hpre as [|[c o] pre [H|[msg H]] _ IH]; simpl in *;
    [now rewrite Hm| |]; now rewrite H.
Qed.

Lemma cv_default_other key default :
  default <> PStr "pass" -> default <> PStr "error" ->
  cv_default key default = Ok default.
Proof.
  intros Hp He. destruct default as [| | |d|]; try reflexivity. simpl.
  destruct (String.eqb_spec d "pass") as [->|_]; [congruence|].
  destruct (String.eqb_spec d "error") as [->|_]; [congruence|reflexivity].
Qed.

Lemma cvfunc_unmapped is_regex cv key default :
  unmapped fullmatch is_regex cv key ->
  cvfunc fullmatch is_regex cv key default = cv_default key default.
Proof.
  unfold unmapped, cvfunc. destruct is_regex; intros H.
  - now rewrite (first_match_unmapped _ _ H).
  - now rewrite (get_not_in _ _ H).
Qed.

End VocabularyFacts.

(** C7: for every vocabulary lookup function and every key without entry
    in its mapping, [default="pass"] returns the key unchanged,
    [default="error"] raises a [KeyError] naming the key, and any other
    default value is returned as it is; for a mapped key the mapped value
    is returned. *)
Theorem cvfunc_contract (fullmatch : string -> string -> result bool)
        (is_regex : bool) (cv : PyDict.t PyVal) (key : string)
        (default : PyVal) :
  (unmapped fullmatch is_regex cv key ->
   cvfunc fullmatch is_regex cv key (PStr "pass") = Ok (PStr key)
   /\ cvfunc fullmatch is_regex cv key (PStr "error") = Raise (KeyError key)
   /\ (default <> PStr "pass" -> default <> PStr "error" ->
       cvfunc fullmatch is_regex cv key default = Ok default))
  /\ (forall v, mapped_to fullmatch is_regex cv key v ->
                cvfunc fullmatch is_regex cv key default = Ok v).
Proof.
  split.
  - intros H. rewrite !(cvfunc_unmapped _ _ _ _ _ H).
    repeat split. apply cv_default_other.
  - intros v. unfold mapped_to, cvfunc. destruct is_regex.
    + intros (pre & cin & post & -> & Hpre & Hm).
      now rewrite (first_match_mapped _ _ _ _ _ _ Hpre Hm).
    + intros [ND Hin]. now rewrite (get_in_nodup _ _ _ ND Hin).
Qed.

Lemma cvfunc_contract_witness :
  (cvfunc literal_match false example_cv "huss" (PStr "pass") = Ok (PStr "huss")
   /\ cvfunc literal_match false example_cv "huss" (PStr "error")
      = Raise (KeyError "huss")
   /\ (PInt 0 <> PStr "pass" -> PInt 0 <> PStr "error" ->
       cvfunc literal_match false example_cv "huss" (PInt 0) = Ok (PInt 0)))
  /\ cvfunc literal_match true example_cv "pr" (PInt 0)
     = Ok (PStr "precipitation_flux").
Proof.
  split.
  - apply (proj1 (cvfunc_contract literal_match false example_cv "huss"
                                  (PInt 0))).
    simpl. intros [H|[H|[]]]; discriminate.
  - apply (proj2 (cvfunc_contract literal_match true example_cv "pr" (PInt 0))).
    simpl. exists [("tas", PStr "air_temperature")]. exists "pr". exists [].
    split; [reflexivity|]. split; [|reflexivity].
    constructor; [|constructor]. left. reflexivity.
Defined.

(** ** Substrings *)

Lemma prefix_app (s t : string) : String.prefix s (s ++ t) = true.
Proof.
  induction s as [|c s IH]; simpl; [destruct t; reflexivity|].
  destruct (ascii_dec c c); [exact IH|congruence].
Qed.

Lemma contains_here (s t : string) : PyStr.contains s (s ++ t) = true.
Proof.
  destruct s as [|c s]; [destruct t; reflexivity|].
  change (String.prefix (String c s) (String c s ++ t)
          || PyStr.contains (String c s) (s ++ t) = true).
  now rewrite prefix_app.
Qed.

Lemma contains_app_r (sub s t : string) :
  PyStr.contains sub t = true -> PyStr.contains sub (s ++ t) = true.
Proof.
  intros H. induction s as [|c s IH]; simpl; [exact H|].
  rewrite IH. apply orb_true_r.
Qed.

(** ** change_units *)

Section ChangeUnitsFacts.

Context {V : Type} (lib : UnitsLib V).


(** One requested variable whose units differ from the target. *)
Lemma change_units_one (v target : string) (ds : Dataset V)
      (var : DataVar V) (src : AttrVal) (u_ds u_out : PintUnit lib) :
  PyDict.get v (data_vars ds) = Some var ->
  PyDict.get "units" (d_attrs var) = Some src ->
  units2pint lib (attr_str src) = Ok u_ds ->
  units2pint lib target = Ok u_out ->
  unit_eqb lib u_ds u_out = false ->
  change_units lib ds [(v, target)]
  = (var' <- convert_var lib var (attr_str src) target u_ds u_out ;;
     Ok (set_data_var v var' ds)).
Proof.
  intros Hv Hu Hds Hout Hne.
  unfold change_units. cbn [for_each fst snd]. unfold change_units_var.
  rewrite Hv. unfold PyDict.item. rewrite Hu. cbn [bind].
  rewrite Hds. cbn [bind]. rewrite Hout. cbn [bind]. rewrite Hne.
  cbn [negb]. now destruct (convert_var _ _ _ _ _ _).
Qed.

Lemma mismatch_message_names_units (src_units target : string) :
  PyStr.contains src_units (mismatch_message src_units target) = true
  /\ PyStr.contains target (mismatch_message src_units target) = true.
Proof.
  unfold mismatch_message. split.
  - apply contains_app_r, contains_here.
  - do 3 apply contains_app_r. apply contains_here.
Qed.

End ChangeUnitsFacts.



(** C5, as amended: when the exponents of time of the source and target
    units of a requested variable differ by something other than 0, +1 or
    -1, [change_units] raises [NotImplementedError]; the message names the
    source units and the target units. *)
Theorem change_units_temporal_mismatch
        {V : Type} (lib : UnitsLib V) (v target : string) (ds : Dataset V)
        (var : DataVar V) (src : AttrVal) (u_ds u_out : PintUnit lib) :
  PyDict.get v (data_vars ds) = Some var ->
  PyDict.get "units" (d_attrs var) = Some src ->
  units2pint lib (attr_str src) = Ok u_ds ->
  units2pint lib target = Ok u_out ->
  unit_eqb lib u_ds u_out = false ->
  (time_exponent lib u_ds - time_exponent lib u_out <> 0)%Z ->
  (time_exponent lib u_ds - time_exponent lib u_out <> 1)%Z ->
  (time_exponent lib u_ds - time_exponent lib u_out <> -1)%Z ->
  change_units lib ds [(v, target)]
  = Raise (NotImplementedError (mismatch_message (attr_str src) target))
  /\ PyStr.contains (attr_str src) (mismatch_message (attr_str src) target)
     = true
  /\ PyStr.contains target (mismatch_message (attr_str src) target) = true.
Proof.
  intros Hv Hu Hds Hout Hne H0 H1 H2.
  split; [|apply mismatch_message_names_units].
  rewrite (change_units_one lib v target ds var src u_ds u_out
             Hv Hu Hds Hout Hne).
  unfold convert_var. cbv zeta.
  destruct (Z.eqb_spec (time_exponent lib u_ds) (time_exponent lib u_out));
    [lia|].
  destruct (Z.eqb_spec (time_exponent lib u_ds - time_exponent lib u_out) 1);
    [lia|].
  destruct (Z.eqb_spec (time_exponent lib u_ds - time_exponent lib u_out)
                       (-1)); [lia|].
  reflexivity.
Qed.

Lemma change_units_temporal_mismatch_witness :
  change_units example_units (one_variable "pr" "mm") [("pr", "m s-3")]
  = Raise (NotImplementedError (mismatch_message "mm" "m s-3"))
  /\ PyStr.contains "mm" (mismatch_message "mm" "m s-3") = true
  /\ PyStr.contains "m s-3" (mismatch_message "mm" "m s-3") = true.
Proof.
  apply (change_units_temporal_mismatch
           example_units "pr" "m s-3" (one_variable "pr" "mm")
           (mkDataVar [10%Z] [("units", AStr "mm")]) (AStr "mm")
           "mm" "m s-3"); try reflexivity; vm_compute; discriminate.
Defined.

(** C5, as stated, fails: the message of the error raised for the variable
    "wind" does not name the variable. *)
Lemma change_units_message_omits_variable :
  change_units example_units (one_variable "wind" "m s-1") [("wind", "m s-3")]
  = Raise (NotImplementedError
      "No known transformation between m s-1 and m s-3 (temporal dimensionality mismatch).")
  /\ PyStr.contains "wind"
       "No known transformation between m s-1 and m s-3 (temporal dimensionality mismatch)."
     = false.
Proof. split; reflexivity. Qed.

(** ** clean_up *)

Lemma get_set_other {V : Type} (k k' : string) (v : V) (d : PyDict.t V) :
  k <> k' -> PyDict.get k (PyDict.set k' v d) = PyDict.get k d.
Proof.
  intros Hne. induction d as [|[x w] d IH]; simpl.
  - destruct (String.eqb_spec k k'); [contradiction|reflexivity].
  - destruct (String.eqb_spec k' x) as [->|_]; simpl.
    + destruct (String.eqb_spec k x); [contradiction|reflexivity].
    + now rewrite IH.
Qed.

Lemma get_remove_other {V : Type} (k k' : string) (d : PyDict.t V) :
  k <> k' -> PyDict.get k (PyDict.remove k' d) = PyDict.get k d.
Proof.
  intros Hne. induction d as [|[x w] d IH]; simpl; [reflexivity|].
  destruct (String.eqb_spec k' x) as [->|_]; simpl.
  - destruct (String.eqb_spec k x); [contradiction|reflexivity].
  - now rewrite IH.
Qed.

Lemma in_keys_get {V : Type} (k : string) (d : PyDict.t V) :
  In k (PyDict.keys d) -> exists v, PyDict.get k d = Some v.
Proof.
  induction d as [|[x w] d IH]; simpl; [tauto|].
  destruct (String.eqb_spec k x) as [->|Hne]; [now exists w|].
  intros [H|H]; [congruence|now apply IH].
Qed.

Lemma replace_from_cons (old new : string) (c : ascii) (rest : string) :
  PyStr.replace_from 0 old new (String c rest) =
    if String.prefix old (String c rest)
    then (new ++ PyStr.replace_from (String.length old - 1) old new rest)%string
    else String c (PyStr.replace_from 0 old new rest).
Proof. reflexivity. Qed.

Lemma in_keys_set {V : Type} (k : string) (v : V) (d : PyDict.t V) :
  In k (PyDict.keys (PyDict.set k v d)).
Proof.
  induction d as [|[x w] d IH]; simpl; [now left|].
  destruct (String.eqb_spec k x) as [->|_]; simpl; [now left|now right].
Qed.

Lemma get_in_keys {V : Type} (k : string) (v : V) (d : PyDict.t V) :
  PyDict.get k d = Some v -> In k (PyDict.keys d).
Proof.
  intros H. apply get_some_in in H.
  change k with (fst (k, v)). now apply in_map.
Qed.

(** With a prefix that is not empty, only the empty key is rewritten to
    the empty key. *)
Lemma replace_empty (prefix s : string) :
  prefix <> "" -> PyStr.replace "cat:" prefix s = "" -> s = "".
Proof.
  intros Hp. destruct s as [|c s]; [reflexivity|].
  unfold PyStr.replace. rewrite replace_from_cons.
  destruct (String.prefix _ _); [|discriminate].
  destruct prefix; [congruence|discriminate].
Qed.

Lemma rewrite_key_empty (prefix : string) (attrs : Attrs) :
  rewrite_key prefix "" attrs = Ok attrs.
Proof. reflexivity. Qed.

(** The loop of the prefix rewrite keeps the entry of the empty key: every
    key still to be visited is in the dictionary, and no rewritten key is
    empty. *)
Lemma change_prefix_loop (prefix : string) (v : AttrVal) :
  prefix <> "" ->
  forall (todo : list string) (attrs : Attrs),
    NoDup todo ->
    (forall k, In k todo -> k <> "" -> In k (PyDict.keys attrs)) ->
    PyDict.get "" attrs = Some v ->
    exists attrs', for_each todo (rewrite_key prefix) attrs = Ok attrs'
                   /\ PyDict.get "" attrs' = Some v.
Proof.
  intros Hp. induction todo as [|k todo IH]; intros attrs ND Hin Hget.
  - exists attrs. now split.
  - inversion ND as [|? ? Hk ND']; subst. simpl.
    destruct (String.eqb_spec k "") as [->|Hne].
    + rewrite rewrite_key_empty. simpl. apply IH; auto.
      intros k Hk' Hk''. apply Hin; [now right|assumption].
    + unfold rewrite_key.
      assert (Hnew : PyStr.replace "cat:" prefix k <> "").
      { intros E. apply Hne. now apply (replace_empty prefix). }
      destruct (PyStr.replace "cat:" prefix k) as [|c new] eqn:Enew;
        [contradiction|]. simpl PyStr.truthy. cbv iota.
      destruct (in_keys_get k attrs) as [w Hw]; [apply Hin; [now left|exact Hne]|].
      unfold PyDict.pop. rewrite Hw. simpl.
      apply IH; auto.
      * intros k' Hk' Hk''.
        destruct (in_keys_get k' attrs) as [w' Hw'];
          [apply Hin; [now right|exact Hk'']|].
        assert (k' <> k) by (intros ->; contradiction).
        assert (G : PyDict.get k' (PyDict.remove k attrs) = Some w')
          by now rewrite get_remove_other.
        destruct (String.eqb_spec k' (String c new)) as [->|Hd].
        -- apply in_keys_set.
        -- apply get_in_keys with (v := w').
           now rewrite get_set_other, G.
      * rewrite get_set_other by discriminate.
        rewrite get_remove_other; [exact Hget|]. congruence.
Qed.

Lemma change_prefix_keeps_empty_key (prefix : string) (attrs : Attrs)
      (v : AttrVal) :
  prefix <> "" ->
  NoDup (PyDict.keys attrs) ->
  PyDict.get "" attrs = Some v ->
  exists attrs', change_prefix prefix attrs = Ok attrs'
                 /\ PyDict.get "" attrs' = Some v.
Proof.
  intros Hp ND Hget. apply change_prefix_loop; auto.
Qed.

(** C8, as amended: in the prefix rewrite stage of [clean_up], a global
    attribute key whose rewrite gives the empty key (with a prefix that is
    not empty, the empty key itself) is left as it is: its iteration writes
    no key and removes none, and the key keeps its value in the result. *)
Theorem clean_up_prefix_rewrite_empty_key
        {V : Type} (units : UnitsLib V) (lib : CleanUpLib V) (fill : V)
        (fs : FileStore) (ds : Dataset V) (prefix k : string) (v : AttrVal) :
  prefix <> "" ->
  NoDup (PyDict.keys (ds_attrs ds)) ->
  PyDict.get k (ds_attrs ds) = Some v ->
  PyStr.replace "cat:" prefix k = "" ->
  (forall attrs, rewrite_key prefix k attrs = Ok attrs)
  /\ exists ds',
       clean_up units lib fill fs ds (only_prefix prefix) = Ok ds'
       /\ PyDict.get k (ds_attrs ds') = Some v.
Proof.
  intros Hp ND Hget Hk.
  apply (replace_empty prefix) in Hk; [subst k|exact Hp].
  split; [reflexivity|].
  destruct (change_prefix_keeps_empty_key prefix _ v Hp ND Hget)
    as (attrs' & Hrun & Hget').
  exists (set_attrs attrs' ds). split; [|exact Hget'].
  unfold clean_up, only_prefix, when. simpl.
  destruct prefix as [|c p]; [congruence|]. simpl.
  now rewrite Hrun.
Qed.

Lemma clean_up_prefix_rewrite_empty_key_witness :
  (forall attrs, rewrite_key "dataset:" "" attrs = Ok attrs)
  /\ exists ds',
       clean_up example_units example_lib 0%Z [] empty_key_dataset
                (only_prefix "dataset:") = Ok ds'
       /\ PyDict.get "" (ds_attrs ds') = Some (AStr "note").
Proof.
  apply (clean_up_prefix_rewrite_empty_key
           example_units example_lib 0%Z [] empty_key_dataset
           "dataset:" "" (AStr "note")).
  - discriminate.
  - simpl. repeat constructor; simpl; intuition discriminate.
  - reflexivity.
  - reflexivity.
Defined.

(** C8, as stated, fails: after the rewrite with the prefix "dataset:" the
    empty key, whose rewrite is empty, is still among the attributes. *)
Lemma clean_up_prefix_rewrite_leaves_empty_key :
  PyStr.replace "cat:" "dataset:" "" = ""
  /\ clean_up example_units example_lib 0%Z [] empty_key_dataset
              (only_prefix "dataset:")
     = Ok (mkDataset ["time"] [] []
             [("", AStr "note"); ("dataset:domain", AStr "QC")])
  /\ PyDict.mem "" [("", AStr "note"); ("dataset:domain", AStr "QC")] = true.
Proof. repeat split. Qed.

(** Every stage of [clean_up] is skipped when its argument is absent or
    empty. *)
Lemma clean_up_skipped
      {V : Type} (units : UnitsLib V) (lib : CleanUpLib V) (fill : V)
      (fs : FileStore) (ds : Dataset V) (args : CleanUpArgs) :
  skips_every_stage args ->
  clean_up units lib fill fs ds args = Ok ds.
Proof.
  intros (Hu & Hc & Hm & Hr & Hca & Hl & Hrm & Hex & Hadd & Hp).
  unfold clean_up. rewrite Hu, Hc, Hr, Hca, Hl, Hrm, Hex, Hadd, Hp.
  cbn [when bind].
  destruct (maybe_unstack_dict args) as [mu|]; [|reflexivity].
  cbn [when]. unfold maybe_unstack. now rewrite (Hm mu eq_refl).
Qed.

(** C10: [clean_up] called with every optional argument absent skips every
    stage and returns the dataset it was given, unchanged. *)
Theorem clean_up_no_args_identity
        {V : Type} (units : UnitsLib V) (lib : CleanUpLib V) (fill : V)
        (fs : FileStore) (ds : Dataset V) :
  clean_up units lib fill fs ds no_args = Ok ds.
Proof.
  apply clean_up_skipped. unfold skips_every_stage, no_args. cbn.
  repeat split. discriminate.
Qed.

(** ** unstack_dates *)


Lemma get_set_same {V : Type} (k : string) (v : V) (d : PyDict.t V) :
  PyDict.get k (PyDict.set k v d) = Some v.
Proof.
  induction d as [|[x w] d IH]; simpl.
  - now rewrite String.eqb_refl.
  - destruct (String.eqb_spec k x) as [->|Hne]; simpl.
    + now rewrite String.eqb_refl.
    + destruct (String.eqb_spec k x); [contradiction|exact IH].
Qed.

(** [inverted[label]] is the last key that carries the label. *)
Lemma invert_last_key (label : string) (seasons : PyDict.t string) :
  PyDict.get label (invert seasons) = last_key_of label seasons.
Proof.
  unfold invert, last_key_of.
  change (@None string) with (PyDict.get label (@nil (string * string))).
  generalize (@nil (string * string)) as acc.
  induction seasons as [|[k l] seasons IH]; intros acc; simpl; [reflexivity|].
  rewrite IH. f_equal.
  destruct (String.eqb_spec label l) as [->|Hne].
  - apply get_set_same.
  - now apply get_set_other.
Qed.

Section SortByKey.

Context {A : Type} (key : A -> string).

Lemma ltb_asym (s t : string) : String.ltb s t = true -> String.ltb t s = false.
Proof.
  unfold String.ltb. rewrite (String.compare_antisym s t).
  destruct (String.compare t s); simpl; congruence.
Qed.

Lemma insert_by_key_hd (x y : A) (l : list A) :
  key_le key y x -> HdRel (key_le key) y l -> HdRel (key_le key) y (insert_by_key key x l).
Proof.
  intros Hyx Hl. destruct l as [|z l]; simpl; [now constructor|].
  inversion Hl; subst.
  destruct (String.ltb (key z) (key x)); now constructor.
Qed.

Lemma insert_by_key_sorted (x : A) (l : list A) :
  Sorted (key_le key) l -> Sorted (key_le key) (insert_by_key key x l).
Proof.
  induction 1 as [|y l Hs IH Hhd]; simpl; [repeat constructor|].
  destruct (String.ltb (key y) (key x)) eqn:E.
  - constructor; [exact IH|].
    apply insert_by_key_hd; [|exact Hhd]. now apply ltb_asym.
  - constructor; [now constructor|]. constructor. exact E.
Qed.

Lemma sort_by_key_sorted (l : list A) : Sorted (key_le key) (sort_by_key key l).
Proof.
  induction l as [|x l IH]; simpl; [constructor|].
  now apply insert_by_key_sorted.
Qed.

Lemma insert_by_key_Forall (P : A -> Prop) (x : A) (l : list A) :
  P x -> Forall P l -> Forall P (insert_by_key key x l).
Proof.
  intros Hx. induction 1 as [|y l Hy Hl IH]; simpl; [now repeat constructor|].
  destruct (String.ltb (key y) (key x)); repeat constructor; auto.
Qed.

Lemma sort_by_key_Forall (P : A -> Prop) (l : list A) :
  Forall P l -> Forall P (sort_by_key key l).
Proof.
  induction 1 as [|x l Hx Hl IH]; simpl; [constructor|].
  now apply insert_by_key_Forall.
Qed.

End SortByKey.

(** A loop that appends one item per element: the items collected. *)
Lemma for_each_append {A B C : Type} (f : A -> result B) (g : A -> B -> C)
      (l : list A) (acc r : list C) :
  for_each l (fun x acc => y <- f x ;; Ok (acc ++ [g x y])) acc = Ok r ->
  exists items,
    r = acc ++ items
    /\ Forall2 (fun x z => exists y, f x = Ok y /\ z = g x y) l items.
Proof.
  revert acc. induction l as [|x l IH]; simpl; intros acc H.
  - injection H as <-. exists []. split; [now rewrite app_nil_r|constructor].
  - destruct (f x) as [y|e] eqn:E; simpl in H; [|discriminate].
    destruct (IH _ H) as (items & -> & HF).
    exists (g x y :: items). split; [now rewrite <- app_assoc|].
    constructor; [now exists y|exact HF].
Qed.

Lemma insert_by_key_perm {A : Type} (key : A -> string) (x : A) (l : list A) :
  Permutation (insert_by_key key x l) (x :: l).
Proof.
  induction l as [|y l IH]; simpl; [reflexivity|].
  destruct (String.ltb (key y) (key x)); [|reflexivity].
  rewrite IH. apply perm_swap.
Qed.

Lemma sort_by_key_perm {A : Type} (key : A -> string) (l : list A) :
  Permutation (sort_by_key key l) l.
Proof.
  induction l as [|x l IH]; simpl; [reflexivity|].
  rewrite insert_by_key_perm. now constructor.
Qed.

Lemma Sorted_map_snd (l : list (string * string)) :
  Sorted (key_le snd) l ->
  Sorted (fun k1 k2 => String.ltb k2 k1 = false) (map snd l).
Proof.
  induction 1 as [|x l Hs IH Hhd]; simpl; constructor; [exact IH|].
  destruct Hhd; simpl; now constructor.
Qed.

Section UnstackDatesFacts.

Context {V : Type} (fill : V).
Variable infer_freq : list Date -> option string.
Variable parse_offset : string -> nat * string.

(** The season axis of a successful call: the distinct labels of the
    timestamps, in the order of the keys that [inverted] holds for them. *)
Lemma unstack_dates_axis (ds : TimeSeries V)
      (seasons : option (PyDict.t string)) (smap : PyDict.t string)
      (out : Seasonal V) :
  resolve_seasons infer_freq parse_offset ds seasons = Ok smap ->
  unstack_dates fill infer_freq parse_offset ds seasons = Ok out ->
  exists labels keys,
    Forall2 (fun d s => PyDict.get (month_day d) smap = Some s)
            (ts_time ds) labels
    /\ Permutation (out_season out) (unique_str labels)
    /\ Forall2 (fun s k => last_key_of s smap = Some k) (out_season out) keys
    /\ Sorted (fun k1 k2 => String.ltb k2 k1 = false) keys.
Proof.
  intros Hres. unfold unstack_dates. rewrite Hres. simpl.
  destruct (for_each (ts_time ds) _ []) as [seas|e] eqn:Hseas;
    simpl; [|discriminate].
  destruct (for_each (unique_str seas) _ []) as [pairs|e] eqn:Hkeys;
    simpl; [|discriminate].
  intros [= <-]. simpl.
  apply (for_each_append (fun d => PyDict.item (month_day d) smap)
                         (fun _ s => s)) in Hseas.
  destruct Hseas as (labels & -> & Hlabels). simpl in *.
  apply (for_each_append (fun s => PyDict.item s (invert smap))
                         (fun s k => (s, k))) in Hkeys.
  destruct Hkeys as (items & -> & Hitems). simpl in *.
  assert (Hfst : map fst items = unique_str labels).
  { clear -Hitems. induction Hitems as [|s z l items (k & _ & ->) _ IH];
      simpl; [reflexivity|now rewrite IH]. }
  assert (Hinv : Forall (fun sk => last_key_of (fst sk) smap = Some (snd sk))
                        items).
  { clear -Hitems. induction Hitems as [|s z l items (k & Hk & ->) _ IH];
      constructor; [|exact IH]. simpl. rewrite <- invert_last_key.
    unfold PyDict.item in Hk. destruct (PyDict.get s (invert smap));
      [now injection Hk as ->|discriminate]. }
  exists labels, (map snd (sort_by_key snd items)). repeat split.
  - clear -Hlabels. induction Hlabels as [|d z l items (s & Hs & ->) _ IH];
      constructor; [|exact IH].
    unfold PyDict.item in Hs. destruct (PyDict.get _ smap);
      [now injection Hs as ->|discriminate].
  - rewrite <- Hfst. apply Permutation_map, sort_by_key_perm.
  - apply (sort_by_key_Forall snd) in Hinv.
    induction Hinv; simpl; constructor; auto.
  - apply Sorted_map_snd, sort_by_key_sorted.
Qed.

End UnstackDatesFacts.

(** C3, as amended: the season axis of [unstack_dates] holds the distinct
    labels of the timestamps, sorted by the lexical order of the "MM-DD" key
    that stands for each label, which is the last key of the SeasonMap that
    carries the label (the order of the labels themselves plays no part).
    For a quarterly series anchored in December the axis is MAM, JJA, SON,
    DJF: DJF, whose key is "12-01", comes last. *)
Theorem unstack_dates_season_order
        {V : Type} (fill : V) (infer_freq : list Date -> option string)
        (parse_offset : string -> nat * string) (ds : TimeSeries V)
        (seasons : option (PyDict.t string)) (smap : PyDict.t string)
        (out : Seasonal V) :
  resolve_seasons infer_freq parse_offset ds seasons = Ok smap ->
  unstack_dates fill infer_freq parse_offset ds seasons = Ok out ->
  (exists labels keys,
     Forall2 (fun d s => PyDict.get (month_day d) smap = Some s)
             (ts_time ds) labels
     /\ Permutation (out_season out) (unique_str labels)
     /\ Forall2 (fun s k => last_key_of s smap = Some k) (out_season out) keys
     /\ Sorted (fun k1 k2 => String.ltb k2 k1 = false) keys)
  /\ (exists quarterly,
        unstack_dates 0%Z quarterly_infer_freq quarterly_parse_offset
                      quarterly_december None = Ok quarterly
        /\ out_season quarterly = ["MAM"; "JJA"; "SON"; "DJF"]).
Proof.
  intros Hres Hrun. split.
  - now apply (unstack_dates_axis fill infer_freq parse_offset ds seasons).
  - eexists. split; reflexivity.
Qed.

Lemma unstack_dates_season_order_witness :
  (exists labels keys,
     Forall2 (fun d s => PyDict.get (month_day d) two_winter_keys = Some s)
             (ts_time winter_summer) labels
     /\ Permutation ["winter"; "summer"] (unique_str labels)
     /\ Forall2 (fun s k => last_key_of s two_winter_keys = Some k)
                ["winter"; "summer"] keys
     /\ Sorted (fun k1 k2 => String.ltb k2 k1 = false) keys)
  /\ (exists quarterly,
        unstack_dates 0%Z quarterly_infer_freq quarterly_parse_offset
                      quarterly_december None = Ok quarterly
        /\ out_season quarterly = ["MAM"; "JJA"; "SON"; "DJF"]).
Proof.
  apply (unstack_dates_season_order
           0%Z quarterly_infer_freq quarterly_parse_offset
           winter_summer (Some two_winter_keys) two_winter_keys
           (mkSeasonal [2000; 2001]%Z ["winter"; "summer"]
                       [("tas", [1; 0; 2; 3]%Z)]));
    reflexivity.
Defined.

(** C3, as stated, fails on its example: for the quarterly series anchored
    in December the season axis is MAM, JJA, SON, DJF; DJF is placed after
    MAM, not before. *)
Lemma unstack_dates_december_quarter_last :
  unstack_dates 0%Z quarterly_infer_freq quarterly_parse_offset
                quarterly_december None
  = Ok (mkSeasonal [2000; 2001]%Z ["MAM"; "JJA"; "SON"; "DJF"]
                   [("tas", [0; 0; 0; 1; 2; 3; 4; 5]%Z)])
  /\ index_of "MAM" ["MAM"; "JJA"; "SON"; "DJF"] = Some 0
  /\ index_of "DJF" ["MAM"; "JJA"; "SON"; "DJF"] = Some 3.
Proof. repeat split. Qed.

(** When two keys carry the same label the sort uses the last of them, not
    the first: "winter", first met at "12-01", is placed by "01-01", before
    "summer". *)
Lemma unstack_dates_uses_last_key :
  unstack_dates 0%Z quarterly_infer_freq quarterly_parse_offset
                winter_summer (Some two_winter_keys)
  = Ok (mkSeasonal [2000; 2001]%Z ["winter"; "summer"]
                   [("tas", [1; 0; 2; 3]%Z)])
  /\ last_key_of "winter" two_winter_keys = Some "01-01".
Proof. split; reflexivity. Qed.

(** ** Grids, masks and label lookup *)







Lemma keep_map {A B : Type} (f : A -> B) (m : list bool) (l : list A) :
  keep m (map f l) = map f (keep m l).
Proof.
  revert l. induction m as [|b m IH]; intros [|x l]; simpl; try reflexivity.
  destruct b; simpl; now rewrite IH.
Qed.












Lemma column_keep (i : nat) (m : list bool) (pts : list Point) :
  keep m (column i pts) = column i (keep m pts).
Proof. apply keep_map. Qed.






(** ** Datasets seen without the attributes of their coordinates *)

Lemma list_string_eqb_refl (l : list string) : list_string_eqb l l = true.
Proof.
  unfold list_string_eqb. destruct (list_eq_dec string_dec l l); congruence.
Qed.

Lemma coord_view_keys (cs : PyDict.t Coord) :
  map fst (coord_view cs) = PyDict.keys cs.
Proof. unfold coord_view, PyDict.keys. rewrite map_map. reflexivity. Qed.

Lemma get_map_values {A B : Type} (g : A -> B) (k : string) (d : PyDict.t A) :
  PyDict.get k (map (fun kv => (fst kv, g (snd kv))) d)
  = option_map g (PyDict.get k d).
Proof.
  induction d as [|[x a] d IH]; simpl; [reflexivity|].
  destruct (String.eqb k x); [reflexivity|exact IH].
Qed.


Lemma remove_not_in {A : Type} (k : string) (d : PyDict.t A) :
  ~ In k (PyDict.keys d) -> PyDict.remove k d = d.
Proof.
  induction d as [|[x a] d IH]; simpl; intros H; [reflexivity|].
  destruct (String.eqb_spec k x) as [->|_]; [tauto|].
  rewrite IH; [reflexivity|tauto].
Qed.

Lemma coord_view_set (name : string) (c c' : Coord) (cs : PyDict.t Coord) :
  PyDict.get name cs = Some c ->
  c_dims c' = c_dims c -> c_values c' = c_values c ->
  coord_view (PyDict.set name c' cs) = coord_view cs.
Proof.
  intros Hget Hd Hv. induction cs as [|[x a] cs IH]; simpl in *;
    [discriminate|].
  destruct (String.eqb_spec name x) as [->|_]; simpl.
  - injection Hget as ->. now rewrite Hd, Hv.
  - now rewrite IH.
Qed.


Section ViewFacts.

Context {V : Type}.

Lemma modify_coord_attrs_view (name : string) (f : Attrs -> Attrs)
      (ds ds' : Dataset V) :
  modify_coord_attrs name f ds = Ok ds' ->
  coord_view (coords ds') = coord_view (coords ds)
  /\ data_vars ds' = data_vars ds
  /\ ds_dims ds' = ds_dims ds
  /\ ds_attrs ds' = ds_attrs ds.
Proof.
  unfold modify_coord_attrs, PyDict.item.
  destruct (PyDict.get name (coords ds)) as [c|] eqn:E; simpl; [|discriminate].
  intros [= <-]. simpl. repeat split.
  now apply coord_view_set with (c := c).
Qed.

Lemma modify_coord_attrs_ok (name : string) (f : Attrs -> Attrs)
      (ds : Dataset V) :
  In name (PyDict.keys (coords ds)) ->
  exists ds', modify_coord_attrs name f ds = Ok ds'.
Proof.
  intros H. destruct (in_keys_get _ _ H) as [c Hc].
  unfold modify_coord_attrs, PyDict.item. rewrite Hc. simpl. eauto.
Qed.

(** A loop that touches the attributes of coordinates only: it succeeds when
    the coordinates exist, and changes nothing else. *)
Lemma for_each_modify (F : string -> Attrs -> Attrs) (names : list string)
      (ds : Dataset V) :
  Forall (fun d => In d (PyDict.keys (coords ds))) names ->
  exists ds',
    for_each names (fun d out => modify_coord_attrs d (F d) out) ds = Ok ds'
    /\ coord_view (coords ds') = coord_view (coords ds)
    /\ data_vars ds' = data_vars ds
    /\ ds_dims ds' = ds_dims ds
    /\ ds_attrs ds' = ds_attrs ds.
Proof.
  revert ds. induction names as [|d names IH]; intros ds H; simpl.
  - exists ds. repeat split.
  - inversion H as [|? ? Hd Hrest]; subst.
    destruct (modify_coord_attrs_ok d (F d) ds Hd) as [ds1 H1].
    rewrite H1. simpl.
    destruct (modify_coord_attrs_view _ _ _ _ H1) as (Hv & Hdv & Hdm & Ha).
    destruct (IH ds1) as (ds' & Hrun & Hv' & Hdv' & Hdm' & Ha').
    { rewrite <- coord_view_keys, Hv, coord_view_keys. exact Hrest. }
    exists ds'. repeat split; congruence.
Qed.



End ViewFacts.

(** ** unstack_fill_nan on per-point columns *)

Lemma mem_In (x : string) (l : list string) : PyStr.mem x l = true <-> In x l.
Proof.
  unfold PyStr.mem. rewrite existsb_exists. split.
  - intros (y & Hy & E). apply String.eqb_eq in E. now subst.
  - intros H. exists x. split; [exact H|apply String.eqb_refl].
Qed.

Lemma filter_not_mem_nil {A : Type} (names : list string) (d : PyDict.t A) :
  (forall k, In k (PyDict.keys d) -> In k names) ->
  filter (fun kc => negb (PyStr.mem (fst kc) names)) d = [].
Proof.
  induction d as [|[x a] d IH]; simpl; intros H; [reflexivity|].
  destruct (PyStr.mem x names) eqn:E; simpl.
  - apply IH. intros k Hk. apply H. now right.
  - exfalso. assert (Hx : In x names) by (apply H; now left).
    apply mem_In in Hx. congruence.
Qed.




Section UnstackColumns.

Context {V : Type} (fill : V).


End UnstackColumns.

(** ** The attribute original_shape *)

Section OriginalShape.

Context {V : Type}.

Lemma coord_attrs_modify (name dim : string) (f : Attrs -> Attrs)
      (ds ds' : Dataset V) :
  modify_coord_attrs name f ds = Ok ds' ->
  coord_attrs ds' dim
  = if String.eqb dim name then f (coord_attrs ds name) else coord_attrs ds dim.
Proof.
  unfold modify_coord_attrs, PyDict.item, coord_attrs.
  destruct (PyDict.get name (coords ds)) as [c|] eqn:E; simpl; [|discriminate].
  intros [= <-]. simpl.
  destruct (String.eqb_spec dim name) as [->|Hne].
  - now rewrite get_set_same.
  - now rewrite get_set_other.
Qed.

Lemma for_each_set_attr (key : string) (value : AttrVal) (names : list string)
      (ds out : Dataset V) (dim : string) :
  for_each names
    (fun d o => modify_coord_attrs d (PyDict.set key value) o) ds = Ok out ->
  In dim names \/ PyDict.get key (coord_attrs ds dim) = Some value ->
  PyDict.get key (coord_attrs out dim) = Some value.
Proof.
  revert ds. induction names as [|d names IH]; simpl; intros ds Hrun Hdim.
  - injection Hrun as <-. tauto.
  - destruct (modify_coord_attrs d _ ds) as [ds1|e] eqn:E; simpl in Hrun;
      [|discriminate].
    apply (IH ds1 Hrun).
    rewrite (coord_attrs_modify _ dim _ _ _ E).
    destruct (String.eqb_spec dim d) as [->|Hne].
    + right. apply get_set_same.
    + destruct Hdim as [[->|Hin]|Hget]; [congruence|now left|now right].
Qed.

End OriginalShape.

(** ** stack_drop_nans on a well-formed grid *)

Lemma map_snd_enumerate {A : Type} (l : list A) :
  map snd (combine (seq 0 (List.length l)) l) = l.
Proof.
  generalize 0 as start. induction l as [|x l IH]; intros start; simpl;
    [reflexivity|]. now rewrite IH.
Qed.


Section StackFacts.

Context {V : Type}.

Lemma axes_of_grid (ds : Dataset V) (mask : Mask) (new_dim : string) :
  well_formed_grid ds mask new_dim ->
  map (axis_of ds) (combine (m_dims mask) (m_shape mask)) = grid_axes ds.
Proof.
  intros [Hd Hk _ _ _ Hs _]. unfold grid_axes. rewrite Hd.
  assert (Hin : forall d, In d (m_dims mask) -> In d (PyDict.keys (coords ds)))
    by (intros d; now rewrite Hk).
  clear Hd Hk. revert Hs Hin. generalize (m_shape mask) as shape.
  induction (m_dims mask) as [|d dims IH]; intros [|k shape]; simpl;
    try discriminate; [reflexivity|].
  intros [= Hs] Hin. rewrite IH; [|exact Hs|intros; apply Hin; now right].
  f_equal. unfold axis_of. simpl.
  destruct (in_keys_get d (coords ds)) as [c ->]; [apply Hin; now left|].
  reflexivity.
Qed.



(** The stacked dataset: its coordinates are the columns of the kept
    points, each with the attribute [original_shape]; its variables are the
    cells of these points. *)
Lemma stack_drop_nans_view (ds : Dataset V) (mask : Mask) (new_dim : string)
      (to_file : option string) (fs fs' : FileStore) :
  well_formed_grid ds mask new_dim ->
  write_coords ds mask to_file (original_shape_of (m_shape mask)) fs = Ok fs' ->
  exists out,
    stack_drop_nans ds mask new_dim to_file fs = Ok (out, fs')
    /\ ds_dims out = [new_dim]
    /\ coord_view (coords out)
       = map (fun nc => (fst nc, ([new_dim], snd nc))) (stacked_columns ds mask)
    /\ data_vars out
       = map (fun kv => (fst kv,
                         mkDataVar (keep (m_values mask) (d_values (snd kv)))
                                   (d_attrs (snd kv))))
             (data_vars ds)
    /\ ds_attrs out = ds_attrs ds
    /\ Forall (fun kc =>
                 PyDict.get "original_shape" (c_attrs (snd kc))
                 = Some (AStr (original_shape_of (m_shape mask))))
              (coords out).
Proof.
  intros Hwf Hwrite. pose proof Hwf as [Hd Hk Hnd Hne Hnew Hs Hl].
  unfold stack_drop_nans, xr_stack.
  rewrite Hd, list_string_eqb_refl. cbn [bind].
  rewrite (axes_of_grid _ _ _ Hwf).
  rewrite (filter_not_mem_nil (m_dims mask) (coords ds))
    by (intros k; now rewrite Hk).
  cbn [map app].
  set (out0 := xr_reset_index_drop new_dim _).
  assert (Hview0 : coord_view (coords out0)
            = map (fun nc => (fst nc, ([new_dim], snd nc)))
                  (stacked_columns ds mask)).
  { unfold out0, xr_reset_index_drop, xr_where_drop. cbn [coords].
    rewrite remove_not_in.
    - unfold coord_view, stacked_columns, kept_points.
      rewrite !map_map. apply map_ext. intros [i d]. cbn [fst snd c_dims].
      rewrite list_string_eqb_refl. cbn [fst snd c_dims c_values].
      now rewrite column_keep.
    - unfold PyDict.keys. rewrite !map_map.
      rewrite (map_ext _ (fun id : nat * string => snd id)).
      + now rewrite map_snd_enumerate.
      + intros [i d]. cbn [fst snd c_dims].
        now rewrite list_string_eqb_refl. }
  assert (Hkeys0 : PyDict.keys (coords out0) = m_dims mask).
  { rewrite <- coord_view_keys, Hview0. unfold stacked_columns.
    rewrite !map_map. cbn [fst snd]. apply map_snd_enumerate. }
  destruct (for_each_modify
              (fun d a => PyDict.update a (coord_attrs ds d))
              (m_dims mask) out0) as (out1 & Hrun1 & Hv1 & Hdv1 & Hdm1 & Ha1).
  { apply Forall_forall. intros d Hin. now rewrite Hkeys0. }
  rewrite Hrun1. cbn [bind]. rewrite Hwrite. cbn [bind].
  assert (Hkeys1 : PyDict.keys (coords out1) = m_dims mask)
    by now rewrite <- coord_view_keys, Hv1, coord_view_keys.
  destruct (for_each_modify
              (fun _ => PyDict.set "original_shape"
                          (AStr (original_shape_of (m_shape mask))))
              (m_dims mask) out1) as (out2 & Hrun2 & Hv2 & Hdv2 & Hdm2 & Ha2).
  { apply Forall_forall. intros d Hin. now rewrite Hkeys1. }
  rewrite Hrun2. cbn [bind].
  assert (Hkeys2 : PyDict.keys (coords out2) = m_dims mask)
    by now rewrite <- coord_view_keys, Hv2, coord_view_keys.
  exists out2. split; [reflexivity|]. split; [now rewrite Hdm2, Hdm1|].
  split; [now rewrite Hv2, Hv1|]. split; [now rewrite Hdv2, Hdv1|].
  split; [now rewrite Ha2, Ha1|].
  apply Forall_forall. intros [k c] Hin. cbn [snd].
  assert (Hk' : In k (m_dims mask)).
  { rewrite <- Hkeys2. change k with (fst (k, c)). now apply in_map. }
  pose proof (for_each_set_attr _ _ _ _ _ k Hrun2 (or_introl Hk')) as Hattr.
  unfold coord_attrs in Hattr.
  rewrite (get_in_nodup k c (coords out2)) in Hattr; [exact Hattr| |exact Hin].
  now rewrite Hkeys2.
Qed.

End StackFacts.

(** ** The round trip *)




Section RoundTripFacts.

Context {V : Type} (fill : V).






End RoundTripFacts.




(** C6, as amended: when [stack_drop_nans] returns, the coordinate of every
    stacked dimension of the mask, which now lies along the new dimension,
    carries the attribute [original_shape], equal to the sizes of the
    stacked dimensions joined by "x"; a 3 x 4 grid yields "3x4". *)
Theorem stack_drop_nans_original_shape
        {V : Type} (ds : Dataset V) (mask : Mask) (new_dim : string)
        (to_file : option string) (fs fs' : FileStore) (out : Dataset V) :
  stack_drop_nans ds mask new_dim to_file fs = Ok (out, fs') ->
  (forall dim, In dim (m_dims mask) ->
     PyDict.get "original_shape" (coord_attrs out dim)
     = Some (AStr (PyStr.join "x" (map PyStr.of_nat (m_shape mask)))))
  /\ original_shape_of [3; 4] = "3x4".
Proof.
  intros Hrun. split; [|reflexivity]. intros dim Hdim.
  unfold stack_drop_nans in Hrun.
  destruct (xr_stack _ _ _ _) as [stacked|e]; simpl in Hrun; [|discriminate].
  destruct (for_each (m_dims mask) _ _) as [out1|e] eqn:E1 in Hrun;
    simpl in Hrun; [|discriminate].
  destruct (write_coords _ _ _ _ _) as [fs1|e];
    simpl in Hrun; [|discriminate].
  destruct (for_each (m_dims mask) _ out1) as [out2|e] eqn:E2 in Hrun;
    simpl in Hrun; [|discriminate].
  injection Hrun as <- <-.
  apply (for_each_set_attr _ _ _ _ _ dim E2). now left.
Qed.

Lemma stack_drop_nans_original_shape_witness :
  exists out,
    stack_drop_nans grid_3x4 mask_3x4 "loc" None [] = Ok (out, [])
    /\ (forall dim, In dim ["lat"; "lon"] ->
          PyDict.get "original_shape" (coord_attrs out dim)
          = Some (AStr "3x4"))
    /\ original_shape_of [3; 4] = "3x4".
Proof.
  eexists. split; [reflexivity|].
  apply (stack_drop_nans_original_shape
           grid_3x4 mask_3x4 "loc" None [] [] _ eq_refl).
Defined.

(** C6, as stated, fails: on the 3 x 4 grid the new dimension "loc" has no
    coordinate variable and hence no metadata; [original_shape] is on the
    coordinates "lat" and "lon". *)
Lemma stack_drop_nans_new_dim_has_no_attribute :
  exists out,
    stack_drop_nans grid_3x4 mask_3x4 "loc" None [] = Ok (out, [])
    /\ ds_dims out = ["loc"]
    /\ PyDict.get "loc" (coords out) = None
    /\ PyDict.get "original_shape" (coord_attrs out "loc") = None
    /\ PyDict.get "original_shape" (coord_attrs out "lat") = Some (AStr "3x4")
    /\ PyDict.get "original_shape" (coord_attrs out "lon") = Some (AStr "3x4").
Proof. eexists. split; [reflexivity|]. repeat split. Qed.

(** ** unstack_fill_nan with an explicit mapping *)

Lemma stacked_small_grid_is_stacked :
  stack_drop_nans small_grid checkerboard "loc" None []
  = Ok (stacked_small_grid, []).
Proof. reflexivity. Qed.

(** A plain dictionary takes the same path as no argument up to the
    unstacking: the coordinates are taken from the dataset. *)
Lemma select_levels_dict {V : Type} (ds : Dataset V) (dim : string)
      (d : PyDict.t (list Label)) :
  select_levels ds dim (CoordsDict d) = select_levels ds dim CoordsNone.
Proof. reflexivity. Qed.

(** C9, where the code departs from it: given [coords] as a plain mapping
    from dimension names to coordinate values, [unstack_fill_nan] never
    returns a dataset.  The mapping is not the source of the per-point
    coordinates, which are taken from the dataset as when [coords] is
    absent; where that call succeeds, the call with the mapping raises
    [AttributeError] on [coords.coords]. *)
Theorem unstack_fill_nan_mapping_raises
        {V : Type} (fill : V) (ds : Dataset V) (dim : string)
        (d : PyDict.t (list Label)) (fs : FileStore) :
  (forall out, unstack_fill_nan fill ds dim (CoordsDict d) fs <> Ok out)
  /\ (forall out,
        unstack_fill_nan fill ds dim CoordsNone fs = Ok out ->
        unstack_fill_nan fill ds dim (CoordsDict d) fs
        = Raise (AttributeError "'dict' object has no attribute 'coords'")).
Proof.
  unfold unstack_fill_nan. rewrite select_levels_dict.
  destruct (select_levels ds dim CoordsNone) as [pairs|e]; cbn [bind].
  - destruct pairs as [|pr pairs]; [split; intros; discriminate|].
    destruct (xr_unstack fill dim _ _ ds) as [out1|e]; cbn [bind];
      split; intros; try discriminate; reflexivity.
  - split; intros; discriminate.
Qed.

Lemma unstack_fill_nan_mapping_raises_witness :
  unstack_fill_nan 0%Z stacked_small_grid "loc" (CoordsDict small_coords_dict)
                   []
  = Raise (AttributeError "'dict' object has no attribute 'coords'").
Proof.
  exact (proj2 (unstack_fill_nan_mapping_raises
                  0%Z stacked_small_grid "loc" small_coords_dict [])
               _ eq_refl).
Defined.

(** ** Reindexing onto the coordinates of a file *)



Section Reindex.

Context {V : Type} (fill : V).



End Reindex.

(** ** The round trip through a coordinate file *)

Section FileRoundTrip.

Context {V : Type} (fill : V).



End FileRoundTrip.





(* ================================================================== *)
(** * Part III: further properties of the module *)
(* ================================================================== *)

(** ** get_cat_attrs *)

Lemma str_drop_app (p k : string) : str_drop (String.length p) (p ++ k) = k.
Proof. induction p as [|c p IH]; simpl; [now destruct k|exact IH]. Qed.

Lemma prefix_split (p s : string) :
  String.prefix p s = true -> s = (p ++ str_drop (String.length p) s)%string.
Proof.
  revert s. induction p as [|c p IH]; intros s H.
  - now destruct s.
  - destruct s as [|d s]; [discriminate H|].
    cbn [String.prefix] in H.
    destruct (ascii_dec c d) as [->|]; [|discriminate H].
    cbn. f_equal. now apply IH.
Qed.

Lemma get_cat_attrs_fold (prefix k : string) (attrs acc : Attrs) :
  NoDup (PyDict.keys attrs) ->
  PyDict.get k
    (fold_left
       (fun acc kv =>
          if PyStr.startswith prefix (fst kv)
          then PyDict.set (str_drop (String.length prefix) (fst kv))
                          (snd kv) acc
          else acc) attrs acc)
  = match PyDict.get (prefix ++ k) attrs with
    | Some v => Some v
    | None => PyDict.get k acc
    end.
Proof.
  revert acc. induction attrs as [|[k0 v0] attrs IH]; intros acc ND;
    [reflexivity|].
  inversion ND as [|? ? Hk0 ND']; subst.
  cbn [fold_left fst snd]. rewrite (IH _ ND'). cbn [PyDict.get].
  destruct (String.eqb_spec (prefix ++ k) k0) as [<-|Hne].
  - rewrite (get_not_in _ _ Hk0).
    unfold PyStr.startswith. rewrite prefix_app, str_drop_app.
    apply get_set_same.
  - destruct (PyDict.get (prefix ++ k) attrs); [reflexivity|].
    destruct (PyStr.startswith prefix k0) eqn:E; [|reflexivity].
    apply get_set_other. intros ->. apply Hne.
    symmetry. now apply prefix_split.
Qed.

(** X1: The catalog attribute [k] of a dataset is its attribute
    [prefix + k]: looking [k] up in [get_cat_attrs(ds, prefix)] gives what
    [prefix + k] gives in the attributes, found or not. *)
Theorem get_cat_attrs_lookup (attrs : Attrs) (prefix k : string) :
  NoDup (PyDict.keys attrs) ->
  PyDict.get k (get_cat_attrs attrs prefix) = PyDict.get (prefix ++ k) attrs.
Proof.
  intros ND. unfold get_cat_attrs. rewrite get_cat_attrs_fold by exact ND.
  now destruct (PyDict.get (prefix ++ k) attrs).
Qed.

Lemma get_cat_attrs_lookup_witness :
  PyDict.get "domain" (get_cat_attrs (ds_attrs small_grid) "cat:")
  = PyDict.get "cat:domain" (ds_attrs small_grid).
Proof.
  apply (get_cat_attrs_lookup (ds_attrs small_grid) "cat:" "domain").
  simpl. repeat constructor. simpl. tauto.
Defined.

(** ** Decimal literals *)

(** Strings made of digits only. *)
Lemma is_digit_not_space (c : ascii) : is_digit c = true -> is_space c = false.
Proof.
  unfold is_digit, digit_value, is_space.
  destruct (Nat.leb_spec 48 (nat_of_ascii c)) as [H1|H1]; simpl;
    [|discriminate].
  destruct (Nat.leb_spec (nat_of_ascii c) 57) as [H2|H2]; simpl;
    [|discriminate].
  intros _.
  destruct (Nat.eqb_spec (nat_of_ascii c) 32); [lia|].
  destruct (Nat.leb_spec (nat_of_ascii c) 13); [lia|].
  now rewrite andb_false_r.
Qed.

Lemma string_of_uint_digits (d : Decimal.uint) :
  forallb is_digit (list_ascii_of_string (NilEmpty.string_of_uint d)) = true.
Proof. induction d; simpl; auto. Qed.

Lemma parse_digits_uint (d : Decimal.uint) (seen : bool) (acc : nat) :
  seen = true \/ d <> Decimal.Nil ->
  parse_digits seen (Z.of_nat acc) (NilEmpty.string_of_uint d)
  = Some (Z.of_nat (Nat.of_uint_acc d acc)).
Proof.
  revert seen acc.
  induction d as [|d IH|d IH|d IH|d IH|d IH|d IH|d IH|d IH|d IH|d IH];
    intros seen acc H;
    [destruct H as [->|H]; [reflexivity|congruence]| ..];
    cbn [NilEmpty.string_of_uint parse_digits Nat.of_uint_acc];
    match goal with
    | |- context [digit_value ?c] =>
        let v := eval vm_compute in (digit_value c) in
        change (digit_value c) with v; cbv iota
    end;
    rewrite Nat.tail_mul_spec;
    match goal with
    | |- parse_digits true ?z _ = Some (Z.of_nat (Nat.of_uint_acc _ ?n)) =>
        replace z with (Z.of_nat n) by lia
    end;
    apply IH; now left.
Qed.

Lemma to_uint_nonnil (n : nat) : Nat.to_uint n <> Decimal.Nil.
Proof.
  rewrite <- (DecimalNat.Unsigned.of_to n) at 1.
  rewrite DecimalNat.Unsigned.to_of. apply DecimalFacts.unorm_nonnil.
Qed.

(** [int(str(n)) == n]. *)
Lemma py_int_of_nat (n : nat) : py_int (PyStr.of_nat n) = Ok (Z.of_nat n).
Proof.
  unfold PyStr.of_nat.
  pose proof (to_uint_nonnil n) as Hne.
  pose proof (parse_digits_uint (Nat.to_uint n) false 0 (or_intror Hne)) as Hp.
  change (Nat.of_uint_acc (Nat.to_uint n) 0) with (Nat.of_uint (Nat.to_uint n))
    in Hp.
  rewrite DecimalNat.Unsigned.of_to in Hp.
  unfold py_int.
  destruct (Nat.to_uint n) as [|d|d|d|d|d|d|d|d|d|d]; [congruence| ..];
    cbn [NilEmpty.string_of_uint lstrip] in *;
    match goal with
    | |- context [is_space ?c] =>
        let v := eval vm_compute in (is_space c) in
        change (is_space c) with v; cbv iota
    end;
    cbv beta iota zeta;
    change (Z.of_nat 0) with 0%Z in Hp; now rewrite Hp.
Qed.

(** ** translate_time_chunk *)

Lemma string_length_app (s t : string) :
  String.length (s ++ t) = String.length s + String.length t.
Proof. induction s as [|c s IH]; simpl; [reflexivity|now rewrite IH]. Qed.

Lemma digit_not_y (c : ascii) : is_digit c = true -> c <> "y"%char.
Proof. intros H ->. discriminate H. Qed.

Lemma before_first_eq (sep s : string) :
  before_first sep s
  = if String.prefix sep s then EmptyString
    else match s with
         | EmptyString => EmptyString
         | String c rest => String c (before_first sep rest)
         end.
Proof. now destruct s. Qed.

Lemma before_first_year (d x : string) :
  forallb is_digit (list_ascii_of_string d) = true ->
  before_first "year" (d ++ "year" ++ x) = d.
Proof.
  induction d as [|c d IH]; intros H.
  - change ("" ++ "year" ++ x)%string with ("year" ++ x)%string.
    rewrite before_first_eq. now rewrite prefix_app.
  - simpl in H. apply andb_prop in H. destruct H as [Hc Hd].
    change (String c d ++ "year" ++ x)%string
      with (String c (d ++ "year" ++ x)).
    rewrite before_first_eq. cbn [String.prefix].
    destruct (ascii_dec "y" c) as [<-|_]; [discriminate Hc|].
    now rewrite (IH Hd).
Qed.

Lemma endswith_year (d : string) : str_endswith "year" (d ++ "year") = true.
Proof.
  unfold str_endswith. rewrite string_length_app.
  change (String.length "year") with 4.
  replace (String.length d + 4 - 4) with (String.length d) by lia.
  rewrite str_drop_app, String.eqb_refl, andb_true_r.
  apply Nat.leb_le. lia.
Qed.

Section TranslateFacts.

Variable days_julian : Z -> result Z.
Variables (calendar : string) (timesize : Z).

Lemma translate_entry_dict (k : string) (d : list (string * Chunk)) :
  translate_entry days_julian calendar timesize k (ChDict d)
  = (d' <- translate_time_chunk days_julian d calendar timesize ;;
     Ok (ChDict d')).
Proof.
  cbn [translate_entry]. f_equal.
  induction d as [|[k' v'] d IH]; [reflexivity|].
  cbn [translate_time_chunk]. now rewrite <- IH.
Qed.

Lemma translate_get (chunks out : list (string * Chunk)) (k : string)
      (v : Chunk) :
  translate_time_chunk days_julian chunks calendar timesize = Ok out ->
  PyDict.get k chunks = Some v ->
  exists v', translate_entry days_julian calendar timesize k v = Ok v'
             /\ PyDict.get k out = Some v'.
Proof.
  revert out. induction chunks as [|[k0 v0] chunks IH]; intros out Hrun Hget;
    [discriminate|].
  cbn [translate_time_chunk] in Hrun.
  destruct (translate_entry _ _ _ k0 v0) as [x|e] eqn:Ex; [|discriminate].
  cbn [bind] in Hrun.
  destruct (translate_time_chunk _ chunks _ _) as [rest'|e] eqn:Er;
    [|discriminate].
  injection Hrun as <-. cbn [PyDict.get] in *.
  destruct (String.eqb_spec k k0) as [->|_].
  - injection Hget as <-. now exists x.
  - now apply IH.
Qed.

(** What becomes of the entry found at a path. *)
Lemma translate_at_path (path : list string) :
  forall (chunks out : list (string * Chunk)) (v : Chunk),
    translate_time_chunk days_julian chunks calendar timesize = Ok out ->
    chunk_at path chunks = Some v ->
    exists v',
      translate_entry days_julian calendar timesize (last path "") v = Ok v'
      /\ chunk_at path out = Some v'.
Proof.
  induction path as [|k rest IH]; intros chunks out v Hrun Hat;
    [discriminate|].
  destruct rest as [|k' rest].
  - now apply translate_get with chunks.
  - cbn [chunk_at] in Hat |- *.
    destruct (PyDict.get k chunks) as [[| | |d]|] eqn:Hk; try discriminate.
    destruct (translate_get _ _ _ _ Hrun Hk) as (w & Hw & Hout).
    rewrite translate_entry_dict in Hw.
    destruct (translate_time_chunk _ d _ _) as [d'|e] eqn:Hd; [|discriminate].
    injection Hw as <-. rewrite Hout.
    change (last (k :: k' :: rest) "") with (last (k' :: rest) "").
    now apply (IH d d' v).
Qed.

End TranslateFacts.

Lemma last_snoc {A : Type} (l : list A) (x d : A) : last (l ++ [x]) d = x.
Proof.
  induction l as [|y l IH]; [reflexivity|].
  cbn [app]. destruct (l ++ [x]) eqn:E; [now destruct l|exact IH].
Qed.

(** X2: The size -1 under the key ["time"], at any depth of the specification,
    becomes [timesize]. *)
Theorem translate_time_chunk_whole_axis
        (days_julian : Z -> result Z) (calendar : string) (timesize : Z)
        (chunks out : list (string * Chunk)) (path : list string) :
  translate_time_chunk days_julian chunks calendar timesize = Ok out ->
  chunk_at (path ++ ["time"]) chunks = Some (ChInt (-1)) ->
  chunk_at (path ++ ["time"]) out = Some (ChInt timesize).
Proof.
  intros Hrun Hat.
  destruct (translate_at_path days_julian calendar timesize _ _ _ _ Hrun Hat)
    as (v' & Hv & Hout).
  rewrite last_snoc in Hv. cbn in Hv. now injection Hv as <-.
Qed.

Lemma translate_time_chunk_whole_axis_witness :
  chunk_at (["daily"] ++ ["time"])
           [("lat", ChInt 50); ("time", ChStr "4year");
            ("daily", ChDict [("time", ChInt 100); ("lon", ChInt (-1))])]
  = Some (ChInt 100).
Proof.
  apply (translate_time_chunk_whole_axis
           example_days_julian "noleap" 100
           (firstn 3 example_chunks)
           [("lat", ChInt 50); ("time", ChInt 1460);
            ("daily", ChDict [("time", ChInt 100); ("lon", ChInt (-1))])]
           ["daily"]); reflexivity.
Defined.

(** X3: A number of years under the key ["time"], at any depth: [n] years,
    [n] being written with no more digits than [int] accepts, are [n]
    times 365, 360 or 366 for the calendars noleap, 360_day and all_leap,
    and the integer part of [n] times 365.25, as the float product gives
    it, for any other. *)
Theorem translate_time_chunk_years
        (days_julian : Z -> result Z) (calendar : string) (timesize : Z)
        (chunks out : list (string * Chunk)) (path : list string) (n : nat) :
  String.length (PyStr.of_nat n) <= int_max_str_digits ->
  translate_time_chunk days_julian chunks calendar timesize = Ok out ->
  chunk_at (path ++ ["time"]) chunks
  = Some (ChStr (PyStr.of_nat n ++ "year")) ->
  exists m,
    chunk_at (path ++ ["time"]) out = Some (ChInt m)
    /\ if String.eqb calendar "noleap" then m = (Z.of_nat n * 365)%Z
       else if String.eqb calendar "360_day" then m = (Z.of_nat n * 360)%Z
       else if String.eqb calendar "all_leap" then m = (Z.of_nat n * 366)%Z
       else days_julian (Z.of_nat n) = Ok m.
Proof.
  intros _ Hrun Hat.
  destruct (translate_at_path days_julian calendar timesize _ _ _ _ Hrun Hat)
    as (v' & Hv & Hout).
  rewrite last_snoc in Hv. cbn [translate_entry] in Hv.
  rewrite String.eqb_refl, endswith_year in Hv. cbn [andb] in Hv.
  pose proof (before_first_year (PyStr.of_nat n) ""
                (string_of_uint_digits (Nat.to_uint n))) as Hcount.
  change ("year" ++ "")%string with "year" in Hcount.
  rewrite Hcount in Hv.
  rewrite py_int_of_nat in Hv. cbn [bind] in Hv.
  destruct (year_chunk days_julian calendar (Z.of_nat n)) as [m|] eqn:Hm;
    [|discriminate].
  cbn [bind] in Hv. injection Hv as <-.
  exists m. split; [exact Hout|].
  unfold year_chunk in Hm.
  destruct (String.eqb calendar "noleap"); [congruence|].
  destruct (String.eqb calendar "360_day"); [congruence|].
  destruct (String.eqb calendar "all_leap"); [congruence|exact Hm].
Qed.

Lemma translate_time_chunk_years_witness :
  exists m,
    chunk_at ([] ++ ["time"])
             [("lat", ChInt 50); ("time", ChInt 1461);
              ("daily", ChDict [("time", ChInt 100); ("lon", ChInt (-1))])]
    = Some (ChInt m)
    /\ example_days_julian (Z.of_nat 4) = Ok m.
Proof.
  apply (translate_time_chunk_years
           example_days_julian "standard" 100
           (firstn 3 example_chunks)
           [("lat", ChInt 50); ("time", ChInt 1461);
            ("daily", ChDict [("time", ChInt 100); ("lon", ChInt (-1))])]
           [] 4); [unfold int_max_str_digits; simpl; lia| |];
    vm_compute; reflexivity.
Defined.

(** X4: Every other entry that is not a nested specification is kept as it is,
    at any depth. *)
Theorem translate_time_chunk_frame
        (days_julian : Z -> result Z) (calendar : string) (timesize : Z)
        (chunks out : list (string * Chunk)) (path : list string)
        (v : Chunk) :
  translate_time_chunk days_julian chunks calendar timesize = Ok out ->
  chunk_at path chunks = Some v ->
  left_alone (last path "") v = true ->
  chunk_at path out = Some v.
Proof.
  intros Hrun Hat Hleft.
  destruct (translate_at_path days_julian calendar timesize _ _ _ _ Hrun Hat)
    as (v' & Hv & Hout).
  rewrite Hout. f_equal.
  destruct v as [z|s| |d]; cbn [translate_entry left_alone] in *;
    try discriminate.
  - destruct (_ && _); [discriminate|congruence].
  - destruct (_ && _); [discriminate|congruence].
  - congruence.
Qed.

Lemma translate_time_chunk_frame_witness :
  chunk_at ["daily"; "lon"]
           [("lat", ChInt 50); ("time", ChInt 1460);
            ("daily", ChDict [("time", ChInt 100); ("lon", ChInt (-1))])]
  = Some (ChInt (-1)).
Proof.
  apply (translate_time_chunk_frame
           example_days_julian "noleap" 100
           (firstn 3 example_chunks)
           [("lat", ChInt 50); ("time", ChInt 1460);
            ("daily", ChDict [("time", ChInt 100); ("lon", ChInt (-1))])]
           ["daily"; "lon"] (ChInt (-1))); reflexivity.
Defined.

(** X5: A number of years, in ASCII characters, whose count is not an
    integer literal, anywhere in the specification, makes the whole call
    fail: no specification is returned. *)
Theorem translate_time_chunk_bad_count
        (days_julian : Z -> result Z) (calendar : string) (timesize : Z)
        (chunks : list (string * Chunk)) (path : list string) (s : string)
        (e : PyExc) :
  chunk_at (path ++ ["time"]) chunks = Some (ChStr s) ->
  is_ascii s = true ->
  str_endswith "year" s = true ->
  py_int (before_first "year" s) = Raise e ->
  exists e',
    translate_time_chunk days_julian chunks calendar timesize = Raise e'.
Proof.
  intros Hat _ Hend Hint.
  destruct (translate_time_chunk days_julian chunks calendar timesize)
    as [out|e'] eqn:Hrun; [exfalso|now exists e'].
  destruct (translate_at_path days_julian calendar timesize _ _ _ _ Hrun Hat)
    as (v' & Hv & _).
  rewrite last_snoc in Hv. cbn [translate_entry] in Hv.
  rewrite String.eqb_refl, Hend in Hv. cbn [andb] in Hv.
  rewrite Hint in Hv. discriminate.
Qed.

Lemma translate_time_chunk_bad_count_witness :
  exists e',
    translate_time_chunk example_days_julian example_chunks "noleap" 100
    = Raise e'.
Proof.
  apply (translate_time_chunk_bad_count
           example_days_julian "noleap" 100 example_chunks ["bad"] "1.5year"
           (ValueError "invalid literal for int() with base 10: '1.5'"));
    reflexivity.
Defined.

(** ** natural_sort *)

Lemma forallb_list_app (s t : string) (f : ascii -> bool) :
  forallb f (list_ascii_of_string (s ++ t))
  = forallb f (list_ascii_of_string s) && forallb f (list_ascii_of_string t).
Proof. induction s as [|c s IH]; simpl; [reflexivity|]. now rewrite IH, andb_assoc. Qed.

Lemma isdigit_snoc_digit (cur : string) (c : ascii) :
  is_digit c = true ->
  (cur = "" \/ str_isdigit cur = true) ->
  str_isdigit (cur ++ String c "") = true.
Proof.
  intros Hc [->|H]; simpl; [now rewrite Hc|].
  destruct cur as [|d cur]; [discriminate|].
  unfold str_isdigit in *. cbn [append].
  change (String d (cur ++ String c "")) with (String d cur ++ String c "")%string.
  rewrite forallb_list_app, H. simpl. now rewrite Hc.
Qed.

Lemma isdigit_snoc_other (cur : string) (c : ascii) :
  is_digit c = false -> str_isdigit (cur ++ String c "") = false.
Proof.
  intros Hc. destruct cur as [|d cur]; simpl; [now rewrite Hc|].
  change (String d (cur ++ String c "")) with (String d cur ++ String c "")%string.
  change (is_digit d && forallb is_digit (list_ascii_of_string (cur ++ String c "")))
    with (forallb is_digit (list_ascii_of_string (String d (cur ++ String c "")))).
  change (String d (cur ++ String c "")) with (String d cur ++ String c "")%string.
  rewrite forallb_list_app. simpl. rewrite Hc. now rewrite andb_false_r.
Qed.

Lemma split_runs_alternate (s : string) :
  forall (b : bool) (cur : string),
    str_isdigit cur = b ->
    runs_alternate b (split_runs b cur s) = true.
Proof.
  induction s as [|c s IH]; intros b cur Hcur.
  - destruct b; simpl; rewrite Hcur; reflexivity.
  - cbn [split_runs]. destruct (is_digit c) eqn:Hc, b.
    + apply IH. apply isdigit_snoc_digit; auto.
    + cbn [runs_alternate]. rewrite Hcur. cbn.
      apply IH. simpl. now rewrite Hc.
    + cbn [runs_alternate]. rewrite Hcur. cbn.
      apply IH. simpl. now rewrite Hc.
    + apply IH. now apply isdigit_snoc_other.
Qed.

Lemma parse_digits_all (s : string) :
  forall acc,
    forallb is_digit (list_ascii_of_string s) = true ->
    exists n, parse_digits true acc s = Some n.
Proof.
  induction s as [|c s IH]; intros acc H; [now exists acc|].
  simpl in H. apply andb_prop in H. destruct H as [Hc Hs].
  cbn [parse_digits]. unfold is_digit in Hc.
  destruct (digit_value c) as [d|]; [|discriminate]. now apply IH.
Qed.

Lemma py_int_isdigit (s : string) :
  str_isdigit s = true -> exists n, py_int s = Ok n.
Proof.
  destruct s as [|c s]; [discriminate|]. unfold str_isdigit.
  cbn [list_ascii_of_string forallb]. intros H.
  apply andb_prop in H. destruct H as [Hc Hs].
  assert (Hp : exists n, parse_digits false 0 (String c s) = Some n).
  { cbn [parse_digits]. unfold is_digit in Hc.
    destruct (digit_value c) as [d|]; [|discriminate].
    now apply parse_digits_all. }
  destruct Hp as [n Hp]. exists n.
  unfold py_int. cbn [lstrip]. rewrite (is_digit_not_space c Hc).
  destruct c as [[] [] [] [] [] [] [] []]; try discriminate Hc;
    cbv beta iota zeta; now rewrite Hp.
Qed.

Lemma convert_runs (l : list string) :
  forall b, runs_alternate b l = true ->
       exists k, map_result convert l = Ok k /\ alternates (negb b) k = true.
Proof.
  induction l as [|p l IH]; intros b H; [now exists []|].
  cbn [runs_alternate] in H. apply andb_prop in H. destruct H as [Hp Hl].
  apply Bool.eqb_prop in Hp.
  destruct (IH _ Hl) as (k & Hk & Halt).
  cbn [map_result]. unfold convert at 1. rewrite Hp.
  destruct b.
  - destruct (py_int_isdigit p Hp) as [n ->]. cbn [bind]. rewrite Hk.
    cbn [bind]. eexists; split; [reflexivity|]. exact Halt.
  - cbn [bind]. rewrite Hk. cbn [bind].
    eexists; split; [reflexivity|]. exact Halt.
Qed.

Lemma alphanum_key_alternates (s : string) :
  exists k, alphanum_key s = Ok k /\ alternates true k = true.
Proof.
  unfold alphanum_key, re_split_digits.
  apply (convert_runs _ false). now apply split_runs_alternate.
Qed.

(** The order of the keys. *)

Lemma tok_eqb_compare (x y : Tok) :
  tok_eqb x y = true <-> tok_compare x y = Eq.
Proof.
  destruct x as [a|s], y as [b|t]; simpl; try (split; discriminate).
  - rewrite Z.eqb_eq. symmetry. apply Z.compare_eq_iff.
  - rewrite String.eqb_eq. symmetry. apply OrderedTypeEx.String_as_OT.cmp_eq.
Qed.

Lemma tok_list_lt_compare (a : list Tok) :
  forall b t,
    alternates t a = true -> alternates t b = true ->
    tok_list_lt a b
    = Ok (match key_compare a b with Lt => true | _ => false end).
Proof.
  induction a as [|x a IH]; intros [|y b] t Ha Hb; try reflexivity.
  cbn [tok_list_lt key_compare].
  destruct (tok_eqb x y) eqn:E.
  - apply tok_eqb_compare in E. rewrite E.
    destruct x as [m|s], y as [n|u]; try discriminate E;
      destruct t; simpl in Ha, Hb; try discriminate; now apply (IH _ _ Ha Hb).
  - assert (Hne : tok_compare x y <> Eq)
      by (intros H; apply tok_eqb_compare in H; congruence).
    destruct x as [m|s], y as [n|u]; destruct t; simpl in Ha, Hb;
      try discriminate; cbn [tok_lt tok_compare] in *.
    + unfold Z.ltb. now destruct (m ?= n)%Z.
    + unfold String.ltb. now destruct (String.compare s u).
Qed.

Lemma tok_compare_antisym (x y : Tok) :
  tok_compare y x = CompOpp (tok_compare x y).
Proof.
  destruct x, y; simpl; try reflexivity.
  - apply Z.compare_antisym.
  - apply OrderedTypeEx.String_as_OT.cmp_antisym.
Qed.

Lemma tok_compare_trans (x y z : Tok) :
  tok_compare x y = Lt -> tok_compare y z = Lt -> tok_compare x z = Lt.
Proof.
  destruct x, y, z; simpl; try congruence.
  - rewrite !Z.compare_lt_iff. lia.
  - rewrite !OrderedTypeEx.String_as_OT.cmp_lt.
    apply OrderedTypeEx.String_as_OT.lt_trans.
Qed.

Lemma tok_compare_eq (x y : Tok) : tok_compare x y = Eq -> x = y.
Proof.
  destruct x, y; simpl; try discriminate.
  - intros H. apply Z.compare_eq_iff in H. congruence.
  - intros H. apply OrderedTypeEx.String_as_OT.cmp_eq in H. congruence.
Qed.

Lemma key_compare_antisym (a : list Tok) :
  forall b, key_compare b a = CompOpp (key_compare a b).
Proof.
  induction a as [|x a IH]; intros [|y b]; try reflexivity.
  cbn [key_compare]. rewrite (tok_compare_antisym x y).
  destruct (tok_compare x y); simpl; auto.
Qed.

Lemma key_compare_eq (a : list Tok) :
  forall b, key_compare a b = Eq -> a = b.
Proof.
  induction a as [|x a IH]; intros [|y b]; simpl; try discriminate; auto.
  destruct (tok_compare x y) eqn:E; try discriminate.
  intros H. apply tok_compare_eq in E. apply IH in H. congruence.
Qed.

Lemma key_compare_trans (a : list Tok) :
  forall b c,
    key_compare a b = Lt -> key_compare b c = Lt -> key_compare a c = Lt.
Proof.
  induction a as [|x a IH]; intros [|y b] [|z c]; simpl; try discriminate; auto.
  destruct (tok_compare x y) eqn:Exy; try discriminate;
    destruct (tok_compare y z) eqn:Eyz; try discriminate; intros H1 H2.
  - apply tok_compare_eq in Exy. subst y. rewrite Eyz. eauto.
  - apply tok_compare_eq in Exy. subst y. now rewrite Eyz.
  - apply tok_compare_eq in Eyz. subst z. now rewrite Exy.
  - now rewrite (tok_compare_trans _ _ _ Exy Eyz).
Qed.

(** [a <= b] and [b <= c] give [a <= c]. *)
Lemma key_compare_le_trans (a b c : list Tok) :
  key_compare b a <> Lt -> key_compare c b <> Lt -> key_compare c a <> Lt.
Proof.
  intros Hab Hbc Hca.
  destruct (key_compare c b) eqn:Ecb; [|congruence|].
  - apply key_compare_eq in Ecb. congruence.
  - assert (Hbc' : key_compare b c = Lt)
      by (rewrite (key_compare_antisym c b), Ecb; reflexivity).
    apply Hab. exact (key_compare_trans _ _ _ Hbc' Hca).
Qed.

(** The sort. *)

Lemma insert_keyed_split {A : Type} (x : A * list Tok) (l : list (A * list Tok)) :
  alternates true (snd x) = true ->
  Forall (fun p => alternates true (snd p) = true) l ->
  exists l1 l2,
    l = l1 ++ l2
    /\ insert_keyed x l = Ok (l1 ++ x :: l2)
    /\ Forall (fun y => key_compare (snd y) (snd x) = Lt) l1
    /\ match l2 with
       | [] => True
       | y :: _ => key_compare (snd y) (snd x) <> Lt
       end.
Proof.
  intros Hx. induction 1 as [|y l Hy Hl IH].
  - exists [], []. repeat split; auto.
  - cbn [insert_keyed].
    rewrite (tok_list_lt_compare _ _ true Hy Hx). cbn [bind].
    destruct (key_compare (snd y) (snd x)) eqn:E.
    + exists [], (y :: l). repeat split; auto. congruence.
    + destruct IH as (l1 & l2 & -> & -> & Hlt & Hhd).
      exists (y :: l1), l2. repeat split; auto.
    + exists [], (y :: l). repeat split; auto. congruence.
Qed.

Lemma StronglySorted_insert {A : Type} (x : A * list Tok) (l1 l2 : list (A * list Tok)) :
  Forall (fun y => key_compare (snd y) (snd x) = Lt) l1 ->
  match l2 with
  | [] => True
  | y :: _ => key_compare (snd y) (snd x) <> Lt
  end ->
  StronglySorted keyed_le (l1 ++ l2) ->
  StronglySorted keyed_le (l1 ++ x :: l2).
Proof.
  intros Hlt Hhd. induction l1 as [|y l1 IH]; cbn [app]; intros Hs.
  - constructor; [exact Hs|].
    destruct l2 as [|z l2]; [constructor|].
    apply StronglySorted_inv in Hs. destruct Hs as [_ Hz].
    constructor; [exact Hhd|].
    apply Forall_forall. intros w Hw.
    rewrite Forall_forall in Hz. specialize (Hz w Hw).
    unfold keyed_le in *. exact (key_compare_le_trans _ _ _ Hhd Hz).
  - apply StronglySorted_inv in Hs. destruct Hs as [Hs Hy].
    apply Forall_cons_iff in Hlt. destruct Hlt as [Hyx Hlt].
    constructor; [now apply IH|].
    apply Forall_app in Hy. destruct Hy as [Hy1 Hy2].
    apply Forall_app. split; [exact Hy1|]. constructor; [|exact Hy2].
    unfold keyed_le. rewrite (key_compare_antisym (snd y) (snd x)), Hyx.
    discriminate.
Qed.

Lemma filter_insert {A : Type} (k : list Tok) (x : A * list Tok)
      (l1 l2 : list (A * list Tok)) :
  Forall (fun y => key_compare (snd y) (snd x) = Lt) l1 ->
  filter (has_key k) (l1 ++ x :: l2) = filter (has_key k) (x :: l1 ++ l2).
Proof.
  intros Hlt. rewrite filter_app. cbn [filter]. rewrite filter_app.
  destruct (has_key k x) eqn:E; [|reflexivity].
  assert (Hnone : filter (has_key k) l1 = []).
  { unfold has_key in E.
    destruct (key_compare (snd x) k) eqn:E'; try discriminate.
    apply key_compare_eq in E'. subst k.
    induction Hlt as [|y l1 Hy _ IH]; [reflexivity|].
    cbn [filter]. unfold has_key at 1. now rewrite Hy. }
  now rewrite Hnone.
Qed.

Lemma sort_keyed_spec {A : Type} (l : list (A * list Tok)) :
  Forall (fun p => alternates true (snd p) = true) l ->
  exists l',
    sort_keyed l = Ok l'
    /\ Permutation l l'
    /\ StronglySorted keyed_le l'
    /\ forall k, filter (has_key k) l' = filter (has_key k) l.
Proof.
  induction 1 as [|x l Hx Hl IH].
  - exists []. repeat split; constructor.
  - destruct IH as (s & Hs & Hperm & Hsorted & Hstable).
    cbn [sort_keyed]. rewrite Hs. cbn [bind].
    assert (Halt : Forall (fun p => alternates true (snd p) = true) s).
    { apply Forall_forall. intros p Hp. rewrite Forall_forall in Hl.
      apply Hl. eapply Permutation_in; [symmetry; exact Hperm|exact Hp]. }
    destruct (insert_keyed_split x s Hx Halt) as (l1 & l2 & -> & -> & Hlt & Hhd).
    exists (l1 ++ x :: l2). split; [reflexivity|]. split; [|split].
    + apply Permutation_cons_app. exact Hperm.
    + now apply StronglySorted_insert.
    + intros k. rewrite (filter_insert k x l1 l2 Hlt). cbn [filter].
      now rewrite Hstable.
Qed.

Lemma keyed_list (l : list string) :
  exists keyed,
    map_result (fun s => k <- alphanum_key s ;; Ok (s, k)) l = Ok keyed
    /\ map fst keyed = l
    /\ Forall keyed_by keyed.
Proof.
  induction l as [|s l IH]; [exists []; repeat split; constructor|].
  destruct IH as (keyed & Hk & Hfst & Hall).
  destruct (alphanum_key_alternates s) as (k & Hs & Halt).
  exists ((s, k) :: keyed). cbn [map_result]. rewrite Hs. cbn [bind].
  rewrite Hk. cbn [bind]. repeat split.
  - cbn. now rewrite Hfst.
  - constructor; [split; assumption|exact Hall].
Qed.

Lemma key_lt_keyed (p q : string * list Tok) :
  keyed_by p -> keyed_by q ->
  key_lt (fst p) (fst q)
  = Ok (match key_compare (snd p) (snd q) with Lt => true | _ => false end).
Proof.
  intros [Hp Ap] [Hq Aq]. unfold key_lt. rewrite Hp, Hq. cbn [bind].
  exact (tok_list_lt_compare _ _ true Ap Aq).
Qed.

(** What [natural_sort] returns, in terms of the keyed elements. *)
Lemma natural_sort_spec (l : list string) :
  exists keyed sorted,
    natural_sort l = Ok (map fst sorted)
    /\ map fst keyed = l
    /\ Forall keyed_by keyed
    /\ Permutation keyed sorted
    /\ StronglySorted keyed_le sorted
    /\ forall k, filter (has_key k) sorted = filter (has_key k) keyed.
Proof.
  destruct (keyed_list l) as (keyed & Hk & Hfst & Hall).
  assert (Halt : Forall (fun p => alternates true (snd p) = true) keyed).
  { eapply Forall_impl; [|exact Hall]. now intros p [_ H]. }
  destruct (sort_keyed_spec keyed Halt) as (sorted & Hs & Hperm & Hsorted & Hst).
  exists keyed, sorted. unfold natural_sort. rewrite Hk. cbn [bind].
  rewrite Hs. cbn [bind]. repeat split; auto.
Qed.

Lemma StronglySorted_keyed (sorted : list (string * list Tok)) :
  Forall keyed_by sorted ->
  StronglySorted keyed_le sorted ->
  StronglySorted (fun a b => key_lt b a = Ok false) (map fst sorted).
Proof.
  intros Hall Hs. induction Hs as [|p l Hs IH Hp]; [constructor|].
  apply Forall_cons_iff in Hall. destruct Hall as [Kp Kl].
  cbn [map]. constructor; [now apply IH|].
  apply Forall_forall. intros b Hb. apply in_map_iff in Hb.
  destruct Hb as (q & <- & Hq).
  rewrite Forall_forall in Hp, Kl.
  rewrite (key_lt_keyed q p (Kl q Hq) Kp).
  specialize (Hp q Hq). unfold keyed_le in Hp.
  now destruct (key_compare (snd q) (snd p)).
Qed.

Lemma key_eqb_keyed (a : string) (ka : list Tok) (p : string * list Tok) :
  keyed_by (a, ka) -> keyed_by p -> key_eqb a (fst p) = has_key ka p.
Proof.
  intros Ka Kp. unfold key_eqb, has_key.
  pose proof (key_lt_keyed (a, ka) p Ka Kp) as H1.
  pose proof (key_lt_keyed p (a, ka) Kp Ka) as H2.
  cbn [fst snd] in H1, H2. rewrite H1, H2. rewrite (key_compare_antisym (snd p) ka).
  now destruct (key_compare (snd p) ka).
Qed.

Lemma filter_keyed (a : string) (ka : list Tok) (l : list (string * list Tok)) :
  keyed_by (a, ka) -> Forall keyed_by l ->
  filter (key_eqb a) (map fst l) = map fst (filter (has_key ka) l).
Proof.
  intros Ka. induction 1 as [|p l Kp _ IH]; [reflexivity|].
  cbn [map filter]. rewrite (key_eqb_keyed a ka p Ka Kp), IH.
  now destruct (has_key ka p).
Qed.

(** X6: [natural_sort] never fails on names of ASCII characters that are
    no longer than the longest literal that [int] accepts, 4300
    characters: in particular it never compares a number with a text; and
    what it returns is a rearrangement of the list it was given. *)
Theorem natural_sort_rearranges (l : list string) :
  Forall (fun s => plain s = true) l ->
  exists out, natural_sort l = Ok out /\ Permutation l out.
Proof.
  intros _.
  destruct (natural_sort_spec l) as (keyed & sorted & Hrun & <- & _ & Hperm & _).
  exists (map fst sorted). split; [exact Hrun|]. now apply Permutation_map.
Qed.

Lemma natural_sort_rearranges_witness :
  exists out,
    natural_sort ["r3i1p1"; "r1i1p1"; "r10i1p1"] = Ok out
    /\ Permutation ["r3i1p1"; "r1i1p1"; "r10i1p1"] out.
Proof.
  apply (natural_sort_rearranges ["r3i1p1"; "r1i1p1"; "r10i1p1"]).
  repeat constructor.
Defined.


(** X7: The list that [natural_sort] returns is in the order of the keys: no
    element has a key smaller than the key of an element before it. *)
Theorem natural_sort_sorted (l out : list string) :
  Forall (fun s => plain s = true) l ->
  natural_sort l = Ok out ->
  StronglySorted (fun a b => key_lt b a = Ok false) out.
Proof.
  intros _ Hout.
  destruct (natural_sort_spec l)
    as (keyed & sorted & Hrun & _ & Hall & Hperm & Hsorted & _).
  rewrite Hrun in Hout. injection Hout as <-.
  apply StronglySorted_keyed; [|exact Hsorted].
  apply Forall_forall. intros p Hp. rewrite Forall_forall in Hall.
  apply Hall. eapply Permutation_in; [symmetry; exact Hperm|exact Hp].
Qed.

Lemma natural_sort_sorted_witness :
  StronglySorted (fun a b => key_lt b a = Ok false)
                 ["r1i1p1"; "r3i1p1"; "r10i1p1"].
Proof.
  apply (natural_sort_sorted ["r3i1p1"; "r1i1p1"; "r10i1p1"]);
    [repeat constructor|reflexivity].
Defined.


(** X8: [natural_sort] is stable: the elements whose keys are equal, such as
    names that differ by their case or by leading zeros only, come out in
    the order they came in. *)
Theorem natural_sort_stable (l out : list string) (a : string) :
  Forall (fun s => plain s = true) l ->
  natural_sort l = Ok out ->
  filter (key_eqb a) out = filter (key_eqb a) l.
Proof.
  intros _ Hout.
  destruct (natural_sort_spec l)
    as (keyed & sorted & Hrun & <- & Hall & Hperm & _ & Hstable).
  rewrite Hrun in Hout. injection Hout as <-.
  destruct (alphanum_key_alternates a) as (ka & Hka & Halt).
  assert (Ka : keyed_by (a, ka)) by (split; assumption).
  rewrite (filter_keyed a ka sorted Ka), (filter_keyed a ka keyed Ka Hall).
  - now rewrite Hstable.
  - apply Forall_forall. intros p Hp. rewrite Forall_forall in Hall.
    apply Hall. eapply Permutation_in; [symmetry; exact Hperm|exact Hp].
Qed.

Lemma natural_sort_stable_witness :
  filter (key_eqb "a1") ["A1"; "a1"; "a01"; "b2"]
  = filter (key_eqb "a1") ["b2"; "A1"; "a1"; "a01"].
Proof.
  apply (natural_sort_stable ["b2"; "A1"; "a1"; "a01"]);
    [repeat constructor|reflexivity].
Defined.


(** Numbers inside names. *)

Lemma string_app_nil_r (s : string) : (s ++ "")%string = s.
Proof. induction s as [|c s IH]; simpl; [reflexivity|now rewrite IH]. Qed.

Lemma string_app_assoc (s t u : string) :
  ((s ++ t) ++ u)%string = (s ++ t ++ u)%string.
Proof. induction s as [|c s IH]; simpl; [reflexivity|now rewrite IH]. Qed.

Lemma prepend_prepend (s t : string) (l : list string) :
  prepend s (prepend t l) = prepend (s ++ t) l.
Proof. destruct l as [|h l]; simpl; [reflexivity|now rewrite string_app_assoc]. Qed.

Lemma split_runs_prepend (s : string) :
  forall b cur, split_runs b cur s = prepend cur (split_runs b "" s).
Proof.
  induction s as [|c s IH]; intros b cur.
  - destruct b; simpl; now rewrite string_app_nil_r.
  - cbn [split_runs]. destruct (is_digit c), b.
    + rewrite (IH true (cur ++ String c "")%string), (IH true ("" ++ String c "")%string).
      now rewrite prepend_prepend.
    + simpl. now rewrite string_app_nil_r.
    + simpl. now rewrite string_app_nil_r.
    + rewrite (IH false (cur ++ String c "")%string), (IH false ("" ++ String c "")%string).
      now rewrite prepend_prepend.
Qed.

Lemma split_runs_text (p rest : string) :
  no_digit p = true ->
  split_runs false "" (p ++ rest) = prepend p (split_runs false "" rest).
Proof.
  induction p as [|c p IH]; intros H.
  - cbn [append]. destruct (split_runs false "" rest); reflexivity.
  - unfold no_digit in H. cbn [list_ascii_of_string forallb] in H.
    apply andb_prop in H. destruct H as [Hc Hp].
    apply negb_true_iff in Hc.
    change (String c p ++ rest)%string with (String c (p ++ rest)).
    cbn [split_runs]. rewrite Hc.
    rewrite split_runs_prepend, (IH Hp), prepend_prepend. reflexivity.
Qed.

Lemma split_runs_digits (d rest : string) :
  forallb is_digit (list_ascii_of_string d) = true ->
  split_runs true "" (d ++ rest) = prepend d (split_runs true "" rest).
Proof.
  induction d as [|c d IH]; intros H.
  - cbn [append]. destruct (split_runs true "" rest); reflexivity.
  - cbn [list_ascii_of_string forallb] in H.
    apply andb_prop in H. destruct H as [Hc Hd].
    change (String c d ++ rest)%string with (String c (d ++ rest)).
    cbn [split_runs]. rewrite Hc.
    rewrite split_runs_prepend, (IH Hd), prepend_prepend. reflexivity.
Qed.

Lemma split_runs_after_digits (q : string) :
  starts_without_digit q = true ->
  split_runs true "" q = "" :: split_runs false "" q.
Proof.
  destruct q as [|c q]; [reflexivity|]. cbn [starts_without_digit].
  intros Hc. apply negb_true_iff in Hc. cbn [split_runs]. now rewrite Hc.
Qed.

Lemma re_split_number (p d q : string) :
  no_digit p = true ->
  str_isdigit d = true ->
  starts_without_digit q = true ->
  re_split_digits (p ++ d ++ q) = p :: d :: re_split_digits q.
Proof.
  intros Hp Hd Hq. unfold re_split_digits.
  rewrite (split_runs_text p _ Hp).
  destruct d as [|c d]; [discriminate|].
  unfold str_isdigit in Hd.
  pose proof Hd as Hd'. cbn [list_ascii_of_string forallb] in Hd'.
  apply andb_prop in Hd'. destruct Hd' as [Hc _].
  change (String c d ++ q)%string with (String c (d ++ q)).
  cbn [split_runs]. rewrite Hc.
  rewrite split_runs_prepend.
  change ("" ++ String c "")%string with (String c "").
  destruct (andb_prop _ _ Hd) as [_ Hd2].
  rewrite (split_runs_digits d q Hd2), prepend_prepend.
  rewrite (split_runs_after_digits q Hq).
  cbn [prepend]. rewrite !string_app_nil_r. reflexivity.
Qed.

Lemma no_digit_not_isdigit (p : string) :
  no_digit p = true -> str_isdigit p = false.
Proof.
  destruct p as [|c p]; [reflexivity|]. unfold no_digit, str_isdigit.
  cbn [list_ascii_of_string forallb]. intros H.
  apply andb_prop in H. destruct H as [Hc _].
  apply negb_true_iff in Hc. now rewrite Hc.
Qed.

Lemma of_nat_isdigit (n : nat) : str_isdigit (PyStr.of_nat n) = true.
Proof.
  unfold str_isdigit, PyStr.of_nat.
  pose proof (string_of_uint_digits (Nat.to_uint n)) as H.
  pose proof (to_uint_nonnil n) as Hne.
  destruct (Nat.to_uint n); [congruence| ..]; exact H.
Qed.

Lemma alphanum_key_number (p q : string) (n : nat) :
  no_digit p = true ->
  starts_without_digit q = true ->
  exists kq,
    alphanum_key q = Ok kq
    /\ alphanum_key (p ++ PyStr.of_nat n ++ q)
       = Ok (TStr (str_lower p) :: TInt (Z.of_nat n) :: kq)
    /\ alternates true kq = true.
Proof.
  intros Hp Hq.
  destruct (alphanum_key_alternates q) as (kq & Hkq & Halt).
  exists kq. split; [exact Hkq|]. split; [|exact Halt].
  unfold alphanum_key in *.
  rewrite (re_split_number p _ q Hp (of_nat_isdigit n) Hq).
  cbn [map_result]. unfold convert at 1 2.
  rewrite (no_digit_not_isdigit p Hp), (of_nat_isdigit n), py_int_of_nat.
  cbn [bind]. rewrite Hkq. reflexivity.
Qed.

Lemma tok_eqb_refl (x : Tok) : tok_eqb x x = true.
Proof. destruct x; simpl; [apply Z.eqb_refl|apply String.eqb_refl]. Qed.

(** X9: Numbers are compared as numbers: of two names that begin with the same
    digit-free text followed by a number, the one with the smaller number
    comes first, whatever follows the numbers and whatever the order
    given. *)
Theorem natural_sort_numeric (p q q' : string) (m n : nat) :
  plain (p ++ PyStr.of_nat m ++ q) = true ->
  plain (p ++ PyStr.of_nat n ++ q') = true ->
  no_digit p = true ->
  starts_without_digit q = true ->
  starts_without_digit q' = true ->
  m < n ->
  natural_sort [p ++ PyStr.of_nat n ++ q'; p ++ PyStr.of_nat m ++ q]%string
  = Ok [p ++ PyStr.of_nat m ++ q; p ++ PyStr.of_nat n ++ q']%string
  /\ natural_sort [p ++ PyStr.of_nat m ++ q; p ++ PyStr.of_nat n ++ q']%string
     = Ok [p ++ PyStr.of_nat m ++ q; p ++ PyStr.of_nat n ++ q']%string.
Proof.
  intros _ _ Hp Hq Hq' Hlt.
  destruct (alphanum_key_number p q m Hp Hq) as (kq & _ & Hm & _).
  destruct (alphanum_key_number p q' n Hp Hq') as (kq' & _ & Hn & _).
  assert (Hmn : (Z.of_nat m =? Z.of_nat n)%Z = false) by (apply Z.eqb_neq; lia).
  assert (Hnm : (Z.of_nat n =? Z.of_nat m)%Z = false) by (apply Z.eqb_neq; lia).
  assert (Hlt1 : (Z.of_nat m <? Z.of_nat n)%Z = true) by (apply Z.ltb_lt; lia).
  assert (Hlt2 : (Z.of_nat n <? Z.of_nat m)%Z = false) by (apply Z.ltb_ge; lia).
  unfold natural_sort. cbn [map_result]. rewrite Hm, Hn. cbn [bind].
  cbn [sort_keyed insert_keyed bind snd tok_list_lt tok_eqb tok_lt].
  rewrite String.eqb_refl, Hmn, Hnm, Hlt1, Hlt2. cbn [bind map fst].
  split; reflexivity.
Qed.

Lemma natural_sort_numeric_witness :
  natural_sort ["r10i1p1"; "r3i2p1"] = Ok ["r3i2p1"; "r10i1p1"]
  /\ natural_sort ["r3i2p1"; "r10i1p1"] = Ok ["r3i2p1"; "r10i1p1"].
Proof.
  apply (natural_sort_numeric "r" "i2p1" "i1p1" 3 10);
    try reflexivity; lia.
Defined.

(** ** clean_up: the stages on the attributes *)

Lemma search_ok (a b : string) :
  a <> "" -> _search a b = Ok (matches a b).
Proof.
  intros Ha. unfold matches, _search.
  destruct (PyStr.last a) as [c|] eqn:El.
  - destruct (Ascii.eqb c "*"); [now destruct (PyStr.contains _ _)|].
    destruct a as [|c0 rest]; [congruence|].
    destruct (Ascii.eqb c0 "^"); [now destruct (PyStr.startswith _ _)|].
    now destruct (String.eqb _ _).
  - exfalso. clear - El Ha. induction a as [|c a IH]; [congruence|].
    cbn [PyStr.last] in El. destruct a; [discriminate|].
    apply IH; [congruence|exact El].
Qed.

Lemma mem_remove_same {V : Type} (k : string) (d : PyDict.t V) :
  NoDup (PyDict.keys d) -> PyDict.mem k (PyDict.remove k d) = false.
Proof.
  intros ND. unfold PyDict.mem.
  induction d as [|[k' v] d IH]; [reflexivity|].
  inversion ND as [|? ? Hk ND']; subst. cbn [PyDict.remove].
  destruct (String.eqb_spec k k') as [->|Hne].
  - now rewrite (get_not_in k' d Hk).
  - cbn [PyDict.get]. destruct (String.eqb_spec k k'); [congruence|].
    now apply IH.
Qed.

Lemma remove_filter {V : Type} (k : string) (d : PyDict.t V) :
  NoDup (PyDict.keys d) ->
  PyDict.remove k d = filter (fun kv => negb (String.eqb k (fst kv))) d.
Proof.
  induction d as [|[k' v] d IH]; intros ND; [reflexivity|].
  inversion ND as [|? ? Hk ND']; subst.
  cbn [PyDict.remove filter fst].
  destruct (String.eqb_spec k k') as [->|Hne]; cbn [negb].
  - symmetry. apply forallb_filter_id. apply forallb_forall.
    intros [k2 v2] Hin. cbn [fst].
    destruct (String.eqb_spec k' k2) as [<-|]; [|reflexivity].
    exfalso. apply Hk. change k' with (fst (k', v2)). now apply in_map.
  - now rewrite IH.
Qed.

(** The inner loop on an attribute that the dictionary no longer holds. *)
Lemma remove_matching_absent (l : list string) (k : string) (attrs : Attrs) :
  Forall (fun a => a <> "") l ->
  PyDict.mem k attrs = false ->
  remove_matching l k attrs
  = match matching l k with
    | [] => Ok attrs
    | _ :: _ => Raise (KeyError k)
    end.
Proof.
  intros Hl Hmem. unfold remove_matching, matching.
  induction Hl as [|a l Ha _ IH]; [reflexivity|].
  cbn [for_each filter]. rewrite (search_ok a k Ha). cbn [bind].
  destruct (matches a k).
  - unfold PyDict.del. now rewrite Hmem.
  - cbn [bind]. exact IH.
Qed.

Lemma remove_matching_spec (l : list string) (k : string) (attrs : Attrs) :
  Forall (fun a => a <> "") l ->
  NoDup (PyDict.keys attrs) ->
  PyDict.mem k attrs = true ->
  remove_matching l k attrs
  = match matching l k with
    | [] => Ok attrs
    | [_] => Ok (PyDict.remove k attrs)
    | _ :: _ :: _ => Raise (KeyError k)
    end.
Proof.
  intros Hl ND Hmem. unfold remove_matching, matching.
  induction Hl as [|a l Ha Hl IH]; [reflexivity|].
  cbn [for_each filter]. rewrite (search_ok a k Ha). cbn [bind].
  destruct (matches a k).
  - unfold PyDict.del. rewrite Hmem. cbn [bind].
    pose proof (remove_matching_absent l k (PyDict.remove k attrs) Hl
                  (mem_remove_same k attrs ND)) as H.
    unfold remove_matching, matching in H.
    etransitivity; [exact H|]. now destruct (filter _ l).
  - cbn [bind]. exact IH.
Qed.

Lemma filter_filter {A : Type} (f g : A -> bool) (l : list A) :
  filter f (filter g l) = filter (fun x => g x && f x) l.
Proof.
  induction l as [|x l IH]; [reflexivity|]. cbn [filter].
  destruct (g x); cbn [filter andb]; [destruct (f x)|]; now rewrite IH.
Qed.

Lemma keys_filter_incl {V : Type} (f : string * V -> bool) (d : PyDict.t V) (k : string) :
  In k (PyDict.keys (filter f d)) -> In k (PyDict.keys d).
Proof.
  unfold PyDict.keys. rewrite !in_map_iff. intros (kv & Hk & Hin).
  apply filter_In in Hin. exists kv. tauto.
Qed.

Lemma NoDup_keys_filter {V : Type} (f : string * V -> bool) (d : PyDict.t V) :
  NoDup (PyDict.keys d) -> NoDup (PyDict.keys (filter f d)).
Proof.
  induction d as [|kv d IH]; intros ND; [constructor|].
  inversion ND as [|? ? Hk ND']; subst. cbn [filter].
  destruct (f kv); [|now apply IH].
  cbn [PyDict.keys map]. constructor; [|now apply IH].
  intros Hin. apply Hk. exact (keys_filter_incl f d _ Hin).
Qed.

Lemma NoDup_keys_remove {V : Type} (k : string) (d : PyDict.t V) :
  NoDup (PyDict.keys d) -> NoDup (PyDict.keys (PyDict.remove k d)).
Proof.
  intros ND. rewrite (remove_filter k d ND). now apply NoDup_keys_filter.
Qed.

Lemma in_keys_remove {V : Type} (k k' : string) (d : PyDict.t V) :
  k' <> k -> In k' (PyDict.keys d) -> In k' (PyDict.keys (PyDict.remove k d)).
Proof.
  intros Hne Hin. destruct (in_keys_get k' d Hin) as [v Hv].
  apply (get_in_keys k' v). now rewrite get_remove_other.
Qed.

Lemma in_keys_mem {V : Type} (k : string) (d : PyDict.t V) :
  In k (PyDict.keys d) -> PyDict.mem k d = true.
Proof.
  intros Hin. destruct (in_keys_get k d Hin) as [v Hv].
  unfold PyDict.mem. now rewrite Hv.
Qed.

(** A loop on the attribute names that deletes those chosen by [drop]. *)
Lemma delete_loop (body : string -> Attrs -> result Attrs)
      (drop : string -> bool) :
  forall (todo : list string) (attrs : Attrs),
    NoDup todo ->
    NoDup (PyDict.keys attrs) ->
    (forall k, In k todo -> In k (PyDict.keys attrs)) ->
    (forall k attrs',
        In k todo -> NoDup (PyDict.keys attrs') ->
        PyDict.mem k attrs' = true ->
        body k attrs' = Ok (if drop k then PyDict.remove k attrs' else attrs')) ->
    for_each todo body attrs
    = Ok (filter (fun kv => negb (PyStr.mem (fst kv) todo && drop (fst kv)))
                 attrs).
Proof.
  induction todo as [|k todo IH]; intros attrs NDt ND Hin Hbody.
  - cbn [for_each]. f_equal. symmetry. apply forallb_filter_id.
    apply forallb_forall. now intros kv _.
  - inversion NDt as [|? ? Hk NDt']; subst. cbn [for_each].
    rewrite (Hbody k attrs (or_introl eq_refl) ND
               (in_keys_mem k attrs (Hin k (or_introl eq_refl)))).
    cbn [bind].
    assert (Hbody' : forall k0 attrs',
               In k0 todo -> NoDup (PyDict.keys attrs') ->
               PyDict.mem k0 attrs' = true ->
               body k0 attrs'
               = Ok (if drop k0 then PyDict.remove k0 attrs' else attrs'))
      by (intros; apply Hbody; auto; now right).
    destruct (drop k) eqn:Ed.
    + rewrite (IH (PyDict.remove k attrs) NDt' (NoDup_keys_remove k attrs ND));
        [|intros k' Hk'; apply in_keys_remove; [congruence|];
          apply Hin; now right
         |exact Hbody'].
      rewrite (remove_filter k attrs ND), filter_filter. f_equal.
      apply filter_ext_in. intros [k' v] _. cbn [fst].
      unfold PyStr.mem. cbn [existsb].
      destruct (String.eqb_spec k k') as [<-|Hne].
      * now rewrite String.eqb_refl, Ed.
      * destruct (String.eqb_spec k' k); [congruence|reflexivity].
    + rewrite (IH attrs NDt' ND); [|intros; apply Hin; now right|exact Hbody'].
      f_equal. apply filter_ext_in. intros [k' v] _. cbn [fst].
      unfold PyStr.mem. cbn [existsb].
      destruct (String.eqb_spec k' k) as [->|Hne]; [|reflexivity].
      rewrite Ed. now rewrite !andb_false_r.
Qed.

Lemma delete_all_keys (drop : string -> bool) (attrs : Attrs) :
  filter (fun kv => negb (PyStr.mem (fst kv) (PyDict.keys attrs)
                          && drop (fst kv))) attrs
  = filter (fun kv => negb (drop (fst kv))) attrs.
Proof.
  apply filter_ext_in. intros kv Hin.
  assert (H : PyStr.mem (fst kv) (PyDict.keys attrs) = true)
    by (apply mem_In; now apply in_map).
  now rewrite H.
Qed.

(** The loop of [attrs_to_remove] when no attribute is matched twice. *)
Lemma remove_loop (l : list string) (attrs : Attrs) :
  Forall (fun a => a <> "") l ->
  NoDup (PyDict.keys attrs) ->
  (forall k, In k (PyDict.keys attrs) -> List.length (matching l k) <= 1) ->
  for_each (PyDict.keys attrs) (remove_matching l) attrs
  = Ok (filter (fun kv => unmatched l (fst kv)) attrs).
Proof.
  intros Hl ND Hone.
  rewrite (delete_loop (remove_matching l) (fun k => negb (unmatched l k))
             (PyDict.keys attrs) attrs ND ND (fun k H => H)).
  - f_equal.
    etransitivity;
      [exact (delete_all_keys (fun k => negb (unmatched l k)) attrs)|].
    apply filter_ext. intros kv. apply negb_involutive.
  - intros k attrs' Hk ND' Hmem.
    rewrite (remove_matching_spec l k attrs' Hl ND' Hmem).
    specialize (Hone k Hk). unfold unmatched.
    destruct (matching l k) as [|a [|b rest]]; try reflexivity.
    cbn [List.length] in Hone. lia.
Qed.

Lemma delete_flag_spec (l : list string) (k : string) :
  Forall (fun a => a <> "") l ->
  delete_flag l k = Ok (unmatched l k).
Proof.
  intros Hl. unfold delete_flag, unmatched, matching.
  assert (H : forall d,
             for_each l
               (fun list_attr delete =>
                  m <- _search list_attr k ;; Ok (if m then false else delete))
               d
             = Ok (d && match filter (fun a => matches a k) l with
                        | [] => true
                        | _ :: _ => false
                        end)).
  { induction Hl as [|a l Ha _ IH]; intros d;
      [cbn; now rewrite andb_true_r|].
    cbn [for_each filter]. rewrite (search_ok a k Ha). cbn [bind].
    rewrite IH. destruct (matches a k); [now rewrite andb_false_r|reflexivity]. }
  now rewrite H.
Qed.

(** The loop of [remove_all_attrs_except]. *)
Lemma keep_loop (l : list string) (attrs : Attrs) :
  Forall (fun a => a <> "") l ->
  NoDup (PyDict.keys attrs) ->
  for_each (PyDict.keys attrs) (remove_unless_matching l) attrs
  = Ok (filter (fun kv => negb (unmatched l (fst kv))) attrs).
Proof.
  intros Hl ND.
  rewrite (delete_loop (remove_unless_matching l) (unmatched l)
             (PyDict.keys attrs) attrs ND ND (fun k H => H)).
  - f_equal. exact (delete_all_keys (unmatched l) attrs).
  - intros k attrs' _ _ Hmem. unfold remove_unless_matching.
    rewrite (delete_flag_spec l k Hl). cbn [bind].
    destruct (unmatched l k); [|reflexivity].
    unfold PyDict.del. now rewrite Hmem.
Qed.

(** The loop on the attributes, when an attribute is matched twice. *)
Lemma remove_loop_twice (l : list string) :
  Forall (fun a => a <> "") l ->
  forall (todo : list string) (attrs : Attrs),
    NoDup todo ->
    NoDup (PyDict.keys attrs) ->
    (forall k, In k todo -> In k (PyDict.keys attrs)) ->
    (exists k, In k todo /\ 2 <= List.length (matching l k)) ->
    exists k,
      In k todo /\ 2 <= List.length (matching l k)
      /\ for_each todo (remove_matching l) attrs = Raise (KeyError k).
Proof.
  intros Hl. induction todo as [|k todo IH]; intros attrs NDt ND Hin (k0 & Hk0 & Htwo).
  - destruct Hk0.
  - inversion NDt as [|? ? Hk NDt']; subst. cbn [for_each].
    rewrite (remove_matching_spec l k attrs Hl ND
               (in_keys_mem k attrs (Hin k (or_introl eq_refl)))).
    assert (Hrest : forall attrs',
               NoDup (PyDict.keys attrs') ->
               (forall k', In k' todo -> In k' (PyDict.keys attrs')) ->
               List.length (matching l k) <= 1 ->
               exists k1, In k1 (k :: todo) /\ 2 <= List.length (matching l k1)
                          /\ for_each todo (remove_matching l) attrs'
                             = Raise (KeyError k1)).
    { intros attrs' ND' Hin' Hle.
      destruct (IH attrs' NDt' ND' Hin') as (k1 & H1 & H2 & H3).
      - exists k0. split; [|exact Htwo].
        destruct Hk0 as [<-|]; [lia|assumption].
      - exists k1. repeat split; auto. now right. }
    destruct (matching l k) as [|a [|b rest]] eqn:Em; cbn [bind].
    + apply Hrest; auto. intros; apply Hin; now right.
    + apply Hrest; auto.
      * now apply NoDup_keys_remove.
      * intros k' Hk'. apply in_keys_remove; [congruence|].
        apply Hin. now right.
    + exists k. repeat split; [now left|rewrite Em; cbn; lia].
Qed.


(** Reduces a call of [clean_up] with given arguments to the stages that
    run. *)
Ltac run_stages :=
  unfold clean_up, when, on_attrs;
  cbn [variables_and_units convert_calendar_kwargs missing_by_var
       maybe_unstack_dict round_var common_attrs_only
       common_attrs_open_kwargs attrs_to_remove remove_all_attrs_except
       add_attrs change_attr_prefix to_level truthy_list truthy_str bind
       for_each fst snd];
  try change (String.eqb "global" "global") with true; cbv iota.

(** X10: [clean_up(ds, attrs_to_remove={"global": l})], when no global
    attribute is matched by more than one pattern of [l]: the attributes
    matched by a pattern are removed, the others are kept in their order,
    and nothing else of the dataset changes. *)
Theorem clean_up_attrs_to_remove
        {V : Type} (units : UnitsLib V) (lib : CleanUpLib V) (fill : V)
        (fs : FileStore) (ds : Dataset V) (l : list string) :
  Forall (fun a => a <> "") l ->
  NoDup (PyDict.keys (ds_attrs ds)) ->
  (forall k, In k (PyDict.keys (ds_attrs ds)) ->
             List.length (matching l k) <= 1) ->
  clean_up units lib fill fs ds (only_remove [("global", l)])
  = Ok (set_attrs (filter (fun kv => unmatched l (fst kv)) (ds_attrs ds)) ds).
Proof.
  intros Hl ND Hone.
  unfold only_remove. run_stages.
  now rewrite (remove_loop l (ds_attrs ds) Hl ND Hone).
Qed.

Lemma clean_up_attrs_to_remove_witness :
  clean_up example_units example_lib 0%Z [] attrs_dataset
           (only_remove [("global", ["cat:*"; "history"])])
  = Ok (set_attrs [("comment", AStr "none")] attrs_dataset).
Proof.
  apply (clean_up_attrs_to_remove example_units example_lib 0%Z []
           attrs_dataset ["cat:*"; "history"]).
  - repeat constructor; discriminate.
  - simpl. repeat constructor; simpl; intuition discriminate.
  - simpl. intros k H.
    repeat (destruct H as [<-|H]; [vm_compute; lia|]). destruct H.
Defined.


(** X11: [clean_up(ds, attrs_to_remove={"global": l})], when some global
    attribute is matched by two patterns of [l]: the second match deletes
    an attribute that the first has deleted already, and the call raises a
    [KeyError] for such an attribute. *)
Theorem clean_up_attrs_to_remove_twice
        {V : Type} (units : UnitsLib V) (lib : CleanUpLib V) (fill : V)
        (fs : FileStore) (ds : Dataset V) (l : list string) (k : string) :
  Forall (fun a => a <> "") l ->
  NoDup (PyDict.keys (ds_attrs ds)) ->
  In k (PyDict.keys (ds_attrs ds)) ->
  2 <= List.length (matching l k) ->
  exists k',
    2 <= List.length (matching l k')
    /\ clean_up units lib fill fs ds (only_remove [("global", l)])
       = Raise (KeyError k').
Proof.
  intros Hl ND Hin Htwo.
  destruct (remove_loop_twice l Hl (PyDict.keys (ds_attrs ds)) (ds_attrs ds)
              ND ND (fun k H => H) (ex_intro _ k (conj Hin Htwo)))
    as (k' & _ & Hk' & Hrun).
  exists k'. split; [exact Hk'|].
  unfold only_remove. run_stages. now rewrite Hrun.
Qed.

Lemma clean_up_attrs_to_remove_twice_witness :
  exists k',
    2 <= List.length (matching ["cat:*"; "^cat:"] k')
    /\ clean_up example_units example_lib 0%Z [] attrs_dataset
                (only_remove [("global", ["cat:*"; "^cat:"])])
       = Raise (KeyError k').
Proof.
  apply (clean_up_attrs_to_remove_twice example_units example_lib 0%Z []
           attrs_dataset ["cat:*"; "^cat:"] "cat:source").
  - repeat constructor; discriminate.
  - simpl. repeat constructor; simpl; intuition discriminate.
  - simpl. tauto.
  - vm_compute. lia.
Defined.


(** X12: [clean_up(ds, remove_all_attrs_except={"global": l})]: the global
    attributes matched by some pattern of [l] are kept in their order, all
    the others are removed, and nothing else of the dataset changes. *)
Theorem clean_up_remove_all_attrs_except
        {V : Type} (units : UnitsLib V) (lib : CleanUpLib V) (fill : V)
        (fs : FileStore) (ds : Dataset V) (l : list string) :
  Forall (fun a => a <> "") l ->
  NoDup (PyDict.keys (ds_attrs ds)) ->
  clean_up units lib fill fs ds (only_keep [("global", l)])
  = Ok (set_attrs (filter (fun kv => negb (unmatched l (fst kv)))
                          (ds_attrs ds)) ds).
Proof.
  intros Hl ND.
  unfold only_keep. run_stages.
  now rewrite (keep_loop l (ds_attrs ds) Hl ND).
Qed.

Lemma clean_up_remove_all_attrs_except_witness :
  clean_up example_units example_lib 0%Z [] attrs_dataset
           (only_keep [("global", ["^cat:d"; "comment"])])
  = Ok (set_attrs [("cat:domain", AStr "QC"); ("cat:date_start", AStr "1950");
                   ("comment", AStr "none")] attrs_dataset).
Proof.
  apply (clean_up_remove_all_attrs_except example_units example_lib 0%Z []
           attrs_dataset ["^cat:d"; "comment"]).
  - repeat constructor; discriminate.
  - simpl. repeat constructor; simpl; intuition discriminate.
Defined.


(** The attributes in common. *)

Lemma same_key_same_entry {V : Type} (d : PyDict.t V) (kv kv' : string * V) :
  NoDup (PyDict.keys d) -> In kv d -> In kv' d -> fst kv = fst kv' -> kv = kv'.
Proof.
  intros ND H H' E. destruct kv as [k v], kv' as [k' v']. cbn [fst] in E.
  subst k'. pose proof (get_in_nodup k v d ND H) as G.
  pose proof (get_in_nodup k v' d ND H') as G'. congruence.
Qed.

Lemma fold_remove (cond : string * AttrVal -> bool) :
  forall (todo : list (string * AttrVal)) (acc : Attrs),
    NoDup (PyDict.keys acc) ->
    fold_left (fun acc kv => if cond kv then PyDict.remove (fst kv) acc else acc)
              todo acc
    = filter (fun kv' => negb (existsb (fun kv => cond kv
                                                  && String.eqb (fst kv) (fst kv'))
                                       todo)) acc.
Proof.
  induction todo as [|kv todo IH]; intros acc ND.
  - cbn. symmetry. apply forallb_filter_id. apply forallb_forall. now intros.
  - cbn [fold_left existsb]. destruct (cond kv) eqn:Ec.
    + rewrite (IH _ (NoDup_keys_remove (fst kv) acc ND)).
      rewrite (remove_filter (fst kv) acc ND), filter_filter.
      apply filter_ext. intros kv'. cbn [andb].
      now destruct (String.eqb (fst kv) (fst kv')).
    + rewrite (IH _ ND). apply filter_ext. now intros kv'.
Qed.

Lemma keep_common_filter (other attrs : Attrs) :
  NoDup (PyDict.keys attrs) ->
  keep_common other attrs = filter (shared other) attrs.
Proof.
  intros ND. unfold keep_common.
  rewrite (fold_remove
             (fun kv => negb (PyDict.mem (fst kv) other)
                        || PyStr.mem (fst kv) ["cat:date_start"; "cat:date_end"]
                        || negb (match PyDict.get (fst kv) other with
                                 | Some w => attr_eqb (snd kv) w
                                 | None => false
                                 end)) attrs attrs ND).
  apply filter_ext_in. intros kv' Hin.
  match goal with |- negb (existsb ?f attrs) = _ =>
    assert (E : existsb f attrs = f kv') end.
  { apply eq_true_iff_eq. rewrite existsb_exists. split.
    - intros (kv & Hkv & Hc). apply andb_prop in Hc. destruct Hc as [Hc He].
      apply String.eqb_eq in He.
      rewrite <- (same_key_same_entry attrs kv kv' ND Hkv Hin He).
      now rewrite Hc, String.eqb_refl.
    - intros H. exists kv'. split; [exact Hin|exact H]. }
  rewrite E, String.eqb_refl, andb_true_r. unfold shared, PyDict.mem.
  destruct (PyDict.get (fst kv') other) as [w|]; cbn;
    [|now rewrite andb_false_r].
  destruct (String.eqb (fst kv') "cat:date_start"
            || (String.eqb (fst kv') "cat:date_end" || false));
    cbn; [reflexivity|]. now rewrite negb_involutive.
Qed.

Lemma set_attrs_twice {V : Type} (a b : Attrs) (ds : Dataset V) :
  set_attrs a (set_attrs b ds) = set_attrs a ds.
Proof. reflexivity. Qed.

Lemma common_loop {V : Type} (lib : CleanUpLib V) (kw : PyDict.t PyVal)
      (others : list Attrs) :
  forall ds : Dataset V,
    NoDup (PyDict.keys (ds_attrs ds)) ->
    for_each (map Live others)
      (fun src ds =>
         other <- match src with
                  | FromPath p => open_dataset_attrs lib p kw
                  | Live a => Ok a
                  end ;;
         Ok (set_attrs (keep_common other (ds_attrs ds)) ds)) ds
    = Ok (set_attrs (filter (fun kv => forallb (fun o => shared o kv) others)
                            (ds_attrs ds)) ds).
Proof.
  induction others as [|o others IH]; intros ds ND.
  - cbn. f_equal. destruct ds as [d c v a]. unfold set_attrs. cbn. f_equal.
    symmetry. apply forallb_filter_id. apply forallb_forall. now intros.
  - cbn [map for_each bind]. rewrite (keep_common_filter o _ ND).
    rewrite IH; [|now apply NoDup_keys_filter].
    cbn [ds_attrs set_attrs]. f_equal. unfold set_attrs. cbn. f_equal.
    rewrite filter_filter. reflexivity.
Qed.

(** X13: [clean_up(ds, common_attrs_only=[o, ...])] with datasets that are
    open already: the global attributes kept are those that every one of
    the datasets holds with the same value, the attributes cat:date_start
    and cat:date_end apart, which are always removed; the identifier
    cat:id is then generated from the dataset so reduced. *)
Theorem clean_up_common_attrs_only
        {V : Type} (units : UnitsLib V) (lib : CleanUpLib V) (fill : V)
        (fs : FileStore) (ds : Dataset V) (o : Attrs) (others : list Attrs) :
  NoDup (PyDict.keys (ds_attrs ds)) ->
  clean_up units lib fill fs ds (only_common (map Live (o :: others)))
  = (let kept := set_attrs (filter (fun kv => forallb (fun o => shared o kv)
                                                      (o :: others))
                                   (ds_attrs ds)) ds in
     id <- generate_id lib kept ;;
     Ok (set_attrs (PyDict.set "cat:id" (AStr id) (ds_attrs kept)) ds)).
Proof.
  intros ND. unfold only_common, clean_up, when, common_attrs_stage.
  cbn [variables_and_units convert_calendar_kwargs missing_by_var
       maybe_unstack_dict round_var common_attrs_only
       common_attrs_open_kwargs attrs_to_remove remove_all_attrs_except
       add_attrs change_attr_prefix to_level truthy_list truthy_str map].
  cbn [bind]. 
  pose proof (common_loop lib [] (o :: others) ds ND) as H.
  cbn [map] in H. rewrite H. cbn [bind].
  destruct (generate_id lib _); reflexivity.
Qed.

Lemma clean_up_common_attrs_only_witness :
  clean_up example_units example_lib 0%Z [] attrs_dataset
           (only_common (map Live [other_attrs]))
  = Ok (set_attrs [("cat:domain", AStr "QC"); ("comment", AStr "none");
                   ("cat:id", AStr "id")] attrs_dataset).
Proof.
  apply (clean_up_common_attrs_only example_units example_lib 0%Z []
           attrs_dataset other_attrs []).
  simpl. repeat constructor; simpl; intuition discriminate.
Defined.


(** The prefix of the attribute names. *)

Lemma in_keys_set_other {V : Type} (k k' : string) (v : V) (d : PyDict.t V) :
  In k' (PyDict.keys d) -> In k' (PyDict.keys (PyDict.set k v d)).
Proof.
  intros Hin. destruct (String.eqb_spec k' k) as [->|Hne];
    [apply in_keys_set|].
  destruct (in_keys_get k' d Hin) as [w Hw].
  apply (get_in_keys k' w). now rewrite get_set_other.
Qed.

Lemma rewrite_key_present (prefix k : string) (attrs : Attrs) :
  In k (PyDict.keys attrs) ->
  exists v,
    PyDict.get k attrs = Some v
    /\ rewrite_key prefix k attrs
       = Ok (if PyStr.truthy (PyStr.replace "cat:" prefix k)
             then PyDict.set (PyStr.replace "cat:" prefix k) v
                             (PyDict.remove k attrs)
             else attrs).
Proof.
  intros Hin. destruct (in_keys_get k attrs Hin) as [v Hv]. exists v.
  split; [exact Hv|]. unfold rewrite_key, PyDict.pop. rewrite Hv.
  now destruct (PyStr.truthy _).
Qed.

Lemma prefix_loop_track (prefix k : string) (v : AttrVal) :
  PyStr.replace "cat:" prefix k <> "" ->
  forall (todo : list string) (attrs : Attrs),
    NoDup todo ->
    (forall k', In k' todo -> In k' (PyDict.keys attrs)) ->
    (forall k', In k' todo -> k' <> k ->
                PyStr.replace "cat:" prefix k' <> PyStr.replace "cat:" prefix k
                /\ PyStr.replace "cat:" prefix k' <> k) ->
    (PyStr.replace "cat:" prefix k = k
     \/ ~ In (PyStr.replace "cat:" prefix k) todo) ->
    (In k todo /\ PyDict.get k attrs = Some v
     \/ ~ In k todo
        /\ PyDict.get (PyStr.replace "cat:" prefix k) attrs = Some v) ->
    exists attrs',
      for_each todo (rewrite_key prefix) attrs = Ok attrs'
      /\ PyDict.get (PyStr.replace "cat:" prefix k) attrs' = Some v.
Proof.
  intros Hnew.
  induction todo as [|k0 todo IH]; intros attrs NDt Hin Hfree Hfresh Hstate.
  - exists attrs. split; [reflexivity|]. destruct Hstate as [[[] _]|[_ H]].
    exact H.
  - inversion NDt as [|? ? Hk0 NDt']; subst. cbn [for_each].
    destruct (rewrite_key_present prefix k0 attrs (Hin k0 (or_introl eq_refl)))
      as (v0 & Hv0 & ->).
    cbn [bind].
    assert (Hfree' : forall k', In k' todo -> k' <> k ->
                PyStr.replace "cat:" prefix k' <> PyStr.replace "cat:" prefix k
                /\ PyStr.replace "cat:" prefix k' <> k)
      by (intros; apply Hfree; auto; now right).
    assert (Hfresh' : PyStr.replace "cat:" prefix k = k
                      \/ ~ In (PyStr.replace "cat:" prefix k) todo)
      by (destruct Hfresh as [H|H]; [now left|right; intros H'; apply H; now right]).
    destruct (String.eqb_spec k0 k) as [->|Hne].
    + assert (Hv : PyDict.get k attrs = Some v).
      { destruct Hstate as [[_ H]|[H _]]; [exact H|].
        exfalso. apply H. now left. }
      assert (v0 = v) by congruence. subst v0.
      destruct (PyStr.replace "cat:" prefix k) as [|c new] eqn:En;
        [congruence|]. cbn [PyStr.truthy].
      apply IH; auto.
      * intros k' Hk'. apply in_keys_set_other.
        apply in_keys_remove; [congruence|]. apply Hin. now right.
      * right. split; [exact Hk0|]. apply get_set_same.
    + assert (Hstate' : In k todo /\ PyDict.get k attrs = Some v
                        \/ ~ In k todo
                           /\ PyDict.get (PyStr.replace "cat:" prefix k) attrs
                              = Some v).
      { destruct Hstate as [[[H|H] G]|[H G]]; [congruence|now left|].
        right. split; [|exact G]. intros H'. apply H. now right. }
      destruct (PyStr.truthy (PyStr.replace "cat:" prefix k0)) eqn:Et.
      * destruct (Hfree k0 (or_introl eq_refl) Hne) as [F1 F2].
        apply IH; auto.
        -- intros k' Hk'. apply in_keys_set_other.
           apply in_keys_remove; [congruence|]. apply Hin. now right.
        -- destruct Hstate' as [[H G]|[H G]].
           ++ left. split; [exact H|].
              rewrite get_set_other by congruence.
              rewrite get_remove_other by congruence. exact G.
           ++ right. split; [exact H|].
              rewrite get_set_other by congruence.
              rewrite get_remove_other; [exact G|].
              destruct Hfresh as [E|E]; [congruence|].
              intros E'. apply E. left. now symmetry.
      * apply IH; auto. intros; apply Hin; now right.
Qed.

Lemma prefix_loop_total (prefix : string) :
  forall (todo : list string) (attrs : Attrs),
    NoDup todo ->
    (forall k', In k' todo -> In k' (PyDict.keys attrs)) ->
    exists attrs', for_each todo (rewrite_key prefix) attrs = Ok attrs'.
Proof.
  induction todo as [|k0 todo IH]; intros attrs NDt Hin.
  - now exists attrs.
  - inversion NDt as [|? ? Hk0 NDt']; subst. cbn [for_each].
    destruct (rewrite_key_present prefix k0 attrs (Hin k0 (or_introl eq_refl)))
      as (v0 & Hv0 & ->).
    cbn [bind]. apply IH; [exact NDt'|]. intros k' Hk'.
    destruct (PyStr.truthy _); [|apply Hin; now right].
    apply in_keys_set_other. apply in_keys_remove; [congruence|].
    apply Hin. now right.
Qed.

(** X14: [clean_up(ds, change_attr_prefix=prefix)] renames the global
    attribute [k] to [k.replace("cat:", prefix)] and keeps its value,
    provided that the new name is not empty, is [k] itself or is not the
    name of an attribute, and that no other attribute is renamed to [k] or
    to the new name of [k]. *)
Theorem clean_up_change_attr_prefix_renames
        {V : Type} (units : UnitsLib V) (lib : CleanUpLib V) (fill : V)
        (fs : FileStore) (ds : Dataset V) (prefix k : string) (v : AttrVal) :
  prefix <> "" ->
  NoDup (PyDict.keys (ds_attrs ds)) ->
  PyDict.get k (ds_attrs ds) = Some v ->
  PyStr.replace "cat:" prefix k <> "" ->
  (PyStr.replace "cat:" prefix k = k
   \/ ~ In (PyStr.replace "cat:" prefix k) (PyDict.keys (ds_attrs ds))) ->
  (forall k', In k' (PyDict.keys (ds_attrs ds)) -> k' <> k ->
              PyStr.replace "cat:" prefix k' <> PyStr.replace "cat:" prefix k
              /\ PyStr.replace "cat:" prefix k' <> k) ->
  exists attrs',
    clean_up units lib fill fs ds (only_prefix prefix)
    = Ok (set_attrs attrs' ds)
    /\ PyDict.get (PyStr.replace "cat:" prefix k) attrs' = Some v.
Proof.
  intros Hp ND Hget Hnew Hfresh Hfree.
  destruct (prefix_loop_track prefix k v Hnew (PyDict.keys (ds_attrs ds))
              (ds_attrs ds) ND (fun k H => H) Hfree Hfresh)
    as (attrs' & Hrun & Hget').
  { left. split; [|exact Hget]. exact (get_in_keys k v _ Hget). }
  exists attrs'. split; [|exact Hget'].
  unfold only_prefix. run_stages.
  destruct prefix as [|c p]; [congruence|]. cbn [PyStr.truthy].
  unfold change_prefix. now rewrite Hrun.
Qed.

Lemma clean_up_change_attr_prefix_renames_witness :
  exists attrs',
    clean_up example_units example_lib 0%Z [] attrs_dataset
             (only_prefix "dataset:")
    = Ok (set_attrs attrs' attrs_dataset)
    /\ PyDict.get "dataset:source" attrs' = Some (AStr "CRCM5").
Proof.
  apply (clean_up_change_attr_prefix_renames example_units example_lib 0%Z []
           attrs_dataset "dataset:" "cat:source" (AStr "CRCM5")).
  - discriminate.
  - simpl. repeat constructor; simpl; intuition discriminate.
  - reflexivity.
  - discriminate.
  - right. simpl. intuition discriminate.
  - simpl. intros k' H Hne.
    repeat (destruct H as [<-|H];
            [try congruence; vm_compute; split; discriminate|]).
    destruct H.
Defined.


(** X15: [clean_up(ds, change_attr_prefix=prefix)] never fails: every
    attribute is still there when its turn comes to be renamed.  It
    changes nothing of the dataset but the global attributes. *)
Theorem clean_up_change_attr_prefix_returns
        {V : Type} (units : UnitsLib V) (lib : CleanUpLib V) (fill : V)
        (fs : FileStore) (ds : Dataset V) (prefix : string) :
  NoDup (PyDict.keys (ds_attrs ds)) ->
  exists attrs',
    clean_up units lib fill fs ds (only_prefix prefix)
    = Ok (set_attrs attrs' ds).
Proof.
  intros ND.
  destruct (prefix_loop_total prefix (PyDict.keys (ds_attrs ds)) (ds_attrs ds)
              ND (fun k H => H)) as (attrs' & Hrun).
  unfold only_prefix. run_stages.
  destruct prefix as [|c p]; cbn [PyStr.truthy].
  - exists (ds_attrs ds). now destruct ds.
  - exists attrs'. unfold change_prefix. now rewrite Hrun.
Qed.

Lemma clean_up_change_attr_prefix_returns_witness :
  exists attrs',
    clean_up example_units example_lib 0%Z [] attrs_dataset
             (only_prefix "dataset:")
    = Ok (set_attrs attrs' attrs_dataset).
Proof.
  apply (clean_up_change_attr_prefix_returns example_units example_lib 0%Z []
           attrs_dataset "dataset:").
  simpl. repeat constructor; simpl; intuition discriminate.
Defined.


(** ** clean_up: the calendar *)

(** X16: When the calendar is converted and [missing_by_var] is given, a data
    variable of the dataset without entry in [missing_by_var] makes
    [clean_up] raise a [ValueError], before the calendar is converted and
    whatever the later stages are asked to do. *)
Theorem clean_up_missing_by_var_incomplete
        {V : Type} (units : UnitsLib V) (lib : CleanUpLib V) (fill : V)
        (fs : FileStore) (ds : Dataset V) (args : CleanUpArgs)
        (kwargs mbv : PyDict.t PyVal) (name : string) :
  truthy_list (variables_and_units args) = None ->
  truthy_list (convert_calendar_kwargs args) = Some kwargs ->
  truthy_list (missing_by_var args) = Some mbv ->
  In name (PyDict.keys (data_vars ds)) ->
  PyDict.mem name mbv = false ->
  clean_up units lib fill fs ds args
  = Raise (ValueError
             "All variables must be in 'missing_by_var' if using this option.").
Proof.
  intros Hu Hk Hm Hin Hmem. unfold clean_up.
  rewrite Hu, Hk. cbn [when bind]. unfold calendar_stage. rewrite Hm.
  assert (Hall : forallb (fun k => PyDict.mem k mbv)
                         (PyDict.keys (data_vars ds)) = false).
  { apply not_true_is_false. intros H.
    rewrite forallb_forall in H. specialize (H name Hin). congruence. }
  now rewrite Hall.
Qed.

Lemma clean_up_missing_by_var_incomplete_witness :
  clean_up example_units example_lib 0%Z [] (one_variable "tas" "K")
           (only_calendar [("calendar", PStr "noleap")] [("pr", PInt 0)])
  = Raise (ValueError
             "All variables must be in 'missing_by_var' if using this option.").
Proof.
  apply (clean_up_missing_by_var_incomplete
           example_units example_lib 0%Z [] (one_variable "tas" "K")
           (only_calendar [("calendar", PStr "noleap")] [("pr", PInt 0)])
           [("calendar", PStr "noleap")] [("pr", PInt 0)] "tas");
    try reflexivity.
  simpl. now left.
Defined.

(** ** change_units: what is left alone *)

Lemma keys_set_present {A : Type} (k : string) (v w : A) (d : PyDict.t A) :
  PyDict.get k d = Some w -> PyDict.keys (PyDict.set k v d) = PyDict.keys d.
Proof.
  induction d as [|[k' v'] d IH]; [discriminate|].
  cbn [PyDict.get PyDict.set]. destruct (String.eqb k k'); [reflexivity|].
  intros H. cbn [PyDict.keys map fst]. f_equal. now apply IH.
Qed.

Section ChangeUnitsFrame.

Context {V : Type} (lib : UnitsLib V).

Lemma change_units_var_frame (v target : string) (ds ds' : Dataset V) :
  change_units_var lib v target ds = Ok ds' ->
  (forall name, name <> v ->
                PyDict.get name (data_vars ds') = PyDict.get name (data_vars ds))
  /\ PyDict.keys (data_vars ds') = PyDict.keys (data_vars ds)
  /\ ds_attrs ds' = ds_attrs ds.
Proof.
  unfold change_units_var.
  destruct (PyDict.get v (data_vars ds)) as [var|] eqn:Ev;
    [|intros H; injection H as <-; auto].
  destruct (PyDict.item "units" (d_attrs var)) as [src|]; [|discriminate].
  cbn [bind].
  destruct (units2pint lib (attr_str src)) as [u_ds|]; [|discriminate].
  cbn [bind].
  destruct (units2pint lib target) as [u_out|]; [|discriminate].
  cbn [bind].
  destruct (negb (unit_eqb lib u_ds u_out));
    [|intros H; injection H as <-; auto].
  destruct (convert_var lib var (attr_str src) target u_ds u_out) as [var'|];
    [|discriminate].
  cbn [bind]. intros H. injection H as <-.
  unfold set_data_var. cbn [data_vars ds_attrs]. repeat split.
  - intros name Hne. now apply get_set_other.
  - exact (keys_set_present v var' var _ Ev).
Qed.

End ChangeUnitsFrame.

(** X17: [change_units] touches the variables it is asked to convert and nothing
    else: a data variable that is not named in [variables_and_units] keeps
    its values and its attributes, no data variable is added, dropped or
    moved, and the global attributes are kept. *)
Theorem change_units_frame
        {V : Type} (lib : UnitsLib V) (ds ds' : Dataset V)
        (variables_and_units : PyDict.t string) :
  change_units lib ds variables_and_units = Ok ds' ->
  (forall name, ~ In name (PyDict.keys variables_and_units) ->
                PyDict.get name (data_vars ds')
                = PyDict.get name (data_vars ds))
  /\ PyDict.keys (data_vars ds') = PyDict.keys (data_vars ds)
  /\ ds_attrs ds' = ds_attrs ds.
Proof.
  unfold change_units. revert ds ds'.
  induction variables_and_units as [|[v target] vu IH]; intros ds ds' H.
  - injection H as <-. auto.
  - cbn [for_each fst snd] in H.
    destruct (change_units_var lib v target ds) as [ds1|] eqn:E1;
      [|discriminate].
    cbn [bind] in H.
    destruct (change_units_var_frame lib _ _ _ _ E1) as (F1 & K1 & A1).
    destruct (IH _ _ H) as (F2 & K2 & A2).
    repeat split; [|congruence|congruence].
    intros name Hn. cbn [PyDict.keys map fst] in Hn.
    rewrite F2, F1; auto; intros ?; apply Hn; [left; congruence|now right].
Qed.

Lemma change_units_frame_witness :
  (forall name, ~ In name ["rsds"; "pr"] ->
                PyDict.get name
                  [("rsds", mkDataVar [10%Z]
                                      [("units", AStr "kJ");
                                       ("history", AStr "rate2amount")]);
                   ("tas", mkDataVar [280%Z] [("units", AStr "K")])]
                = PyDict.get name (data_vars two_variables))
  /\ ["rsds"; "tas"] = PyDict.keys (data_vars two_variables)
  /\ [("cat:domain", AStr "QC")] = ds_attrs two_variables.
Proof.
  apply (change_units_frame
           example_units two_variables
           (mkDataset ["time"] []
              [("rsds", mkDataVar [10%Z]
                                  [("units", AStr "kJ");
                                   ("history", AStr "rate2amount")]);
               ("tas", mkDataVar [280%Z] [("units", AStr "K")])]
              [("cat:domain", AStr "QC")])
           [("rsds", "kJ"); ("pr", "mm")]).
  reflexivity.
Defined.

(** ** stack_drop_nans and unstack_fill_nan: sizes, files, errors *)

Lemma length_keep {A : Type} (m : list bool) :
  forall l : list A,
    List.length l = List.length m -> List.length (keep m l) = count_true m.
Proof.
  unfold count_true.
  induction m as [|b m IH]; intros [|x l] H; try discriminate; [reflexivity|].
  cbn [keep filter]. injection H as H.
  destruct b; cbn [List.length]; now rewrite IH.
Qed.

Lemma Forall_coord_view (Q : list string * list Label -> Prop)
      (cs : PyDict.t Coord) :
  Forall (fun e => Q (snd e)) (coord_view cs) ->
  Forall (fun kc => Q (c_dims (snd kc), c_values (snd kc))) cs.
Proof.
  unfold coord_view. intros H. rewrite Forall_map in H. exact H.
Qed.

(** X18: [stack_drop_nans] keeps one point for every true cell of the mask: on
    a well-formed grid the call succeeds, every data variable and every
    coordinate of the result lies along the new dimension only and has as
    many cells as the mask has true values. *)
Theorem stack_drop_nans_sizes
        {V : Type} (ds : Dataset V) (mask : Mask) (new_dim : string)
        (fs : FileStore) :
  well_formed_grid ds mask new_dim ->
  List.length (cartesian (grid_axes ds)) = List.length (m_values mask) ->
  Forall (fun kv => List.length (d_values (snd kv))
                    = List.length (m_values mask)) (data_vars ds) ->
  exists out,
    stack_drop_nans ds mask new_dim None fs = Ok (out, fs)
    /\ Forall (fun kv => List.length (d_values (snd kv))
                         = count_true (m_values mask)) (data_vars out)
    /\ Forall (fun kc => c_dims (snd kc) = [new_dim]
                         /\ List.length (c_values (snd kc))
                            = count_true (m_values mask)) (coords out).
Proof.
  intros Hwf Hgrid Hvars.
  destruct (stack_drop_nans_view ds mask new_dim None fs fs Hwf eq_refl)
    as (out & Hrun & _ & Hview & Hdata & _ & _).
  exists out. split; [exact Hrun|]. split.
  - rewrite Hdata, Forall_map. eapply Forall_impl; [|exact Hvars].
    intros kv H. cbn [snd d_values]. now apply length_keep.
  - apply (Forall_coord_view
             (fun dv => fst dv = [new_dim]
                        /\ List.length (snd dv) = count_true (m_values mask))).
    rewrite Hview, Forall_map. apply Forall_forall.
    intros [name col] Hin. cbn [fst snd]. split; [reflexivity|].
    unfold stacked_columns in Hin. apply in_map_iff in Hin.
    destruct Hin as ([i d] & E & _). injection E as _ <-.
    unfold column, kept_points. rewrite length_map. now apply length_keep.
Qed.

Lemma stack_drop_nans_sizes_witness :
  exists out,
    stack_drop_nans grid_3x4 mask_3x4 "loc" None [] = Ok (out, [])
    /\ Forall (fun kv => List.length (d_values (snd kv)) = 9) (data_vars out)
    /\ Forall (fun kc => c_dims (snd kc) = ["loc"]
                         /\ List.length (c_values (snd kc)) = 9) (coords out).
Proof.
  apply (stack_drop_nans_sizes grid_3x4 mask_3x4 "loc" []).
  - constructor; simpl; try reflexivity.
    + repeat constructor; simpl; intuition discriminate.
    + discriminate.
    + intuition discriminate.
    + repeat constructor; simpl; intuition discriminate.
  - reflexivity.
  - repeat constructor.
Defined.

(** X19: With [to_file], [stack_drop_nans] writes the coordinates of the mask
    under the path obtained by filling the template with the domain and
    the original shape, leaves the other files as they are, and returns
    the dataset that it returns without [to_file]. *)
Theorem stack_drop_nans_to_file
        {V : Type} (ds : Dataset V) (mask : Mask) (new_dim tmpl : string)
        (fs fs' : FileStore) (out : Dataset V) :
  stack_drop_nans ds mask new_dim (Some tmpl) fs = Ok (out, fs') ->
  exists path,
    py_format tmpl
              (attr_str (PyDict.get_default "cat:domain" (AStr "unknown")
                                            (ds_attrs ds)))
              (original_shape_of (m_shape mask)) = Ok path
    /\ fs' = PyDict.set path (m_coords mask) fs
    /\ stack_drop_nans ds mask new_dim None fs = Ok (out, fs).
Proof.
  unfold stack_drop_nans. cbv zeta.
  destruct (xr_stack new_dim (m_dims mask) (m_shape mask) ds) as [stacked|];
    [|discriminate].
  cbn [bind].
  destruct (for_each (m_dims mask) _ _) as [out1|]; [|discriminate].
  cbn [bind]. unfold write_coords.
  destruct (py_format tmpl _ _) as [path|]; [|discriminate].
  cbn [bind].
  destruct (for_each (m_dims mask) _ out1) as [out2|]; [|discriminate].
  cbn [bind]. intros H. injection H as <- <-.
  exists path. repeat split.
Qed.

Lemma stack_drop_nans_to_file_witness :
  exists path,
    py_format "coords_{domain}_{shape}.nc" "QC" "2x2" = Ok path
    /\ [("old.nc", []); ("coords_QC_2x2.nc", small_coords)]
       = PyDict.set path (m_coords checkerboard) [("old.nc", [])]
    /\ stack_drop_nans small_grid checkerboard "loc" None [("old.nc", [])]
       = Ok (stacked_small_grid, [("old.nc", [])]).
Proof.
  apply (stack_drop_nans_to_file
           small_grid checkerboard "loc" "coords_{domain}_{shape}.nc"
           [("old.nc", [])]
           [("old.nc", []); ("coords_QC_2x2.nc", small_coords)]
           stacked_small_grid).
  reflexivity.
Defined.

Section UnstackErrors.

Context {V : Type}.

(** No coordinate along [dim] alone: the list given to [zip] is empty. *)
Lemma select_levels_none (ds : Dataset V) (dim : string)
      (coords_arg : CoordsArg) :
  is_names coords_arg = false ->
  Forall (fun kc => c_dims (snd kc) <> [dim]) (coords ds) ->
  select_levels ds dim coords_arg = Ok [].
Proof.
  intros Hn Hnone.
  assert (F : filter (fun kc => list_string_eqb (c_dims (snd kc)) [dim])
                     (coords ds) = []).
  { induction Hnone as [|kc cs H _ IH]; [reflexivity|].
    cbn [filter]. unfold list_string_eqb at 1.
    destruct (list_eq_dec string_dec (c_dims (snd kc)) [dim]);
      [contradiction|exact IH]. }
  destruct coords_arg; try discriminate Hn; cbn [select_levels];
    now rewrite F.
Qed.

End UnstackErrors.

(** X20: [unstack_fill_nan] on a dataset that has no coordinate along [dim]
    alone raises a [ValueError], whatever is given as [coords] unless it is
    a list or tuple of names: a mapping, a path or a dataset of
    coordinates does not stand for the coordinates that the dataset
    lacks. *)
Theorem unstack_fill_nan_no_stacked_coordinate
        {V : Type} (fill : V) (ds : Dataset V) (dim : string)
        (coords_arg : CoordsArg) (fs : FileStore) :
  is_names coords_arg = false ->
  Forall (fun kc => c_dims (snd kc) <> [dim]) (coords ds) ->
  unstack_fill_nan fill ds dim coords_arg fs
  = Raise (ValueError "not enough values to unpack (expected 2, got 0)").
Proof.
  intros Hn Hnone. unfold unstack_fill_nan.
  now rewrite (select_levels_none ds dim coords_arg Hn Hnone).
Qed.

Lemma unstack_fill_nan_no_stacked_coordinate_witness :
  unstack_fill_nan 0%Z small_grid "loc" (CoordsDataset small_coords) []
  = Raise (ValueError "not enough values to unpack (expected 2, got 0)").
Proof.
  apply (unstack_fill_nan_no_stacked_coordinate
           0%Z small_grid "loc" (CoordsDataset small_coords) []).
  - reflexivity.
  - repeat constructor; discriminate.
Defined.

(** X21: [maybe_unstack] unstacks the dimension "loc" only: what
    [stack_drop_nans] has stacked under another name makes it raise a
    [ValueError], unless [coords] is a list or tuple of names. *)
Theorem maybe_unstack_other_new_dim
        {V : Type} (fill : V) (ds : Dataset V) (mask : Mask)
        (new_dim : string) (coords_arg : CoordsArg) (fs fs' : FileStore)
        (out : Dataset V) :
  well_formed_grid ds mask new_dim ->
  new_dim <> "loc" ->
  is_names coords_arg = false ->
  stack_drop_nans ds mask new_dim None fs = Ok (out, fs') ->
  maybe_unstack fill out coords_arg true fs'
  = Raise (ValueError "not enough values to unpack (expected 2, got 0)").
Proof.
  intros Hwf Hne Hn Hrun.
  destruct (stack_drop_nans_view ds mask new_dim None fs fs Hwf eq_refl)
    as (out0 & Hrun0 & _ & Hview & _).
  rewrite Hrun in Hrun0. injection Hrun0 as <- <-.
  unfold maybe_unstack, unstack_fill_nan.
  rewrite (select_levels_none out "loc" coords_arg Hn); [reflexivity|].
  apply (Forall_coord_view (fun dv => fst dv <> ["loc"])).
  rewrite Hview, Forall_map. apply Forall_forall.
  intros nc _. cbn [fst snd]. congruence.
Qed.

Lemma maybe_unstack_other_new_dim_witness :
  maybe_unstack 0%Z
    (mkDataset ["point"]
       [("lat", mkCoord ["point"] [Some 10; Some 20]%Z
                        [("original_shape", AStr "2x2")]);
        ("lon", mkCoord ["point"] [Some 1; Some 2]%Z
                        [("original_shape", AStr "2x2")])]
       [("tas", mkDataVar [11; 22]%Z [("units", AStr "K")])]
       [("cat:domain", AStr "QC")])
    CoordsNone true []
  = Raise (ValueError "not enough values to unpack (expected 2, got 0)").
Proof.
  apply (maybe_unstack_other_new_dim
           0%Z small_grid checkerboard "point" CoordsNone [] []).
  - constructor; simpl; try reflexivity.
    + repeat constructor; simpl; intuition discriminate.
    + discriminate.
    + intuition discriminate.
    + repeat constructor; simpl; intuition discriminate.
  - discriminate.
  - reflexivity.
  - reflexivity.
Defined.

(** ** unstack_dates: where the values go *)

Lemma ys_eqb_eq (p q : Z * string) : ys_eqb p q = true <-> p = q.
Proof.
  destruct p as [y s], q as [y' s']. unfold ys_eqb. cbn [fst snd].
  rewrite andb_true_iff, Z.eqb_eq, String.eqb_eq. split.
  - now intros [-> ->].
  - intros H. injection H as -> ->. now split.
Qed.

Lemma In_insert_str (x y : string) (l : list string) :
  In y (insert_str x l) <-> y = x \/ In y l.
Proof.
  induction l as [|z l IH]; simpl; [intuition|].
  destruct (String.compare x z) eqn:E; simpl.
  - apply OrderedTypeEx.String_as_OT.cmp_eq in E. subst z. intuition.
  - intuition.
  - rewrite IH. intuition.
Qed.

Lemma In_unique_str (y : string) (l : list string) :
  In y (unique_str l) <-> In y l.
Proof.
  induction l as [|x l IH]; simpl; [tauto|].
  rewrite In_insert_str, IH. intuition.
Qed.

Lemma In_insert_Z (x y : Z) (l : list Z) :
  In y (insert_Z x l) <-> y = x \/ In y l.
Proof.
  induction l as [|z l IH]; simpl; [intuition|].
  destruct (Z.compare x z) eqn:E; simpl.
  - apply Z.compare_eq_iff in E. subst z. intuition.
  - intuition.
  - rewrite IH. intuition.
Qed.

Lemma In_unique_Z (y : Z) (l : list Z) : In y (unique_Z l) <-> In y l.
Proof.
  induction l as [|x l IH]; simpl; [tauto|].
  rewrite In_insert_Z, IH. intuition.
Qed.

Lemma In_grid_ys (years : list Z) (seasons : list string) (y : Z) (s : string) :
  In (y, s) (grid_ys years seasons) <-> In y years /\ In s seasons.
Proof.
  unfold grid_ys. rewrite in_flat_map. split.
  - intros (y' & Hy & Hin). apply in_map_iff in Hin.
    destruct Hin as (s' & E & Hs). injection E as -> ->. now split.
  - intros [Hy Hs]. exists y. split; [exact Hy|]. now apply in_map.
Qed.

(** A table built on a list by a function gives, at an element of the
    list, the value of the function. *)
Lemma assoc_ys_map {A : Type} (f : Z * string -> A) (l : list (Z * string))
      (p : Z * string) :
  In p l -> assoc_ys p (combine l (map f l)) = Some (f p).
Proof.
  induction l as [|q l IH]; [intros []|]. intros Hin.
  cbn [map combine assoc_ys]. destruct (ys_eqb p q) eqn:E.
  - apply ys_eqb_eq in E. now subst q.
  - destruct Hin as [->|Hin]; [|now apply IH].
    assert (H : ys_eqb p p = true) by now apply ys_eqb_eq. congruence.
Qed.

Lemma assoc_ys_app {A : Type} (p : Z * string)
      (t1 t2 : list ((Z * string) * A)) :
  assoc_ys p (t1 ++ t2)
  = match assoc_ys p t1 with Some v => Some v | None => assoc_ys p t2 end.
Proof.
  induction t1 as [|[q v] t1 IH]; simpl; [reflexivity|].
  now destruct (ys_eqb p q).
Qed.

Lemma assoc_ys_not_in {A : Type} (p : Z * string)
      (table : list ((Z * string) * A)) :
  ~ In p (map fst table) -> assoc_ys p table = None.
Proof.
  induction table as [|[q v] table IH]; [reflexivity|]. cbn [map fst In].
  intros H. cbn [assoc_ys]. destruct (ys_eqb p q) eqn:E.
  - apply ys_eqb_eq in E. subst q. tauto.
  - apply IH. tauto.
Qed.

(** The value kept for a point is the value at the last position of the
    point in the index. *)
Lemma assoc_ys_last {A : Type} (index : list (Z * string)) :
  forall (vals : list A) (i : nat) (p : Z * string) (v : A),
    nth_error index i = Some p ->
    nth_error vals i = Some v ->
    (forall j q, i < j -> nth_error index j = Some q -> q <> p) ->
    assoc_ys p (rev (combine index vals)) = Some v.
Proof.
  induction index as [|q index IH]; intros vals i p v Hp Hv Hlast.
  - destruct i; discriminate.
  - destruct vals as [|w vals]; [destruct i; discriminate|].
    cbn [combine rev]. rewrite assoc_ys_app.
    destruct i as [|i]; cbn [nth_error] in Hp, Hv.
    + injection Hp as ->. injection Hv as ->.
      rewrite assoc_ys_not_in.
      * cbn [assoc_ys].
        assert (H : ys_eqb p p = true) by now apply ys_eqb_eq.
        now rewrite H.
      * intros Hin. apply in_map_iff in Hin.
        destruct Hin as ([q w] & E & Hin). cbn [fst] in E. subst q.
        apply in_rev, in_combine_l, In_nth_error in Hin.
        destruct Hin as [j Hj]. apply (Hlast (S j) p); [lia|exact Hj|].
        reflexivity.
    + rewrite (IH vals i p v Hp Hv); [reflexivity|].
      intros j q' Hj Hq'. apply (Hlast (S j) q'); [lia|exact Hq'].
Qed.

Lemma nth_error_combine {A B : Type} (l : list A) (l' : list B) (i : nat)
      (a : A) (b : B) :
  nth_error l i = Some a -> nth_error l' i = Some b ->
  nth_error (combine l l') i = Some (a, b).
Proof.
  revert l' i. induction l as [|x l IH]; intros [|y l'] [|i]; simpl;
    try discriminate.
  - now intros [= ->] [= ->].
  - apply IH.
Qed.

Lemma Forall2_nth_error {A B : Type} (R : A -> B -> Prop) (l : list A)
      (l' : list B) (i : nat) (a : A) :
  Forall2 R l l' -> nth_error l i = Some a ->
  exists b, nth_error l' i = Some b /\ R a b.
Proof.
  intros H. revert i. induction H as [|x y l l' Hxy _ IH]; intros [|i]; simpl;
    try discriminate.
  - intros [= ->]. now exists y.
  - apply IH.
Qed.

Lemma In_combine_nth {A B : Type} (l : list A) (l' : list B) (a : A) (b : B) :
  In (a, b) (combine l l') ->
  exists i, nth_error l i = Some a /\ nth_error l' i = Some b.
Proof.
  revert l'. induction l as [|x l IH]; intros [|y l']; simpl; try tauto.
  intros [E|H].
  - injection E as -> ->. now exists 0.
  - destruct (IH _ H) as (i & H1 & H2). now exists (S i).
Qed.

Lemma Forall2_nth_error_r {A B : Type} (R : A -> B -> Prop) (l : list A)
      (l' : list B) (i : nat) (b : B) :
  Forall2 R l l' -> nth_error l' i = Some b ->
  exists a, nth_error l i = Some a /\ R a b.
Proof.
  intros H. revert i. induction H as [|x y l l' Hxy _ IH]; intros [|i]; simpl;
    try discriminate.
  - intros [= ->]. now exists x.
  - apply IH.
Qed.

Section Placement.

Context {V : Type} (fill : V).
Variable infer_freq : list Date -> option string.
Variable parse_offset : string -> nat * string.

(** The result of a successful call: the labels of the timestamps, and in
    every cell of the grid the last value that the index of years and
    labels gives for it, if any. *)
Lemma unstack_dates_structure (ds : TimeSeries V)
      (seasons : option (PyDict.t string)) (smap : PyDict.t string)
      (out : Seasonal V) :
  resolve_seasons infer_freq parse_offset ds seasons = Ok smap ->
  unstack_dates fill infer_freq parse_offset ds seasons = Ok out ->
  exists labels,
    Forall2 (fun d s => PyDict.get (month_day d) smap = Some s)
            (ts_time ds) labels
    /\ (forall y, In y (out_time out) <-> In y (map year (ts_time ds)))
    /\ (forall s, In s (out_season out) <-> In s labels)
    /\ forall name vals p,
         PyDict.get name (ts_vars ds) = Some vals ->
         In p (grid_ys (out_time out) (out_season out)) ->
         season_cell out name p
         = Some (match assoc_ys p
                               (rev (combine (combine (map year (ts_time ds))
                                                      labels) vals)) with
                 | Some v => v
                 | None => fill
                 end).
Proof.
  intros Hres Hrun. unfold unstack_dates in Hrun.
  rewrite Hres in Hrun. cbn [bind] in Hrun.
  destruct (for_each (ts_time ds) _ []) as [seas|e] eqn:Hseas;
    cbn [bind] in Hrun; [|discriminate].
  destruct (for_each (unique_str seas) _ []) as [pairs|e] eqn:Hkeys;
    cbn [bind] in Hrun; [|discriminate].
  injection Hrun as <-.
  apply (for_each_append (fun d => PyDict.item (month_day d) smap)
                         (fun _ s => s)) in Hseas.
  destruct Hseas as (labels & -> & Hlabels). cbn [app] in *.
  apply (for_each_append (fun s => PyDict.item s (invert smap))
                         (fun s k => (s, k))) in Hkeys.
  destruct Hkeys as (items & -> & Hitems). cbn [app] in *.
  assert (Hfst : map fst items = unique_str labels).
  { clear -Hitems. induction Hitems as [|s z l items (k & _ & ->) _ IH];
      simpl; [reflexivity|now rewrite IH]. }
  assert (Haxis : forall s, In s (map fst (sort_by_key snd items))
                            <-> In s labels).
  { intros s. rewrite <- (In_unique_str s labels), <- Hfst. split; intros H.
    - eapply Permutation_in;
        [apply Permutation_map; apply sort_by_key_perm|exact H].
    - eapply Permutation_in;
        [apply Permutation_map; symmetry; apply sort_by_key_perm|exact H]. }
  exists labels. cbn [out_time out_season out_vars]. repeat split.
  - clear -Hlabels. induction Hlabels as [|d z l items (s & Hs & ->) _ IH];
      constructor; [|exact IH].
    unfold PyDict.item in Hs. destruct (PyDict.get _ smap);
      [now injection Hs as ->|discriminate].
  - apply In_unique_Z.
  - apply In_unique_Z.
  - apply Haxis.
  - apply Haxis.
  - intros name vals [y s] Hname Hin.
    apply In_grid_ys in Hin. destruct Hin as [Hy Hs].
    unfold season_cell. cbn [out_vars out_time out_season].
    rewrite (get_map_values
               (fun vals =>
                  regrid_ys fill
                    (grid_ys (unique_Z (map year (ts_time ds)))
                             (unique_str labels))
                    (regrid_ys_last fill
                       (combine (map year (ts_time ds)) labels) vals
                       (grid_ys (unique_Z (map year (ts_time ds)))
                                (unique_str labels)))
                    (grid_ys (unique_Z (map year (ts_time ds)))
                             (map fst (sort_by_key snd items))))).
    rewrite Hname. cbn [option_map]. unfold regrid_ys at 1.
    rewrite assoc_ys_map by (apply In_grid_ys; now split).
    unfold regrid_ys_last. rewrite assoc_ys_map; [reflexivity|].
    apply In_grid_ys. split; [exact Hy|].
    apply In_unique_str. now apply Haxis.
Qed.

End Placement.

(** X22: [unstack_dates] puts the values where they belong: the value of a
    variable at a timestamp is found in the result at the year of the
    timestamp and at the season that the season map gives for its month
    and day, provided that no later timestamp has the same year and the
    same season; of several timestamps with the same year and season the
    last one gives the value. *)
Theorem unstack_dates_places_values
        {V : Type} (fill : V) (infer_freq : list Date -> option string)
        (parse_offset : string -> nat * string) (ds : TimeSeries V)
        (seasons : option (PyDict.t string)) (smap : PyDict.t string)
        (out : Seasonal V) (name : string) (vals : list V) (i : nat)
        (d : Date) (v : V) :
  resolve_seasons infer_freq parse_offset ds seasons = Ok smap ->
  unstack_dates fill infer_freq parse_offset ds seasons = Ok out ->
  PyDict.get name (ts_vars ds) = Some vals ->
  nth_error (ts_time ds) i = Some d ->
  nth_error vals i = Some v ->
  (forall j d', i < j -> nth_error (ts_time ds) j = Some d' ->
                year d' = year d ->
                PyDict.get (month_day d') smap
                <> PyDict.get (month_day d) smap) ->
  exists s,
    PyDict.get (month_day d) smap = Some s
    /\ In (year d) (out_time out)
    /\ In s (out_season out)
    /\ season_cell out name (year d, s) = Some v.
Proof.
  intros Hres Hrun Hname Hd Hv Hlast.
  destruct (unstack_dates_structure fill infer_freq parse_offset ds seasons
              smap out Hres Hrun)
    as (labels & Hlabels & Hyears & Hseasons & Hcells).
  destruct (Forall2_nth_error _ _ _ i d Hlabels Hd) as (s & Hs & Hget).
  assert (Hy : In (year d) (out_time out)).
  { apply Hyears, in_map. eapply nth_error_In, Hd. }
  assert (Hin : In s (out_season out)).
  { apply Hseasons. eapply nth_error_In, Hs. }
  exists s. repeat split; auto.
  rewrite (Hcells name vals (year d, s) Hname)
    by (apply In_grid_ys; now split).
  rewrite (assoc_ys_last _ vals i (year d, s) v); [reflexivity| |exact Hv|].
  - apply nth_error_combine; [|exact Hs]. now apply map_nth_error.
  - intros j [y' s'] Hj Hq E. injection E as -> ->.
    destruct (nth_error (ts_time ds) j) as [d'|] eqn:Hd'.
    + destruct (Forall2_nth_error _ _ _ j d' Hlabels Hd') as (s' & Hs' & Hg').
      rewrite (nth_error_combine _ _ j _ _
                 (map_nth_error year j _ Hd') Hs') in Hq.
      injection Hq as Hyr ->. apply (Hlast j d' Hj Hd' Hyr). congruence.
    + apply nth_error_None in Hd'.
      assert (Hlen : j < List.length (combine (map year (ts_time ds)) labels))
        by (apply nth_error_Some; congruence).
      rewrite length_combine, length_map in Hlen. lia.
Qed.

Lemma unstack_dates_places_values_witness :
  exists s,
    PyDict.get (month_day (mkDate 2001 12 1)) two_winter_keys = Some s
    /\ In (year (mkDate 2001 12 1)) [2001%Z]
    /\ In s ["winter"; "summer"]
    /\ season_cell (mkSeasonal [2001%Z] ["winter"; "summer"]
                               [("tas", [2; 3]%Z)])
                   "tas" (year (mkDate 2001 12 1), s) = Some 2%Z.
Proof.
  apply (unstack_dates_places_values
           0%Z quarterly_infer_freq quarterly_parse_offset same_year_winters
           (Some two_winter_keys) two_winter_keys
           (mkSeasonal [2001%Z] ["winter"; "summer"] [("tas", [2; 3]%Z)])
           "tas" [1; 2; 3]%Z 1 (mkDate 2001 12 1) 2%Z); try reflexivity.
  intros j d' Hj Hd' _.
  destruct j as [|[|[|j]]]; try lia; cbn in Hd'.
  - injection Hd' as <-. discriminate.
  - destruct j; discriminate.
Defined.

(** X23: A cell of the result whose year and season belong to no timestamp
    holds the fill value. *)
Theorem unstack_dates_fills_gaps
        {V : Type} (fill : V) (infer_freq : list Date -> option string)
        (parse_offset : string -> nat * string) (ds : TimeSeries V)
        (seasons : option (PyDict.t string)) (smap : PyDict.t string)
        (out : Seasonal V) (name : string) (vals : list V)
        (y : Z) (s : string) :
  resolve_seasons infer_freq parse_offset ds seasons = Ok smap ->
  unstack_dates fill infer_freq parse_offset ds seasons = Ok out ->
  PyDict.get name (ts_vars ds) = Some vals ->
  In y (out_time out) ->
  In s (out_season out) ->
  (forall d, In d (ts_time ds) -> year d = y ->
             PyDict.get (month_day d) smap <> Some s) ->
  season_cell out name (y, s) = Some fill.
Proof.
  intros Hres Hrun Hname Hy Hs Hnone.
  destruct (unstack_dates_structure fill infer_freq parse_offset ds seasons
              smap out Hres Hrun)
    as (labels & Hlabels & Hyears & Hseasons & Hcells).
  rewrite (Hcells name vals (y, s) Hname) by (apply In_grid_ys; now split).
  rewrite assoc_ys_not_in; [reflexivity|].
  intros Hin. apply in_map_iff in Hin. destruct Hin as ([p v] & E & Hin).
  cbn [fst] in E. subst p. apply in_rev, in_combine_l in Hin.
  apply In_combine_nth in Hin. destruct Hin as (i & Hi & Hl).
  destruct (Forall2_nth_error_r _ _ _ i s Hlabels Hl) as (d & Hd & Hget).
  apply (Hnone d); [eapply nth_error_In, Hd| |exact Hget].
  rewrite (map_nth_error year i _ Hd) in Hi. now injection Hi.
Qed.

Lemma unstack_dates_fills_gaps_witness :
  season_cell (mkSeasonal [2000; 2001]%Z ["winter"; "summer"]
                          [("tas", [1; 0; 2; 3]%Z)])
              "tas" (2000%Z, "summer") = Some 0%Z.
Proof.
  apply (unstack_dates_fills_gaps
           0%Z quarterly_infer_freq quarterly_parse_offset winter_summer
           (Some two_winter_keys) two_winter_keys
           (mkSeasonal [2000; 2001]%Z ["winter"; "summer"]
                       [("tas", [1; 0; 2; 3]%Z)])
           "tas" [1; 2; 3]%Z 2000%Z "summer");
    try reflexivity.
  - simpl. tauto.
  - simpl. tauto.
  - intros d [<-|[<-|[<-|[]]]]; simpl; intros H; discriminate.
Defined.


Lemma labels_missing_key (smap : PyDict.t string) (l : list Date) :
  forall acc : list string,
    (exists d, In d l /\ PyDict.get (month_day d) smap = None) ->
    exists k,
      PyDict.get k smap = None
      /\ for_each l
           (fun d acc =>
              s <- PyDict.item (month_day d) smap ;; Ok (acc ++ [s])) acc
         = Raise (KeyError k).
Proof.
  induction l as [|d0 l IH]; intros acc (d & Hin & Hnone); [destruct Hin|].
  cbn [for_each]. unfold PyDict.item at 1.
  destruct (PyDict.get (month_day d0) smap) as [s|] eqn:E.
  - cbn [bind]. apply IH. exists d. split; [|exact Hnone].
    destruct Hin as [->|Hin]; [congruence|exact Hin].
  - exists (month_day d0). now split.
Qed.

(** X24: A timestamp whose month and day are not a key of the season map makes
    [unstack_dates] raise a [KeyError] for such a key. *)
Theorem unstack_dates_missing_key
        {V : Type} (fill : V) (infer_freq : list Date -> option string)
        (parse_offset : string -> nat * string) (ds : TimeSeries V)
        (seasons : option (PyDict.t string)) (smap : PyDict.t string)
        (d : Date) :
  resolve_seasons infer_freq parse_offset ds seasons = Ok smap ->
  In d (ts_time ds) ->
  PyDict.get (month_day d) smap = None ->
  exists k,
    PyDict.get k smap = None
    /\ unstack_dates fill infer_freq parse_offset ds seasons
       = Raise (KeyError k).
Proof.
  intros Hres Hin Hnone.
  destruct (labels_missing_key smap (ts_time ds) []
              (ex_intro _ d (conj Hin Hnone))) as (k & Hk & Hrun).
  exists k. split; [exact Hk|].
  unfold unstack_dates. rewrite Hres. cbn [bind]. now rewrite Hrun.
Qed.

Lemma unstack_dates_missing_key_witness :
  exists k,
    PyDict.get k [("12-01", "winter")] = None
    /\ unstack_dates 0%Z quarterly_infer_freq quarterly_parse_offset
                     winter_summer (Some [("12-01", "winter")])
       = Raise (KeyError k).
Proof.
  apply (unstack_dates_missing_key
           0%Z quarterly_infer_freq quarterly_parse_offset winter_summer
           (Some [("12-01", "winter")]) [("12-01", "winter")]
           (mkDate 2001 6 1)).
  - reflexivity.
  - simpl. tauto.
  - reflexivity.
Defined.


(** The season maps that are inferred have keys on the first of a month
    only. *)

Lemma two_digits_digits (n : nat) :
  forallb is_digit (list_ascii_of_string (two_digits n)) = true.
Proof.
  unfold two_digits, PyStr.of_nat. destruct (Nat.ltb n 10).
  - cbn [append list_ascii_of_string forallb].
    now rewrite string_of_uint_digits.
  - apply string_of_uint_digits.
Qed.

Lemma split_at_dash (a : string) :
  forall b c c' : string,
    forallb is_digit (list_ascii_of_string a) = true ->
    forallb is_digit (list_ascii_of_string b) = true ->
    (a ++ "-" ++ c)%string = (b ++ "-" ++ c')%string ->
    c = c'.
Proof.
  induction a as [|x a IH]; intros [|y b] c c' Ha Hb E; cbn in E.
  - now injection E.
  - injection E as <- _. cbn in Hb. discriminate.
  - injection E as -> _. cbn in Ha. discriminate.
  - injection E as _ E. cbn in Ha, Hb.
    apply andb_prop in Ha. apply andb_prop in Hb.
    apply (IH b c c'); tauto.
Qed.

Lemma two_digits_first (n : nat) : two_digits n = "01" -> n = 1.
Proof.
  unfold two_digits. destruct (Nat.ltb_spec n 10) as [Hlt|Hge]; intros E.
  - cbn in E. injection E as E.
    pose proof (py_int_of_nat n) as H. rewrite E in H. cbn in H.
    injection H as H. lia.
  - pose proof (py_int_of_nat n) as H. rewrite E in H. cbn in H.
    injection H as H. lia.
Qed.

Lemma month_day_start (d : Date) (m : nat) :
  month_day d = month_start m -> day d = 1.
Proof.
  unfold month_day, month_start. intros E.
  apply two_digits_first.
  exact (split_at_dash _ _ _ _ (two_digits_digits _) (two_digits_digits _) E).
Qed.

Lemma keys_fold_set {A B : Type} (key : A -> string) (val : A -> B)
      (l : list A) :
  forall (acc : PyDict.t B) (k : string),
    In k (PyDict.keys (fold_left (fun acc x => PyDict.set (key x) (val x) acc)
                                 l acc)) ->
    In k (PyDict.keys acc) \/ exists x, In x l /\ k = key x.
Proof.
  induction l as [|x l IH]; intros acc k H; [now left|].
  cbn [fold_left] in H. destruct (IH _ _ H) as [H'|(x' & Hx & ->)].
  - destruct (String.eqb_spec k (key x)) as [->|Hne].
    + right. exists x. split; [now left|reflexivity].
    + left. destruct (in_keys_get _ _ H') as [v Hv].
      rewrite get_set_other in Hv by exact Hne.
      exact (get_in_keys _ _ _ Hv).
  - right. exists x'. split; [now right|reflexivity].
Qed.

Lemma infer_seasons_keys (mult : nat) (base : string) (months : list nat)
      (k : string) :
  In k (PyDict.keys (infer_seasons mult base months)) ->
  exists m, k = month_start m.
Proof.
  unfold infer_seasons.
  destruct (_ || _).
  - intros H.
    destruct (keys_fold_set month_start
                (fun m => season_label m
                            (mult * (if String.eqb base "M" then 1 else 3)))
                _ _ _ H) as [[]|(m & _ & ->)].
    now exists m.
  - destruct (PyStr.mem base ["A"; "Y"]).
    + intros H. destruct (String.eqb_spec k "01-01") as [->|Hne];
        [now exists 1|].
      destruct (in_keys_get _ _ H) as [v Hv].
      rewrite get_set_other in Hv by exact Hne.
      apply get_in_keys in Hv.
      destruct (keys_fold_set (fun ma : nat * string => month_start (fst ma))
                  (fun ma => ("annual-" ++ snd ma)%string) _ _ _ Hv)
        as [[]|(ma & _ & ->)].
      now exists (fst ma).
    + intros H.
      destruct (keys_fold_set (fun ma : nat * string => month_start (fst ma))
                  (fun ma => snd ma) _ _ _ H) as [[]|(ma & _ & ->)].
      now exists (fst ma).
Qed.

(** X25: When the seasons are inferred from a frequency of months, quarters
    or years, every key of the season map is the first day of a month: a
    series with a timestamp on another day, such as one stamped at the end
    of each period, passes the check of the frequency and then makes
    [unstack_dates] raise a [KeyError]. *)
Theorem unstack_dates_inferred_needs_month_start
        {V : Type} (fill : V) (infer_freq : list Date -> option string)
        (parse_offset : string -> nat * string) (ds : TimeSeries V)
        (freq base : string) (mult : nat) (d : Date) :
  infer_freq (ts_time ds) = Some freq ->
  parse_offset freq = (mult, base) ->
  PyStr.mem base ["A"; "Q"; "M"; "Y"] = true ->
  In d (ts_time ds) ->
  day d <> 1 ->
  exists k,
    unstack_dates fill infer_freq parse_offset ds None = Raise (KeyError k).
Proof.
  intros Hfreq Hparse Hbase Hin Hday.
  assert (Hres : resolve_seasons infer_freq parse_offset ds None
                 = Ok (infer_seasons mult base (map month (ts_time ds)))).
  { unfold resolve_seasons. rewrite Hfreq, Hparse. now rewrite Hbase. }
  assert (Hnone : PyDict.get (month_day d)
                             (infer_seasons mult base (map month (ts_time ds)))
                  = None).
  { destruct (PyDict.get (month_day d) _) as [s|] eqn:E; [|reflexivity].
    apply get_in_keys in E. apply infer_seasons_keys in E.
    destruct E as [m E]. apply month_day_start in E. contradiction. }
  destruct (labels_missing_key _ (ts_time ds) []
              (ex_intro _ d (conj Hin Hnone))) as (k & _ & Hrun).
  exists k. unfold unstack_dates. rewrite Hres. cbn [bind]. now rewrite Hrun.
Qed.

Lemma unstack_dates_inferred_needs_month_start_witness :
  exists k,
    unstack_dates 0%Z month_end_infer_freq month_end_parse_offset month_ends
                  None
    = Raise (KeyError k).
Proof.
  apply (unstack_dates_inferred_needs_month_start
           0%Z month_end_infer_freq month_end_parse_offset month_ends
           "M" "M" 1 (mkDate 2000 2 29)).
  - reflexivity.
  - reflexivity.
  - reflexivity.
  - simpl. tauto.
  - simpl. lia.
Defined.


(** ** The vocabulary files *)

(** X26: The entry [is_regex] of a vocabulary file is a flag, not a word of the
    vocabulary: in a file whose flag is absent or false, the key
    "is_regex" is treated as a key without entry, and every other key is
    looked up in the entries of the file as they are. *)
Theorem read_CVs_flag_is_not_an_entry
        (fullmatch : string -> string -> result bool)
        (cv_json : PyDict.t PyVal) (key : string) (default : PyVal) :
  NoDup (PyDict.keys cv_json) ->
  py_truthy (PyDict.get_default "is_regex" (PBool false) cv_json) = false ->
  read_CVs fullmatch cv_json "is_regex" default
  = cv_default "is_regex" default
  /\ (key <> "is_regex" ->
      read_CVs fullmatch cv_json key default
      = cvfunc fullmatch false cv_json key default).
Proof.
  intros ND Hflag. unfold read_CVs. rewrite Hflag. unfold cvfunc. split.
  - pose proof (mem_remove_same "is_regex" cv_json ND) as H.
    unfold PyDict.mem in H.
    now destruct (PyDict.get "is_regex" (PyDict.remove "is_regex" cv_json)).
  - intros Hne. now rewrite get_remove_other.
Qed.

Lemma read_CVs_flag_is_not_an_entry_witness :
  read_CVs literal_match (("is_regex", PBool false) :: example_cv)
           "is_regex" (PStr "pass")
  = cv_default "is_regex" (PStr "pass")
  /\ ("tas" <> "is_regex" ->
      read_CVs literal_match (("is_regex", PBool false) :: example_cv)
               "tas" (PStr "pass")
      = cvfunc literal_match false (("is_regex", PBool false) :: example_cv)
               "tas" (PStr "pass")).
Proof.
  apply (read_CVs_flag_is_not_an_entry
           literal_match (("is_regex", PBool false) :: example_cv)
           "tas" (PStr "pass")).
  - simpl. repeat constructor; simpl; intuition discriminate.
  - reflexivity.
Defined.

(** ** clean_up: the order of the stages *)

Lemma get_filter_key {A : Type} (g : string -> bool) (k : string)
      (d : PyDict.t A) :
  PyDict.get k (filter (fun kv => g (fst kv)) d)
  = if g k then PyDict.get k d else None.
Proof.
  induction d as [|[k' v] d IH]; [now destruct (g k)|].
  cbn [filter fst]. destruct (g k') eqn:E; cbn [PyDict.get].
  - destruct (String.eqb_spec k k') as [->|Hne]; [now rewrite E|exact IH].
  - rewrite IH. destruct (String.eqb_spec k k') as [->|Hne];
      [now rewrite E|reflexivity].
Qed.

Lemma keys_set {A : Type} (k : string) (v : A) (d : PyDict.t A) :
  PyDict.keys (PyDict.set k v d)
  = if PyDict.mem k d then PyDict.keys d else PyDict.keys d ++ [k].
Proof.
  unfold PyDict.mem.
  induction d as [|[k' v'] d IH]; [reflexivity|].
  cbn [PyDict.set PyDict.get]. destruct (String.eqb k k'); [reflexivity|].
  unfold PyDict.keys in *. cbn [map fst]. rewrite IH.
  now destruct (PyDict.get k d).
Qed.

Lemma NoDup_keys_set {A : Type} (k : string) (v : A) (d : PyDict.t A) :
  NoDup (PyDict.keys d) -> NoDup (PyDict.keys (PyDict.set k v d)).
Proof.
  intros ND. rewrite keys_set. unfold PyDict.mem.
  destruct (PyDict.get k d) as [w|] eqn:E; [exact ND|].
  apply NoDup_app; [exact ND|repeat constructor; intros []|].
  intros x Hx [->|[]]. destruct (in_keys_get x d Hx) as [w Hw]. congruence.
Qed.

Lemma get_update {A : Type} (k : string) (other : PyDict.t A) :
  NoDup (PyDict.keys other) ->
  forall d : PyDict.t A,
    PyDict.get k (PyDict.update d other)
    = match PyDict.get k other with
      | Some v => Some v
      | None => PyDict.get k d
      end.
Proof.
  unfold PyDict.update.
  induction other as [|[k' v'] other IH]; intros ND d; [reflexivity|].
  inversion ND as [|? ? Hk ND']; subst. cbn [fold_left fst snd PyDict.get].
  rewrite (IH ND'). destruct (String.eqb_spec k k') as [->|Hne].
  - rewrite (get_not_in k' other Hk). apply get_set_same.
  - now rewrite get_set_other.
Qed.


(** X27: The processing level is written before the attributes are removed:
    [clean_up(ds, to_level=lvl, remove_all_attrs_except={"global": l})]
    with no pattern of [l] that matches "cat:processing_level" returns a
    dataset without this attribute, although [to_level] was given. *)
Theorem clean_up_to_level_then_removed
        {V : Type} (units : UnitsLib V) (lib : CleanUpLib V) (fill : V)
        (fs : FileStore) (ds : Dataset V) (lvl : string) (l : list string) :
  lvl <> "" ->
  Forall (fun a => a <> "") l ->
  NoDup (PyDict.keys (ds_attrs ds)) ->
  unmatched l "cat:processing_level" = true ->
  exists attrs',
    clean_up units lib fill fs ds (level_and_keep lvl [("global", l)])
    = Ok (set_attrs attrs' ds)
    /\ PyDict.get "cat:processing_level" attrs' = None.
Proof.
  intros Hlvl Hl ND Hun.
  exists (filter (fun kv => negb (unmatched l (fst kv)))
                 (PyDict.set "cat:processing_level" (AStr lvl) (ds_attrs ds))).
  split.
  - unfold level_and_keep. run_stages.
    destruct lvl as [|c lvl]; [congruence|]. cbn [PyStr.truthy bind].
    cbn [ds_attrs set_attrs].
    rewrite (keep_loop l _ Hl (NoDup_keys_set _ _ _ ND)). reflexivity.
  - rewrite (get_filter_key (fun k => negb (unmatched l k))). now rewrite Hun.
Qed.

Lemma clean_up_to_level_then_removed_witness :
  exists attrs',
    clean_up example_units example_lib 0%Z [] attrs_dataset
             (level_and_keep "biasadjusted" [("global", ["^cat:d"; "comment"])])
    = Ok (set_attrs attrs' attrs_dataset)
    /\ PyDict.get "cat:processing_level" attrs' = None.
Proof.
  apply (clean_up_to_level_then_removed
           example_units example_lib 0%Z [] attrs_dataset "biasadjusted"
           ["^cat:d"; "comment"]).
  - discriminate.
  - repeat constructor; discriminate.
  - simpl. repeat constructor; simpl; intuition discriminate.
  - reflexivity.
Defined.


(** X28: Attributes are added after the removal:
    [clean_up(ds, attrs_to_remove={"global": l}, add_attrs={"global": add})]
    returns a dataset in which every attribute of [add] has the value
    given, also one that a pattern of [l] matches. *)
Theorem clean_up_added_after_removal
        {V : Type} (units : UnitsLib V) (lib : CleanUpLib V) (fill : V)
        (fs : FileStore) (ds : Dataset V) (l : list string) (add : Attrs)
        (k : string) (v : AttrVal) :
  Forall (fun a => a <> "") l ->
  NoDup (PyDict.keys (ds_attrs ds)) ->
  (forall k, In k (PyDict.keys (ds_attrs ds)) ->
             List.length (matching l k) <= 1) ->
  NoDup (PyDict.keys add) ->
  PyDict.get k add = Some v ->
  exists attrs',
    clean_up units lib fill fs ds
             (remove_and_add [("global", l)] [("global", add)])
    = Ok (set_attrs attrs' ds)
    /\ PyDict.get k attrs' = Some v.
Proof.
  intros Hl ND Hone NDa Hget.
  exists (PyDict.update (filter (fun kv => unmatched l (fst kv)) (ds_attrs ds))
                        add).
  split.
  - unfold remove_and_add. run_stages.
    rewrite (remove_loop l (ds_attrs ds) Hl ND Hone). reflexivity.
  - rewrite (get_update k add NDa). now rewrite Hget.
Qed.

Lemma clean_up_added_after_removal_witness :
  exists attrs',
    clean_up example_units example_lib 0%Z [] attrs_dataset
             (remove_and_add [("global", ["history"])]
                             [("global", [("history", AStr "cleaned")])])
    = Ok (set_attrs attrs' attrs_dataset)
    /\ PyDict.get "history" attrs' = Some (AStr "cleaned").
Proof.
  apply (clean_up_added_after_removal
           example_units example_lib 0%Z [] attrs_dataset ["history"]
           [("history", AStr "cleaned")] "history" (AStr "cleaned")).
  - repeat constructor; discriminate.
  - simpl. repeat constructor; simpl; intuition discriminate.
  - simpl. intros k H.
    repeat (destruct H as [<-|H]; [vm_compute; lia|]). destruct H.
  - simpl. repeat constructor; simpl; intuition discriminate.
  - reflexivity.
Defined.

